(** * Bank agent: the record store, its query service and the tool adapter

    A shallow embedding of [bank_agent/entities/database.py] (the SQLite
    backed [Database] class) and of [bank_agent/tools/tool.py] (the tool
    functions and their pydantic response models), with the properties
    the specification states about them; then of the complaint model of
    [bank_agent/entities/Complain.py] and of the cart of
    [customer_service_agent/tools/tool.py].

    Conventions of the embedding.
    - A table is the list of its rows in rowid order; a row is a record
      with one field per column of the [CREATE TABLE] statement.
    - Integers are kept in [Z]. The methods of [Database] are modelled on
      arguments that are bound already; the binding is part of the call a
      tool makes ([bind], [bind_int]): a Python [int] outside SQLite's
      signed 64-bit range raises [OverflowError] there.
    - Text is compared bytewise (SQLite's BINARY collation), which is
      [String.compare] on strings.
    - A column declared [DATE] or [TIMESTAMP] has NUMERIC affinity. The rows
      of the model hold there a text that does not read as a number, as a
      date written with dashes and colons is. A text bound to a statement
      and compared with such a column is a number when it reads as one
      ([numeric_affinity]), and a number is less than every text.
    - [ORDER BY] leaves the order of rows with equal keys open; the model
      fixes it by sorting the rows of the table with a merge sort.
    - A formatted string (an f-string) is kept as the list of its pieces,
      literal text and interpolated values, in order. *)

From Stdlib Require Import QArith_base.
From stdpp Require Import gmap strings list sorting pretty.

Set Warnings "-register-all".
Local Open Scope string_scope.
Local Open Scope Z_scope.

(** ** Python values *)

(** The values that travel through a parameter bag, a session-state bag and
    the payload of a response: [None], booleans, integers, finite floats (by
    their exact rational value), strings, lists and dictionaries. *)
Inductive pyval : Type :=
| VNone
| VBool (b : bool)
| VInt (z : Z)
| VFloat (q : Q)
| VStr (s : string)
| VList (l : list pyval)
| VDict (d : list (string * pyval)).

(** Python's truth value testing, as used by [if x:], [not x] and [all]. *)
Definition truthy (v : pyval) : bool :=
  match v with
  | VNone => false
  | VBool b => b
  | VInt z => negb (z =? 0)
  | VFloat q => negb (Qnum q =? 0)
  | VStr s => negb (String.eqb s "")
  | VList l => match l with [] => false | _ => true end
  | VDict d => match d with [] => false | _ => true end
  end.

(** [d.get(key)]: the value under [key], [None] when the key is absent. *)
Definition dict_get (d : gmap string pyval) (key : string) : pyval :=
  default VNone (d !! key).

(** [d.get(key, dflt)]. *)
Definition dict_get_default (d : gmap string pyval) (key : string)
    (dflt : pyval) : pyval :=
  default dflt (d !! key).

(** The exceptions the modelled code can raise. *)
Inductive exn : Type :=
| KeyError (key : string)
| TypeError (what : string)
| ValueError (what : string)
| IntegrityError (what : string)
| ProgrammingError (what : string)
| OverflowError (what : string)
| ValidationError (model : string) (fields : list string).

(** A piece of a formatted string. *)
Inductive piece : Type :=
| Lit (s : string)
| Val (v : pyval)
| Exc (e : exn).

Definition text : Type := list piece.

(** ** Rows of the five tables *)

Module Customer.
Record t := mk {
  id : Z; name : string; email : string; phone : string;
  address : string; dob : string; created_at : string;
  updated_at : string }.
End Customer.

Module Account.
Record t := mk {
  id : Z; customer_id : Z; account_number : string; balance : Q;
  account_type : string; account_status : string;
  created_at : string; updated_at : string }.
End Account.

Module Transaction.
Record t := mk {
  id : Z; account_id : Z; amount : Q; type : string;
  description : option string; transaction_date : string;
  created_at : string }.
End Transaction.

Module ComplaintType.
Record t := mk {
  id : Z; name : string; description : string; is_active : bool }.
End ComplaintType.

Module Complaint.
Record t := mk {
  id : Z; customer_id : Z; type_id : Z; title : string;
  description : string; status : string; priority : string;
  resolution_notes : option string; created_at : string;
  updated_at : string; resolved_at : option string }.

(** A row of [SELECT c.*, ct.name as complaint_type_name FROM complaints c
    JOIN complaint_types ct ON c.type_id = ct.id]. *)
Record joined := mk_joined {
  row : t; complaint_type_name : string }.
End Complaint.

(** ** What the model takes from its host

    The clock, the date parser and the integer parser of the Python
    library and the two text conversions of SQLite's column affinities are
    outside the repository; the model is parametric in them. *)
Record Host := {
  (** [datetime.now().date().isoformat()] *)
  today_iso : string;
  (** SQLite's [CURRENT_TIMESTAMP] *)
  current_timestamp : string;
  (** whether [datetime.fromisoformat] accepts the string; it raises
      [ValueError] otherwise *)
  fromisoformat_ok : string → bool;
  (** [int(s)] for a string [s]: the integer, when Python reads one; it
      raises [ValueError] otherwise *)
  int_text : string → option Z;
  (** the number SQLite reads from a text under NUMERIC affinity, if the
      text reads as a number *)
  numeric_text : string → option Q;
  (** the text SQLite writes for a REAL under TEXT affinity *)
  real_text : Q → string }.

(** ** SQL building blocks *)

(** [LIMIT limit OFFSET offset] on an ordered result: a negative offset
    skips nothing, a negative limit puts no bound on the number of rows. *)
Definition sql_limit_offset {A} (limit offset : Z) (rows : list A) : list A :=
  let rest := drop (Z.to_nat offset) rows in
  if limit <? 0 then rest else take (Z.to_nat limit) rest.

(** The integers SQLite holds, and the [sqlite3] module binds: those of the
    signed 64-bit range. *)
Definition sqlite_int (z : Z) : bool :=
  (- 2 ^ 63 <=? z) && (z <? 2 ^ 63).

(** The value of a bound text in a comparison with a column of NUMERIC
    affinity: the number, when the text reads as one. *)
Definition numeric_affinity (h : Host) (s : string) : Q + string :=
  match numeric_text h s with
  | Some q => inl q
  | None => inr s
  end.

(** [a <= b] between two such values: numbers by value, texts bytewise; a
    number is less than every text. *)
Definition sql_le (a b : Q + string) : bool :=
  match a, b with
  | inl x, inl y => Qle_bool x y
  | inl _, inr _ => true
  | inr _, inl _ => false
  | inr s, inr t => String.leb s t
  end.

(** The rowid SQLite gives a row inserted without one: one more than the
    largest rowid of the table, 1 in an empty table. *)
Definition next_rowid (ids : list Z) : Z :=
  match ids with
  | [] => 1
  | i :: rest => foldr Z.max i rest + 1
  end.

(** [x] comes no later than [y] under [ORDER BY key DESC]. *)
Definition desc_by {A} (key : A → string) (x y : A) : Prop :=
  String.leb (key y) (key x) = true.

(** [x] comes no later than [y] under [ORDER BY k1 DESC, k2 DESC]. *)
Definition desc_by2 {A} (k1 k2 : A → string) (x y : A) : Prop :=
  match String.compare (k1 x) (k1 y) with
  | Gt => True
  | Lt => False
  | Eq => String.leb (k2 y) (k2 x) = true
  end.

#[global] Instance desc_by_dec {A} (key : A → string) : RelDecision (desc_by key).
Proof. intros x y. unfold desc_by. apply _. Defined.

#[global] Instance desc_by2_dec {A} (k1 k2 : A → string) :
  RelDecision (desc_by2 k1 k2).
Proof.
  intros x y. unfold desc_by2.
  destruct (String.compare (k1 x) (k1 y)); apply _.
Defined.

(** ** The record store and the query service: [class Database] *)

Module Database.

(** The state of the database file: the names of the tables and indexes
    that exist, and the rows of each table. *)
Record t := mk {
  tables : gset string;
  indexes : gset string;
  customers : list Customer.t;
  accounts : list Account.t;
  transactions : list Transaction.t;
  complaint_types : list ComplaintType.t;
  complaints : list Complaint.t }.

(** A database file that does not exist yet. *)
Definition fresh : t := mk ∅ ∅ [] [] [] [] [].

(** [CREATE TABLE IF NOT EXISTS name (...)]. *)
Definition create_table_if_not_exists (name : string) (db : t) : t :=
  if decide (name ∈ tables db) then db
  else mk ({[name]} ∪ tables db) (indexes db) (customers db) (accounts db)
          (transactions db) (complaint_types db) (complaints db).

(** [CREATE INDEX IF NOT EXISTS name ON ...]. *)
Definition create_index_if_not_exists (name : string) (db : t) : t :=
  if decide (name ∈ indexes db) then db
  else mk (tables db) ({[name]} ∪ indexes db) (customers db) (accounts db)
          (transactions db) (complaint_types db) (complaints db).

(** A row of [complaint_types] that stops the insertion of [(id, name,
    ...)]: one with the same primary key or the same unique name. *)
Definition complaint_type_conflict (id : Z) (name : string)
    (r : ComplaintType.t) : bool :=
  (ComplaintType.id r =? id) || String.eqb (ComplaintType.name r) name.

(** [INSERT OR IGNORE INTO complaint_types (id, name, description)
    VALUES (?, ?, ?)]; [is_active] takes its default, 1. *)
Definition insert_or_ignore_complaint_type
    (rows : list ComplaintType.t) (v : Z * string * string)
    : list ComplaintType.t :=
  let '(id, name, description) := v in
  if existsb (complaint_type_conflict id name) rows then rows
  else rows ++ [ComplaintType.mk id name description true].

(** Some row of [rows] stops the insertion of [v]. *)
Definition stops (rows : list ComplaintType.t) (v : Z * string * string)
    : Prop :=
  existsb (complaint_type_conflict v.1.1 v.1.2) rows = true.

Definition default_types : list (Z * string * string) :=
  [ (1, "Account Issue", "Problems related to account access or management");
    (2, "Transaction Problem", "Issues with transactions or payments");
    (3, "Card Issue", "Problems with debit/credit cards");
    (4, "Internet Banking", "Online banking access or functionality issues");
    (5, "Loan Query", "Questions or issues regarding loans");
    (6, "Other", "Any other type of complaint") ].

(** [cursor.executemany] of the insertion over [default_types]. *)
Definition _initialize_default_data (db : t) : t :=
  mk (tables db) (indexes db) (customers db) (accounts db) (transactions db)
     (foldl insert_or_ignore_complaint_type (complaint_types db) default_types)
     (complaints db).

Definition table_names : list string :=
  ["customers"; "accounts"; "transactions"; "complaint_types"; "complaints"].

Definition index_names : list string :=
  ["idx_accounts_customer"; "idx_transactions_account";
   "idx_transactions_date"; "idx_complaints_customer";
   "idx_complaints_status"].

Definition _initialize_database (db : t) : t :=
  let db := foldl (λ d n, create_table_if_not_exists n d) db table_names in
  let db := foldl (λ d n, create_index_if_not_exists n d) db index_names in
  _initialize_default_data db.

(** *** Customer methods *)

Definition get_customer (db : t) (customer_id : Z) : option Customer.t :=
  head (filter (λ c, Customer.id c = customer_id) (customers db)).

Definition verify_customer (db : t) (customer_id : Z) : bool :=
  bool_decide (is_Some (get_customer db customer_id)).

(** *** Account methods *)

Definition get_customer_accounts (db : t) (customer_id : Z)
    : list Account.t :=
  merge_sort (desc_by Account.created_at)
    (filter (λ a, Account.customer_id a = customer_id) (accounts db)).

Definition get_customer_account (db : t) (customer_id account_id : Z)
    : option Account.t :=
  head (filter (λ a, Account.id a = account_id
                     ∧ Account.customer_id a = customer_id) (accounts db)).

Definition get_account_balance (db : t) (account_id : Z) : option Q :=
  Account.balance <$>
    head (filter (λ a, Account.id a = account_id) (accounts db)).

(** *** Transaction methods *)

(** The rows of [SELECT * FROM transactions WHERE account_id = ? ORDER BY
    transaction_date DESC, created_at DESC]. *)
Definition ordered_transactions (db : t) (account_id : Z)
    : list Transaction.t :=
  merge_sort (desc_by2 Transaction.transaction_date Transaction.created_at)
    (filter (λ x, Transaction.account_id x = account_id) (transactions db)).

Definition get_account_transactions (db : t) (account_id : Z)
    (limit offset : Z) : list Transaction.t :=
  sql_limit_offset limit offset (ordered_transactions db account_id).

(** [transaction_date BETWEEN ? AND ?]: the column is declared [DATE] and
    has NUMERIC affinity, which the two bounds take in the comparison with
    the date, a text. *)
Definition get_transactions_by_date_range (h : Host) (db : t) (account_id : Z)
    (start_date end_date : string) : list Transaction.t :=
  filter (λ x,
            let date : Q + string := inr (Transaction.transaction_date x) in
            sql_le (numeric_affinity h start_date) date = true
            ∧ sql_le date (numeric_affinity h end_date) = true)
    (ordered_transactions db account_id).

Definition get_transactions_by_type (db : t) (account_id : Z)
    (transaction_type : string) : list Transaction.t :=
  filter (λ x, Transaction.type x = transaction_type)
    (ordered_transactions db account_id).

(** *** Complaint methods *)

(** The join of one complaint with its type; a complaint whose type does
    not resolve yields no row. *)
Definition join_type (db : t) (c : Complaint.t) : option Complaint.joined :=
  (λ ct, Complaint.mk_joined c (ComplaintType.name ct)) <$>
    head (filter (λ ct, ComplaintType.id ct = Complaint.type_id c)
            (complaint_types db)).

Definition get_customer_complaints (db : t) (customer_id : Z)
    (limit offset : Z) : list Complaint.joined :=
  sql_limit_offset limit offset
    (merge_sort (desc_by (λ j, Complaint.created_at (Complaint.row j)))
       (omap (join_type db)
          (filter (λ c, Complaint.customer_id c = customer_id)
             (complaints db)))).

(** [customer_id] is [None] when the argument is omitted. The test
    [if customer_id:] takes the scoped branch for a non-zero integer
    only. *)
Definition get_complaint_by_id (db : t) (complaint_id : Z)
    (customer_id : option Z) : option Complaint.joined :=
  if truthy (from_option VInt VNone customer_id) then
    head (omap (join_type db)
            (filter (λ c, Complaint.id c = complaint_id
                          ∧ Some (Complaint.customer_id c) = customer_id)
               (complaints db)))
  else
    head (omap (join_type db)
            (filter (λ c, Complaint.id c = complaint_id) (complaints db))).

(** [INSERT INTO complaints (customer_id, type_id, title, description,
    status, priority) VALUES (?, ?, ?, ?, 'Open', ?)] with foreign keys
    enforced; [now] is the value of [CURRENT_TIMESTAMP]. Returns
    [cursor.lastrowid] and the database after the commit. *)
Definition create_complaint (db : t) (now : string)
    (customer_id type_id : Z) (title description priority : string)
    : exn + (Z * t) :=
  if bool_decide (is_Some (get_customer db customer_id))
     && bool_decide (is_Some (head (filter
          (λ ct, ComplaintType.id ct = type_id) (complaint_types db))))
  then
    let complaint_id := next_rowid (Complaint.id <$> complaints db) in
    let c := Complaint.mk complaint_id customer_id type_id title description
               "Open" priority None now now None in
    inr (complaint_id,
         mk (tables db) (indexes db) (customers db) (accounts db)
            (transactions db) (complaint_types db) (complaints db ++ [c]))
  else inl (IntegrityError "FOREIGN KEY constraint failed").

End Database.

(** ** Python's [int()]

    [int] of a string is the host's [int_text]. The reader below is the one
    of the host of the examples: it reads the literals written in ASCII. *)

Definition is_space (c : Ascii.ascii) : bool :=
  let n := Ascii.nat_of_ascii c in
  (n =? 32)%nat || ((9 <=? n)%nat && (n <=? 13)%nat).

Definition digit_of (c : Ascii.ascii) : option Z :=
  let n := Z.of_nat (Ascii.nat_of_ascii c) in
  if (48 <=? n) && (n <=? 57) then Some (n - 48) else None.

Definition is_underscore (c : Ascii.ascii) : bool := (Ascii.nat_of_ascii c =? 95)%nat.

(** The digits of a literal after its first digit: each is a digit or one
    underscore followed by a digit. [acc] is the value read so far. *)
Fixpoint parse_digits (acc : Z) (cs : list Ascii.ascii) : option Z :=
  match cs with
  | [] => Some acc
  | c :: rest =>
      match digit_of c with
      | Some d => parse_digits (10 * acc + d) rest
      | None =>
          if is_underscore c then
            match rest with
            | c' :: rest' =>
                match digit_of c' with
                | Some d => parse_digits (10 * acc + d) rest'
                | None => None
                end
            | [] => None
            end
          else None
      end
  end.

Definition parse_unsigned (cs : list Ascii.ascii) : option Z :=
  match cs with
  | c :: rest =>
      match digit_of c with
      | Some d => parse_digits d rest
      | None => None
      end
  | [] => None
  end.

Fixpoint strip_left (cs : list Ascii.ascii) : list Ascii.ascii :=
  match cs with
  | c :: rest => if is_space c then strip_left rest else cs
  | [] => []
  end.

Definition strip (cs : list Ascii.ascii) : list Ascii.ascii :=
  reverse (strip_left (reverse (strip_left cs))).

(** An integer literal in ASCII, base 10: surrounding white space, an
    optional sign, decimal digits with single underscores between them. *)
Definition int_of_string (s : string) : option Z :=
  match strip (String.list_ascii_of_string s) with
  | c :: rest =>
      if (Ascii.nat_of_ascii c =? 45)%nat then Z.opp <$> parse_unsigned rest
      else if (Ascii.nat_of_ascii c =? 43)%nat then parse_unsigned rest
      else parse_unsigned (c :: rest)
  | [] => None
  end.

(** [int(v)]. *)
Definition py_int (h : Host) (v : pyval) : exn + Z :=
  match v with
  | VInt z => inr z
  | VBool b => inr (if b then 1 else 0)
  | VFloat q => inr (Z.quot (Qnum q) (Z.pos (Qden q)))
  | VStr s =>
      match int_text h s with
      | Some z => inr z
      | None => inl (ValueError "invalid literal for int() with base 10")
      end
  | VNone | VList _ | VDict _ =>
      inl (TypeError
        "int() argument must be a string, a bytes-like object or a real number")
  end.

(** ** Binding Python values to SQL statements *)

Inductive sqlval : Type :=
| SNull
| SInteger (z : Z)
| SReal (q : Q)
| SText (s : string).

(** The binding of a Python [int]. *)
Definition bind_int (z : Z) : exn + Z :=
  if sqlite_int z then inr z
  else inl (OverflowError "Python int too large to convert to SQLite INTEGER").

(** The adaptation of a statement parameter by the [sqlite3] module. *)
Definition bind (v : pyval) : exn + sqlval :=
  match v with
  | VNone => inr SNull
  | VBool b => inr (SInteger (if b then 1 else 0))
  | VInt z =>
      match bind_int z with
      | inl e => inl e
      | inr z => inr (SInteger z)
      end
  | VFloat q => inr (SReal q)
  | VStr s => inr (SText s)
  | VList _ | VDict _ =>
      inl (ProgrammingError "Error binding parameter: type is not supported")
  end.

Definition integer_of_Q (q : Q) : option Z :=
  if (Qnum q mod Z.pos (Qden q) =? 0) then Some (Qnum q / Z.pos (Qden q))
  else None.

(** The integer a bound value equals when it is compared with, or stored
    in, a column of INTEGER affinity; [None] when it equals no integer. *)
Definition as_integer (h : Host) (p : sqlval) : option Z :=
  match p with
  | SNull => None
  | SInteger z => Some z
  | SReal q => integer_of_Q q
  | SText s => numeric_text h s ≫= integer_of_Q
  end.

(** The text a bound value becomes when it is compared with, or stored in,
    a column of TEXT affinity; [None] for NULL. *)
Definition as_text (h : Host) (p : sqlval) : option string :=
  match p with
  | SNull => None
  | SInteger z => Some (pretty z)
  | SReal q => Some (real_text h q)
  | SText s => Some s
  end.

(** The Python value read back from a column of NUMERIC affinity: the
    column holds an integral value of the 64-bit range as an INTEGER, which
    is read as an [int], and any other number as a REAL, which is read as a
    [float]. *)
Definition py_number (q : Q) : pyval :=
  match integer_of_Q q with
  | Some z => if sqlite_int z then VInt z else VFloat q
  | None => VFloat q
  end.

Definition py_opt_str (o : option string) : pyval :=
  from_option VStr VNone o.

(** ** The response models of [tool.py] *)

(** What [model_dump()] returns: the three fields of [ToolResponse] and, in
    [payload], the other keyword arguments of the constructor call in the
    order they were given (fields of the subclass and extra fields, which
    [extra="allow"] keeps). *)
Record ToolResponse := {
  success : bool;
  message : option text;
  error : option text;
  payload : list (string * pyval) }.

(** The [values] dictionary a field validator receives: the fields declared
    before [error], already validated. *)
Record validated := {
  v_success : bool;
  v_message : option text }.

(** The validator of the field [error]; it runs on every construction
    ([always=True]) and writes into the shared [values] dictionary. *)
Definition set_success_based_on_error (v : option text) (values : validated)
    : option text * validated :=
  match v with
  | Some _ => (v, {| v_success := false; v_message := v_message values |})
  | None => (v, values)
  end.

(** [ToolResponse(success=..., message=..., error=..., **payload)]: the
    fields are validated in the order of their declaration. *)
Definition ToolResponse_init (success : bool) (message error : option text)
    (payload : list (string * pyval)) : ToolResponse :=
  let values := {| v_success := success; v_message := message |} in
  let '(error, values) := set_success_based_on_error error values in
  {| success := v_success values; message := v_message values;
     error := error; payload := payload |}.

(** A field declared [Optional[str]] takes [None] or a string; pydantic
    does not turn a number into a string. *)
Definition str_field_ok (v : pyval) : bool :=
  match v with
  | VNone | VStr _ => true
  | _ => false
  end.

(** The construction of a subclass of [ToolResponse] whose fields of type
    [Optional[str]] are [str_fields]; the other declared fields receive
    values of their declared type at every call site. *)
Definition model_init (model : string) (str_fields : list string)
    (success : bool) (message error : option text)
    (payload : list (string * pyval)) : exn + ToolResponse :=
  match filter (λ kv, kv.1 ∈ str_fields ∧ str_field_ok kv.2 = false) payload with
  | [] => inr (ToolResponse_init success message error payload)
  | bad => inl (ValidationError model (bad.*1))
  end.

Definition AccountResponse :=
  model_init "AccountResponse"
    ["account_id"; "account_number"; "account_type"; "status"; "created_at"].

Definition TransactionResponse :=
  model_init "TransactionResponse"
    ["account_id"; "account_number"; "start_date"; "end_date";
     "transaction_type"].

Definition ComplaintResponse :=
  model_init "ComplaintResponse"
    ["customer_id"; "complaint_id"; "title"; "type"; "status"; "priority";
     "created_at"; "updated_at"; "resolved_at"].

(** [Model(success=False, error=msg).model_dump()], the same for the four
    response models: no other field is given, so no validation fails. *)
Definition error_response (msg : text) : ToolResponse :=
  ToolResponse_init false None (Some msg) [].

(** ** The calls a tool makes on the [db] singleton *)

Inductive db_call : Type :=
| Call_get_customer (customer_id : Z)
| Call_verify_customer (customer_id : Z)
| Call_get_customer_accounts (customer_id : Z)
| Call_get_customer_account (customer_id : Z) (account_id : pyval)
| Call_get_account_balance (account_id : pyval)
| Call_get_account_transactions (account_id : pyval) (limit offset : Z)
| Call_get_transactions_by_date_range (account_id : pyval)
    (start_date end_date : string)
| Call_get_transactions_by_type (account_id transaction_type : pyval)
| Call_get_customer_complaints (customer_id limit offset : Z)
| Call_get_complaint_by_id (complaint_id : pyval) (customer_id : option Z)
| Call_create_complaint (customer_id : Z)
    (type_id title description priority : pyval).

(** ** The state a tool runs in *)

(** The database, the session-state bag and the log of the calls made on
    the database so far. *)
Record World := {
  w_db : Database.t;
  w_state : gmap string pyval;
  w_calls : list db_call }.

(** A computation that returns a value or raises; what it did to the world
    before raising stays done. *)
Definition Py (A : Type) : Type := World → (exn + A) * World.

#[global] Instance Py_ret : MRet Py := λ A a w, (inr a, w).

#[global] Instance Py_bind : MBind Py := λ A B f m w,
  match m w with
  | (inl e, w') => (inl e, w')
  | (inr a, w') => f a w'
  end.

Definition raise {A} (e : exn) : Py A := λ w, (inl e, w).

(** A pure step that may raise. *)
Definition lift {A} (r : exn + A) : Py A := λ w, (r, w).

(** [try: m except ValueError: h]. *)
Definition except_ValueError {A} (m h : Py A) : Py A := λ w,
  match m w with
  | (inl (ValueError _), w') => h w'
  | r => r
  end.

(** [try: m except Exception as e: h e]. *)
Definition except_Exception {A} (m : Py A) (h : exn → Py A) : Py A := λ w,
  match m w with
  | (inl e, w') => h e w'
  | r => r
  end.

(** [tool_context.state.get(key)]. *)
Definition state_get (key : string) : Py pyval := λ w,
  (inr (dict_get (w_state w) key), w).

(** [tool_context.state[key]]. *)
Definition state_item (key : string) : Py pyval := λ w,
  (match w_state w !! key with
   | Some v => inr v
   | None => inl (KeyError key)
   end, w).

(** [tool_context.state[key] = v]. *)
Definition state_set (key : string) (v : pyval) : Py unit := λ w,
  (inr (), {| w_db := w_db w; w_state := <[key := v]> (w_state w);
              w_calls := w_calls w |}).

(** A call of a reading method of [db]; the call is logged, then the
    statement is executed on the database. *)
Definition query {A} (c : db_call) (f : Database.t → exn + A) : Py A := λ w,
  (f (w_db w), {| w_db := w_db w; w_state := w_state w;
                  w_calls := w_calls w ++ [c] |}).

(** A call of a writing method of [db]; the database changes when the
    statement succeeds. *)
Definition update {A} (c : db_call) (f : Database.t → exn + (A * Database.t))
    : Py A := λ w,
  let calls := (w_calls w ++ [c])%list in
  match f (w_db w) with
  | inl e => (inl e, {| w_db := w_db w; w_state := w_state w;
                        w_calls := calls |})
  | inr (a, db') => (inr a, {| w_db := db'; w_state := w_state w;
                               w_calls := calls |})
  end.

(** [tool_context]: the parameter bag of the call and the session state. *)
Record ToolContext := {
  params : gmap string pyval;
  state : gmap string pyval }.

(** What a tool call leaves behind: the dictionary it returns, the session
    state and the database after the call, and the calls it made on [db]. *)
Record Outcome := {
  response : ToolResponse;
  state_after : gmap string pyval;
  db_after : Database.t;
  calls : list db_call }.

(** The outermost [try: body except Exception as e: return handler e] of a
    tool function, run on a session state and a database. *)
Definition try_except (body : Py ToolResponse) (handler : exn → ToolResponse)
    (st : gmap string pyval) (db : Database.t) : Outcome :=
  match body {| w_db := db; w_state := st; w_calls := [] |} with
  | (inr r, w) =>
      {| response := r; state_after := w_state w; db_after := w_db w;
         calls := w_calls w |}
  | (inl e, w) =>
      {| response := handler e; state_after := w_state w; db_after := w_db w;
         calls := w_calls w |}
  end.

(** ** The tool functions of [tool.py] *)

Module Tool.

(** *** Calls on [db], with their parameters bound

    A call is logged, then its parameters are bound in the order in which
    the statement takes them; the first one that cannot be bound raises,
    before the statement runs. *)

Definition bound {A} (v : pyval) (k : sqlval → A) : exn + A :=
  match bind v with
  | inl e => inl e
  | inr p => inr (k p)
  end.

Definition bound_int {A} (z : Z) (k : Z → A) : exn + A :=
  match bind_int z with
  | inl e => inl e
  | inr z => inr (k z)
  end.

Definition db_get_customer (customer_id : Z) : Py (option Customer.t) :=
  query (Call_get_customer customer_id)
    (λ db, bound_int customer_id (Database.get_customer db)).

Definition db_verify_customer (customer_id : Z) : Py bool :=
  query (Call_verify_customer customer_id)
    (λ db, bound_int customer_id (Database.verify_customer db)).

Definition db_get_customer_accounts (customer_id : Z)
    : Py (list Account.t) :=
  query (Call_get_customer_accounts customer_id)
    (λ db, bound_int customer_id (Database.get_customer_accounts db)).

(** [Database.get_customer_account] with [account_id] as the tool has it,
    a value of the parameter bag; the statement takes [(account_id,
    customer_id)]. *)
Definition find_account (h : Host) (db : Database.t) (customer_id : Z)
    (account_id : pyval) : exn + option Account.t :=
  match bind account_id, bind_int customer_id with
  | inl e, _ | inr _, inl e => inl e
  | inr p, inr c =>
      inr (as_integer h p ≫= Database.get_customer_account db c)
  end.

Definition db_get_customer_account (h : Host) (customer_id : Z)
    (account_id : pyval) : Py (option Account.t) :=
  query (Call_get_customer_account customer_id account_id)
    (λ db, find_account h db customer_id account_id).

Definition db_get_account_balance (h : Host) (account_id : pyval)
    : Py (option Q) :=
  query (Call_get_account_balance account_id)
    (λ db, bound account_id (λ p,
       as_integer h p ≫= Database.get_account_balance db)).

(** The page of an account, the statement taking [(account_id, limit,
    offset)]. *)
Definition account_page (h : Host) (db : Database.t) (account_id : pyval)
    (limit offset : Z) : exn + list Transaction.t :=
  match bind account_id, bind_int limit, bind_int offset with
  | inl e, _, _ | inr _, inl e, _ | inr _, inr _, inl e => inl e
  | inr p, inr l, inr o =>
      inr (match as_integer h p with
           | Some a => Database.get_account_transactions db a l o
           | None => []
           end)
  end.

Definition db_get_account_transactions (h : Host) (account_id : pyval)
    (limit offset : Z) : Py (list Transaction.t) :=
  query (Call_get_account_transactions account_id limit offset)
    (λ db, account_page h db account_id limit offset).

Definition db_get_transactions_by_date_range (h : Host) (account_id : pyval)
    (start_date end_date : string) : Py (list Transaction.t) :=
  query (Call_get_transactions_by_date_range account_id start_date end_date)
    (λ db, bound account_id (λ p,
       match as_integer h p with
       | Some a =>
           Database.get_transactions_by_date_range h db a start_date end_date
       | None => []
       end)).

Definition db_get_transactions_by_type (h : Host)
    (account_id transaction_type : pyval) : Py (list Transaction.t) :=
  query (Call_get_transactions_by_type account_id transaction_type)
    (λ db,
       match bind account_id, bind transaction_type with
       | inl e, _ | _, inl e => inl e
       | inr p, inr q =>
           match as_integer h p, as_text h q with
           | Some a, Some ty => inr (Database.get_transactions_by_type db a ty)
           | _, _ => inr []
           end
       end).

(** The complaints of a customer, the statement taking [(customer_id,
    limit, offset)]. *)
Definition complaints_page (db : Database.t) (customer_id limit offset : Z)
    : exn + list Complaint.joined :=
  match bind_int customer_id, bind_int limit, bind_int offset with
  | inl e, _, _ | inr _, inl e, _ | inr _, inr _, inl e => inl e
  | inr c, inr l, inr o => inr (Database.get_customer_complaints db c l o)
  end.

Definition db_get_customer_complaints (customer_id limit offset : Z)
    : Py (list Complaint.joined) :=
  query (Call_get_customer_complaints customer_id limit offset)
    (λ db, complaints_page db customer_id limit offset).

(** The customer id of [get_complaint_by_id] is a parameter of the
    statement only when the test [if customer_id:] holds. *)
Definition bind_scope (customer_id : option Z) : exn + option Z :=
  match customer_id with
  | Some c => if truthy (VInt c) then bound_int c Some else inr customer_id
  | None => inr None
  end.

Definition db_get_complaint_by_id (h : Host) (complaint_id : pyval)
    (customer_id : option Z) : Py (option Complaint.joined) :=
  query (Call_get_complaint_by_id complaint_id customer_id)
    (λ db,
       match bind complaint_id, bind_scope customer_id with
       | inl e, _ | inr _, inl e => inl e
       | inr p, inr scope =>
           inr (as_integer h p ≫= λ c, Database.get_complaint_by_id db c scope)
       end).

(** The insertion with the parameters as the tool passes them: a value
    that cannot be bound raises before the statement runs, a NULL in a
    NOT NULL column and a [type_id] that equals no integer key make the
    statement fail. *)
Definition insert_complaint (h : Host) (customer_id : Z)
    (type_id title description priority : pyval) (db : Database.t)
    : exn + (Z * Database.t) :=
  match bind_int customer_id, bind type_id, bind title, bind description,
        bind priority with
  | inr customer_id, inr p_type, inr p_title, inr p_description,
    inr p_priority =>
      match p_type, as_text h p_title, as_text h p_description,
            as_text h p_priority with
      | SNull, _, _, _ =>
          inl (IntegrityError "NOT NULL constraint failed: complaints.type_id")
      | _, None, _, _ =>
          inl (IntegrityError "NOT NULL constraint failed: complaints.title")
      | _, _, None, _ =>
          inl (IntegrityError
                 "NOT NULL constraint failed: complaints.description")
      | _, _, _, None =>
          inl (IntegrityError
                 "NOT NULL constraint failed: complaints.priority")
      | _, Some t, Some d, Some pr =>
          match as_integer h p_type with
          | Some ty =>
              Database.create_complaint db (current_timestamp h)
                customer_id ty t d pr
          | None => inl (IntegrityError "FOREIGN KEY constraint failed")
          end
      end
  | inl e, _, _, _, _ | inr _, inl e, _, _, _ | inr _, inr _, inl e, _, _
  | inr _, inr _, inr _, inl e, _ | inr _, inr _, inr _, inr _, inl e =>
      inl e
  end.

Definition db_create_complaint (h : Host) (customer_id : Z)
    (type_id title description priority : pyval) : Py Z :=
  update (Call_create_complaint customer_id type_id title description priority)
    (insert_complaint h customer_id type_id title description priority).

(** *** Fixed texts *)

Definition not_verified : text :=
  [Lit "Customer not verified ! Please enter your customer id again"].

Definition invalid_pagination : text :=
  [Lit "Invalid pagination parameters: limit and offset must be integers"].

Definition account_not_found (account_id : pyval) (customer_id : Z) : text :=
  [Lit "Account "; Val account_id;
   Lit " not found or doesn't belong to customer "; Val (VInt customer_id)].

Definition customer_not_found (customer_id : Z) : text :=
  [Lit "Customer not found with ID: "; Val (VInt customer_id)].

Definition complaint_not_found (complaint_id : pyval) (customer_id : Z)
    : text :=
  [Lit "Complaint "; Val complaint_id;
   Lit " not found or doesn't belong to customer "; Val (VInt customer_id)].

(** *** Shared steps *)

(** [limit = int(params.get("limit", 10)); offset = int(params.get("offset",
    0))] inside [try ... except ValueError]; [None] stands for the
    handler having been taken. *)
Definition parse_pagination (h : Host) (params : gmap string pyval)
    : Py (option (Z * Z)) :=
  except_ValueError
    (limit ← lift (py_int h (dict_get_default params "limit" (VInt 10)));
     offset ← lift (py_int h (dict_get_default params "offset" (VInt 0)));
     mret (Some (limit, offset)))
    (mret None).

(** [datetime.fromisoformat(v)], used for its exception only; the date
    string is handed back. *)
Definition fromisoformat (h : Host) (v : pyval) : exn + string :=
  match v with
  | VStr s =>
      if fromisoformat_ok h s then inr s
      else inl (ValueError "Invalid isoformat string")
  | _ => inl (TypeError "fromisoformat: argument must be str")
  end.

Definition transaction_dict (tx : Transaction.t) : pyval :=
  VDict [ ("transaction_id", VInt (Transaction.id tx));
          ("amount", py_number (Transaction.amount tx));
          ("type", VStr (Transaction.type tx));
          ("description", py_opt_str (Transaction.description tx));
          ("date", VStr (Transaction.transaction_date tx));
          ("created_at", VStr (Transaction.created_at tx)) ].

Definition complaint_dict (j : Complaint.joined) : pyval :=
  let c := Complaint.row j in
  VDict [ ("complaint_id", VInt (Complaint.id c));
          ("title", VStr (Complaint.title c));
          ("type", VStr (Complaint.complaint_type_name j));
          ("status", VStr (Complaint.status c));
          ("priority", VStr (Complaint.priority c));
          ("created_at", VStr (Complaint.created_at c));
          ("updated_at", VStr (Complaint.updated_at c));
          ("resolved_at", py_opt_str (Complaint.resolved_at c)) ].

Definition pagination_dict (limit offset : Z) (total : nat) : pyval :=
  VDict [ ("limit", VInt limit); ("offset", VInt offset);
          ("total", VInt (Z.of_nat total)) ].

Definition len {A} (l : list A) : pyval := VInt (Z.of_nat (length l)).

(** *** [verify_customer] *)

Definition verify_customer_body (customer_id : Z) : Py ToolResponse :=
  customer ← db_get_customer customer_id;
  match customer with
  | None =>
      _ ← state_set "customer_verified" (VBool false);
      mret (ToolResponse_init false None
              (Some [Lit "No customer found with ID: ";
                     Val (VInt customer_id)])
              [("status", VStr "not_found")])
  | Some c =>
      _ ← state_set "customer_verified" (VBool true);
      _ ← state_set "customer_id" (VInt customer_id);
      mret (ToolResponse_init true
              (Some [Lit "Customer verified successfully"]) None
              [("status", VStr "verified");
               ("customer",
                VDict [ ("id", VInt (Customer.id c));
                        ("name", VStr (Customer.name c));
                        ("email", VStr (Customer.email c));
                        ("phone", VStr (Customer.phone c)) ])])
  end.

Definition verify_customer (customer_id : Z) (ctx : ToolContext)
    (db : Database.t) : Outcome :=
  try_except (verify_customer_body customer_id)
    (λ e, ToolResponse_init false None
            (Some [Lit "Error verifying customer: "; Exc e])
            [("status", VStr "error")])
    (state ctx) db.

(** *** [get_customer_account]

    The account dictionaries have the keys of the columns of [accounts],
    among them [account_status] and no [status]: evaluating
    [account["status"]] raises [KeyError]. *)
Definition get_customer_account_body (h : Host) (customer_id : Z)
    : Py ToolResponse :=
  verified ← state_item "customer_verified";
  if negb (truthy verified) then
    mret (error_response (customer_not_found customer_id))
  else
    account_id ← state_get "account_id";
    if truthy account_id then
      account ← db_get_customer_account h customer_id account_id;
      match account with
      | None => mret (error_response (account_not_found account_id customer_id))
      | Some _ => raise (KeyError "status")
      end
    else
      accounts ← db_get_customer_accounts customer_id;
      match accounts with
      | _ :: _ => raise (KeyError "status")
      | [] =>
          lift (AccountResponse true
                  (Some [Lit "Retrieved "; Val (len accounts);
                         Lit " accounts for customer ";
                         Val (VInt customer_id)])
                  None [("accounts", VList [])])
      end.

Definition get_customer_account (h : Host) (customer_id : Z)
    (ctx : ToolContext) (db : Database.t) : Outcome :=
  try_except (get_customer_account_body h customer_id)
    (λ e, error_response [Lit "Error retrieving accounts: "; Exc e])
    (state ctx) db.

(** *** [get_customer_account_balance] *)

Definition get_customer_account_balance_body (h : Host) (customer_id : Z)
    (params : gmap string pyval) : Py ToolResponse :=
  let account_id := dict_get params "account_id" in
  is_verified ← state_get "customer_verified";
  if negb (truthy is_verified) then
    mret (error_response not_verified)
  else
    account ← db_get_customer_account h customer_id account_id;
    match account with
    | None => mret (error_response (account_not_found account_id customer_id))
    | Some _ =>
        _ ← db_get_account_balance h account_id;
        raise (KeyError "status")
    end.

Definition get_customer_account_balance (h : Host) (customer_id : Z)
    (ctx : ToolContext) (db : Database.t) : Outcome :=
  try_except (get_customer_account_balance_body h customer_id (params ctx))
    (λ e, error_response [Lit "Error retrieving account balance: "; Exc e])
    (state ctx) db.

(** *** [get_customer_account_transactions] *)

Definition get_customer_account_transactions_body (h : Host)
    (customer_id : Z) (params : gmap string pyval) : Py ToolResponse :=
  let account_id := dict_get params "account_id" in
  is_verified ← state_get "customer_verified";
  if negb (truthy is_verified) then
    mret (error_response not_verified)
  else
    account ← db_get_customer_account h customer_id account_id;
    match account with
    | None => mret (error_response (account_not_found account_id customer_id))
    | Some account =>
        pagination ← parse_pagination h params;
        match pagination with
        | None => mret (error_response invalid_pagination)
        | Some (limit, offset) =>
            transactions ←
              db_get_account_transactions h account_id limit offset;
            lift (TransactionResponse true
                    (Some [Lit "Retrieved "; Val (len transactions);
                           Lit " transactions for account ";
                           Val account_id])
                    None
                    [ ("account_id", account_id);
                      ("account_number",
                       VStr (Account.account_number account));
                      ("transactions",
                       VList (transaction_dict <$> transactions));
                      ("count", len transactions);
                      ("pagination",
                       pagination_dict limit offset (length transactions)) ])
        end
    end.

Definition get_customer_account_transactions (h : Host) (customer_id : Z)
    (ctx : ToolContext) (db : Database.t) : Outcome :=
  try_except
    (get_customer_account_transactions_body h customer_id (params ctx))
    (λ e, error_response [Lit "Error retrieving transactions: "; Exc e])
    (state ctx) db.

(** *** [get_customer_account_transactions_by_date] *)

Definition get_customer_account_transactions_by_date_body (h : Host)
    (customer_id : Z) (params : gmap string pyval) : Py ToolResponse :=
  let account_id := dict_get params "account_id" in
  let start_date := dict_get params "start_date" in
  let end_date := dict_get_default params "end_date" (VStr (today_iso h)) in
  if negb (truthy account_id && truthy start_date) then
    mret (error_response
            [Lit "account_id and start_date parameters are required"])
  else
    dates ← except_ValueError
              (s ← lift (fromisoformat h start_date);
               e ← lift (fromisoformat h end_date);
               mret (Some (s, e)))
              (mret None);
    match dates with
    | None =>
        mret (error_response
                [Lit "Invalid date format. Dates must be in YYYY-MM-DD format."])
    | Some (s, e) =>
        account ← db_get_customer_account h customer_id account_id;
        match account with
        | None =>
            mret (error_response (account_not_found account_id customer_id))
        | Some account =>
            transactions ← db_get_transactions_by_date_range h account_id s e;
            lift (TransactionResponse true
                    (Some [Lit "Retrieved "; Val (len transactions);
                           Lit " transactions between "; Val start_date;
                           Lit " and "; Val end_date])
                    None
                    [ ("account_id", account_id);
                      ("account_number",
                       VStr (Account.account_number account));
                      ("transactions",
                       VList (transaction_dict <$> transactions));
                      ("count", len transactions);
                      ("start_date", start_date);
                      ("end_date", end_date) ])
        end
    end.

Definition get_customer_account_transactions_by_date (h : Host)
    (customer_id : Z) (ctx : ToolContext) (db : Database.t) : Outcome :=
  try_except
    (get_customer_account_transactions_by_date_body h customer_id (params ctx))
    (λ e, error_response
            [Lit "Error retrieving transactions by date: "; Exc e])
    (state ctx) db.

(** *** [get_customer_account_transactions_by_type] *)

Definition get_customer_account_transactions_by_type_body (h : Host)
    (customer_id : Z) (params : gmap string pyval) : Py ToolResponse :=
  let account_id := dict_get params "account_id" in
  let transaction_type := dict_get params "transaction_type" in
  if negb (truthy account_id && truthy transaction_type) then
    mret (error_response
            [Lit "account_id and transaction_type parameters are required"])
  else
    account ← db_get_customer_account h customer_id account_id;
    match account with
    | None => mret (error_response (account_not_found account_id customer_id))
    | Some account =>
        transactions ←
          db_get_transactions_by_type h account_id transaction_type;
        lift (TransactionResponse true
                (Some [Lit "Retrieved "; Val (len transactions); Lit " ";
                       Val transaction_type; Lit " transactions"])
                None
                [ ("account_id", account_id);
                  ("account_number", VStr (Account.account_number account));
                  ("transactions", VList (transaction_dict <$> transactions));
                  ("count", len transactions);
                  ("transaction_type", transaction_type) ])
    end.

Definition get_customer_account_transactions_by_type (h : Host)
    (customer_id : Z) (ctx : ToolContext) (db : Database.t) : Outcome :=
  try_except
    (get_customer_account_transactions_by_type_body h customer_id (params ctx))
    (λ e, error_response
            [Lit "Error retrieving transactions by type: "; Exc e])
    (state ctx) db.

(** *** [get_customer_complaint] *)

Definition get_customer_complaint_body (h : Host) (customer_id : Z)
    (params : gmap string pyval) : Py ToolResponse :=
  found ← db_verify_customer customer_id;
  if negb found then
    mret (error_response (customer_not_found customer_id))
  else
    pagination ← parse_pagination h params;
    match pagination with
    | None => mret (error_response invalid_pagination)
    | Some (limit, offset) =>
        complaints ← db_get_customer_complaints customer_id limit offset;
        lift (ComplaintResponse true
                (Some [Lit "Retrieved "; Val (len complaints);
                       Lit " complaints for customer ";
                       Val (VInt customer_id)])
                None
                [ ("customer_id", VInt customer_id);
                  ("complaints", VList (complaint_dict <$> complaints));
                  ("pagination",
                   pagination_dict limit offset (length complaints)) ])
    end.

Definition get_customer_complaint (h : Host) (customer_id : Z)
    (ctx : ToolContext) (db : Database.t) : Outcome :=
  try_except (get_customer_complaint_body h customer_id (params ctx))
    (λ e, error_response [Lit "Error retrieving complaints: "; Exc e])
    (state ctx) db.

(** *** [get_customer_complaint_by_id] *)

(** The keyword arguments built from a complaint row, as in
    [complaint_id=complaint["id"], title=complaint["title"], ...]. *)
Definition complaint_fields (customer_id : Z) (j : Complaint.joined)
    : list (string * pyval) :=
  let c := Complaint.row j in
  [ ("customer_id", VInt customer_id);
    ("complaint_id", VInt (Complaint.id c));
    ("title", VStr (Complaint.title c));
    ("type", VStr (Complaint.complaint_type_name j));
    ("status", VStr (Complaint.status c));
    ("priority", VStr (Complaint.priority c));
    ("created_at", VStr (Complaint.created_at c));
    ("updated_at", VStr (Complaint.updated_at c)) ].

Definition get_customer_complaint_by_id_body (h : Host) (customer_id : Z)
    (params : gmap string pyval) : Py ToolResponse :=
  let complaint_id := dict_get params "complaint_id" in
  if negb (truthy complaint_id) then
    mret (error_response [Lit "complaint_id parameter is required"])
  else
    complaint ← db_get_complaint_by_id h complaint_id (Some customer_id);
    match complaint with
    | None =>
        mret (error_response (complaint_not_found complaint_id customer_id))
    | Some j =>
        lift (ComplaintResponse true
                (Some [Lit "Complaint retrieved successfully"]) None
                (complaint_fields customer_id j ++
                 [("resolved_at",
                   py_opt_str (Complaint.resolved_at (Complaint.row j)))]))
    end.

Definition get_customer_complaint_by_id (h : Host) (customer_id : Z)
    (ctx : ToolContext) (db : Database.t) : Outcome :=
  try_except (get_customer_complaint_by_id_body h customer_id (params ctx))
    (λ e, error_response [Lit "Error retrieving complaint: "; Exc e])
    (state ctx) db.

(** *** [create_customer_complaint] *)

Definition required_fields : list string :=
  ["type_id"; "title"; "description"].

(** [[field for field in required_fields if field not in params]]. *)
Definition missing_fields (params : gmap string pyval) : list string :=
  filter (λ field, params !! field = None) required_fields.

(** [", ".join(fields)]. *)
Definition join_comma (fields : list string) : string :=
  String.concat ", " fields.

Definition create_customer_complaint_body (h : Host) (customer_id : Z)
    (params : gmap string pyval) : Py ToolResponse :=
  found ← db_verify_customer customer_id;
  if negb found then
    mret (error_response (customer_not_found customer_id))
  else
    match missing_fields params with
    | (_ :: _) as missing =>
        mret (error_response
                [Lit "Missing required fields: ";
                 Val (VStr (join_comma missing))])
    | [] =>
        except_Exception
          (complaint_id ←
             db_create_complaint h customer_id
               (dict_get params "type_id") (dict_get params "title")
               (dict_get params "description")
               (dict_get_default params "priority" (VStr "Medium"));
           complaint ← db_get_complaint_by_id h (VInt complaint_id) None;
           match complaint with
           | None =>
               mret (error_response
                       [Lit "Complaint was created but could not be retrieved"])
           | Some j =>
               lift (ComplaintResponse true
                       (Some [Lit "Complaint created successfully"]) None
                       (complaint_fields customer_id j))
           end)
          (λ e, mret (error_response
                        [Lit "Database error creating complaint: "; Exc e]))
    end.

Definition create_customer_complaint (h : Host) (customer_id : Z)
    (ctx : ToolContext) (db : Database.t) : Outcome :=
  try_except (create_customer_complaint_body h customer_id (params ctx))
    (λ e, error_response [Lit "Error creating complaint: "; Exc e])
    (state ctx) db.

(** *** The tools that take a customer id *)

(** The tool functions of the module other than [get_product] and
    [get_current_offers], which take no customer id. *)
Inductive name : Type :=
| Verify_customer
| Get_customer_account
| Get_customer_account_balance
| Get_customer_account_transactions
| Get_customer_account_transactions_by_date
| Get_customer_account_transactions_by_type
| Get_customer_complaint
| Get_customer_complaint_by_id
| Create_customer_complaint.

Definition call (h : Host) (tool : name)
    : Z → ToolContext → Database.t → Outcome :=
  match tool with
  | Verify_customer => verify_customer
  | Get_customer_account => get_customer_account h
  | Get_customer_account_balance => get_customer_account_balance h
  | Get_customer_account_transactions => get_customer_account_transactions h
  | Get_customer_account_transactions_by_date =>
      get_customer_account_transactions_by_date h
  | Get_customer_account_transactions_by_type =>
      get_customer_account_transactions_by_type h
  | Get_customer_complaint => get_customer_complaint h
  | Get_customer_complaint_by_id => get_customer_complaint_by_id h
  | Create_customer_complaint => create_customer_complaint h
  end.

(** The parameters the docstring of a tool marks as required. *)
Definition required_params (tool : name) : list string :=
  match tool with
  | Verify_customer | Get_customer_account | Get_customer_complaint => []
  | Get_customer_account_balance | Get_customer_account_transactions =>
      ["account_id"]
  | Get_customer_account_transactions_by_date => ["account_id"; "start_date"]
  | Get_customer_account_transactions_by_type =>
      ["account_id"; "transaction_type"]
  | Get_customer_complaint_by_id => ["complaint_id"]
  | Create_customer_complaint => required_fields
  end.

(** The text a tool gives when a required parameter is missing. *)
Definition missing_text (tool : name) (params : gmap string pyval) : text :=
  match tool with
  | Get_customer_account_transactions_by_date =>
      [Lit "account_id and start_date parameters are required"]
  | Get_customer_account_transactions_by_type =>
      [Lit "account_id and transaction_type parameters are required"]
  | Get_customer_complaint_by_id =>
      [Lit "complaint_id parameter is required"]
  | Create_customer_complaint =>
      [Lit "Missing required fields: ";
       Val (VStr (join_comma (missing_fields params)))]
  | _ => []
  end.



End Tool.

(** ** The rules of the adapter, as the specification words them *)

Module Rule.

(** The "customer verified" flag of the session is unset or false. *)
Definition unverified (st : gmap string pyval) : Prop :=
  st !! "customer_verified" = None
  ∨ st !! "customer_verified" = Some (VBool false).

(** Authorization gate: the envelope has [success=false] and the fixed
    message that asks for a new verification, and no call was made on the
    query service. *)
Definition gated (out : Outcome) : Prop :=
  success (response out) = false
  ∧ error (response out) = Some Tool.not_verified
  ∧ calls out = [].

Definition contains (field s : string) : bool :=
  bool_decide (is_Some (String.index 0 field s)).

(** The text names the field. *)
Definition mentions (msg : text) (field : string) : bool :=
  existsb (λ p, match p with
                | Lit s | Val (VStr s) => contains field s
                | _ => false
                end) msg.

(** Required-parameter check: an error envelope that names every missing
    required parameter, before any call on the query service. *)
Definition reports_missing (tool : Tool.name) (params : gmap string pyval)
    (out : Outcome) : Prop :=
  success (response out) = false
  ∧ (∃ msg, error (response out) = Some msg
            ∧ ∀ field, field ∈ Tool.required_params tool →
                       params !! field = None → mentions msg field = true)
  ∧ calls out = [].



End Rule.

(** ** A host and a database for the examples *)

Module Sample.

Definition all_digits (s : string) : bool :=
  forallb (λ c, bool_decide (is_Some (digit_of c)))
    (String.list_ascii_of_string s).

(** Accepts the calendar dates written [YYYY-MM-DD]. *)
Definition iso_date (s : string) : bool :=
  (String.length s =? 10)%nat
  && all_digits (String.substring 0 4 s)
  && String.eqb (String.substring 4 1 s) "-"
  && all_digits (String.substring 5 2 s)
  && String.eqb (String.substring 7 1 s) "-"
  && all_digits (String.substring 8 2 s).

(** Reads the texts made of decimal digits as numbers. *)
Definition digits_value (s : string) : option Q :=
  if all_digits s then inject_Z <$> parse_unsigned (String.list_ascii_of_string s)
  else None.

Definition host : Host := {|
  today_iso := "2025-06-01";
  current_timestamp := "2025-06-01 09:00:00";
  fromisoformat_ok := iso_date;
  int_text := int_of_string;
  numeric_text := digits_value;
  real_text := λ q, pretty (Qnum q) +:+ "/" +:+ pretty (Z.pos (Qden q)) |}.

Definition john : Customer.t :=
  Customer.mk 1 "John Doe" "john.doe@example.com" "555-123-4567"
    "123 Main St, Anytown, USA" "1985-05-15"
    "2025-01-01 00:00:00" "2025-01-01 00:00:00".

Definition jane : Customer.t :=
  Customer.mk 2 "Jane Smith" "jane.smith@example.com" "555-987-6543"
    "456 Oak Ave, Somewhere, USA" "1990-08-22"
    "2025-01-01 00:00:00" "2025-01-01 00:00:00".

Definition checking : Account.t :=
  Account.mk 1 1 "1000000001" (inject_Z 250) "Checking" "Active"
    "2025-01-02 00:00:00" "2025-01-02 00:00:00".

Definition savings : Account.t :=
  Account.mk 2 2 "1000000002" (inject_Z 900) "Savings" "Active"
    "2025-01-03 00:00:00" "2025-01-03 00:00:00".

Definition deposit : Transaction.t :=
  Transaction.mk 1 1 (inject_Z 100) "Deposit" (Some "Salary")
    "2025-05-01" "2025-05-01 08:00:00".

Definition withdrawal : Transaction.t :=
  Transaction.mk 2 1 (inject_Z (-40)) "Withdrawal" None
    "2025-05-10" "2025-05-10 08:00:00".

Definition card_lost : Complaint.t :=
  Complaint.mk 1 2 3 "Card lost" "My card is lost" "Open" "High" None
    "2025-05-20 10:00:00" "2025-05-20 10:00:00" None.

(** An initialised database with two customers, one account each, two
    transactions on account 1 and one complaint of customer 2. *)
Definition db : Database.t :=
  let d := Database._initialize_database Database.fresh in
  Database.mk (Database.tables d) (Database.indexes d) [john; jane]
    [checking; savings] [deposit; withdrawal] (Database.complaint_types d)
    [card_lost].

(** A session in which [verify_customer] has succeeded for customer 1. *)
Definition verified : gmap string pyval :=
  <["customer_id" := VInt 1]> (<["customer_verified" := VBool true]> ∅).

End Sample.

(** ** What a tool body keeps and what it returns *)

(** Every run of [m] relates the world before to the world after by [I],
    whether it returns or raises. *)
Definition frame {A} (I : World → World → Prop) (m : Py A) : Prop :=
  ∀ w, I w (m w).2.

(** Every value [m] returns satisfies [Q]. *)
Definition results {A} (Q : A → Prop) (m : Py A) : Prop :=
  ∀ w a, (m w).1 = inr a → Q a.

(** The database is the same. *)
Definition same_db (w w' : World) : Prop := w_db w' = w_db w.

(** The session state is the same. *)
Definition same_state (w w' : World) : Prop := w_state w' = w_state w.

(** The world with another session state. *)
Definition with_state (st : gmap string pyval) (w : World) : World :=
  {| w_db := w_db w; w_state := st; w_calls := w_calls w |}.

(** [m] neither reads nor writes the session state: on another state it
    does the same, and leaves that state as it is. *)
Definition stateless {A} (m : Py A) : Prop :=
  ∀ w st, m (with_state st w) = ((m w).1, with_state st (m w).2).

(** An envelope reports either success or an error, never both and never
    neither. *)
Definition consistent (r : ToolResponse) : Prop :=
  success r = true ↔ error r = None.

(** The account whose balance or transactions a call reads. *)
Definition queried_account (c : db_call) : option pyval :=
  match c with
  | Call_get_account_balance a
  | Call_get_account_transactions a _ _
  | Call_get_transactions_by_date_range a _ _
  | Call_get_transactions_by_type a _ => Some a
  | _ => None
  end.

(** ** Products and offers: [get_product] and [get_current_offers]

    The two tools that take no customer id. They read the parameter bag
    only, write nothing to the session state and make no change to the
    database; they are embedded as functions to the envelope they return.
    The text [str(e)] of an exception raised by the Python library itself is
    known and is kept as a string piece. *)

Module Catalog.

Record product := {
  product_id : Z;
  product_name : string;
  product_type : string }.

(** [Database.get_products]. *)
Definition get_products : list product :=
  [ {| product_id := 1; product_name := "Savings Account";
       product_type := "Deposit" |};
    {| product_id := 2; product_name := "Checking Account";
       product_type := "Deposit" |};
    {| product_id := 3; product_name := "Personal Loan";
       product_type := "Loan" |};
    {| product_id := 4; product_name := "Credit Card";
       product_type := "Credit" |};
    {| product_id := 5; product_name := "Mortgage"; product_type := "Loan" |} ].

(** Python's [==] between an integer and a value of the parameter bag. *)
Definition int_eq (z : Z) (v : pyval) : bool :=
  match v with
  | VInt z' => z =? z'
  | VBool b => z =? (if b then 1 else 0)
  | VFloat q => Qeq_bool (inject_Z z) q
  | _ => false
  end.

(** [type(v).__name__]. *)
Definition type_name (v : pyval) : string :=
  match v with
  | VNone => "NoneType"
  | VBool _ => "bool"
  | VInt _ => "int"
  | VFloat _ => "float"
  | VStr _ => "str"
  | VList _ => "list"
  | VDict _ => "dict"
  end.

Definition product_dict (p : product) : pyval :=
  VDict [ ("id", VInt (product_id p)); ("name", VStr (product_name p));
          ("type", VStr (product_type p)); ("description", VNone) ].

(** The products that pass [p["id"] == product_id], when [product_id] is
    given. *)
Definition by_id (product_id_param : pyval) (products : list product)
    : list product :=
  if truthy product_id_param then
    filter (λ p, int_eq (product_id p) product_id_param = true) products
  else products.

(** [ProductResponse(success=True, message=..., products=..., count=...)]. *)
Definition product_response (products : list product) : ToolResponse :=
  ToolResponse_init true
    (Some [Lit "Retrieved "; Val (Tool.len products); Lit " products"]) None
    [ ("products", VList (product_dict <$> products));
      ("count", Tool.len products) ].

(** [get_product]; [lower] is [str.lower] of the Python library. The test
    [p["type"].lower() == product_type.lower()] is evaluated once per
    product that is left, so a [type] that is no string raises
    [AttributeError] only when some product is left. *)
Definition get_product (lower : string → string) (params : gmap string pyval)
    : ToolResponse :=
  let wanted := dict_get params "type" in
  let filtered := by_id (dict_get params "product_id") get_products in
  if truthy wanted then
    match filtered, wanted with
    | [], _ => product_response []
    | _, VStr t =>
        product_response
          (filter (λ p, lower (product_type p) = lower t) filtered)
    | _, v =>
        error_response
          [Lit "Error retrieving products: ";
           Val (VStr ("'" +:+ type_name v
                      +:+ "' object has no attribute 'lower'"))]
    end
  else product_response filtered.

Record offer := {
  offer_id : Z;
  offer_title : string;
  offer_description : string }.

Definition base_offers : list offer :=
  [ {| offer_id := 1; offer_title := "Premium Credit Card";
       offer_description := "0% APR for 12 months" |};
    {| offer_id := 2; offer_title := "Personal Loan";
       offer_description := "Low interest rates starting at 5.99%" |};
    {| offer_id := 3; offer_title := "High-Yield Savings";
       offer_description := "Earn 2.5% APY on your savings" |} ].

(** The customer a bound [customer_id] selects, as in
    [SELECT * FROM customers WHERE id = ?]. *)
Definition find_customer (h : Host) (db : Database.t) (customer_id : pyval)
    : exn + option Customer.t :=
  Tool.bound customer_id (λ p, as_integer h p ≫= Database.get_customer db).

(** [Database.get_current_offers]; [first_word s] is [s.split()[0]] of the
    Python library, [None] when [s.split()] is empty and the index raises
    [IndexError]. The result is the offers, or the piece that renders the
    exception raised. *)
Definition db_get_current_offers (h : Host)
    (first_word : string → option string) (db : Database.t)
    (customer_id : pyval) : piece + list offer :=
  if truthy customer_id then
    match find_customer h db customer_id with
    | inl e => inl (Exc e)
    | inr None => inr base_offers
    | inr (Some customer) =>
        match first_word (Customer.name customer) with
        | None => inl (Val (VStr "list index out of range"))
        | Some first =>
            inr (base_offers
                 ++ [ {| offer_id := 100;
                         offer_title := "Special Offer for " +:+ first;
                         offer_description := "Exclusive deal just for you!"
                      |} ])%list
        end
    end
  else inr base_offers.

Definition offer_dict (o : offer) : pyval :=
  VDict [ ("id", VInt (offer_id o)); ("title", VStr (offer_title o));
          ("description", VStr (offer_description o)) ].

Definition is_not_None (v : pyval) : bool :=
  match v with
  | VNone => false
  | _ => true
  end.

Definition OfferResponse := model_init "OfferResponse" ["customer_id"].

(** [get_current_offers]. *)
Definition get_current_offers (h : Host) (first_word : string → option string)
    (params : gmap string pyval) (db : Database.t) : ToolResponse :=
  let failed (p : piece) :=
    error_response [Lit "Error retrieving offers: "; p] in
  let customer_id := dict_get params "customer_id" in
  let continue :=
    match db_get_current_offers h first_word db customer_id with
    | inl p => failed p
    | inr offers =>
        let is_personalized := is_not_None customer_id in
        match OfferResponse true
                (Some [Lit "Retrieved "; Val (Tool.len offers); Lit " ";
                       Val (VStr (if is_personalized then "personalized"
                                  else "general"));
                       Lit " offers"])
                None
                [ ("offers", VList (offer_dict <$> offers));
                  ("count", Tool.len offers);
                  ("personalized", VBool is_personalized);
                  ("customer_id",
                   if is_personalized then customer_id else VNone) ] with
        | inl e => failed (Exc e)
        | inr r => r
        end
    end in
  if truthy customer_id then
    match find_customer h db customer_id with
    | inl e => failed (Exc e)
    | inr None =>
        error_response [Lit "Customer not found with ID: "; Val customer_id]
    | inr (Some _) => continue
    end
  else continue.

Fixpoint leading_word (cs : list Ascii.ascii) : list Ascii.ascii :=
  match cs with
  | c :: rest => if is_space c then [] else c :: leading_word rest
  | [] => []
  end.

(** [s.split()[0]] for a string whose white space is ASCII, for the
    examples. *)
Definition ascii_first_word (s : string) : option string :=
  match leading_word (strip_left (String.list_ascii_of_string s)) with
  | [] => None
  | w => Some (String.string_of_list_ascii w)
  end.

End Catalog.

(** ** The complaint model of [entities/Complain.py]

    [class Complain] and its three methods. A time stamp and a UUID are kept
    as their text; the readings of [datetime.utcnow()] a method makes are
    arguments, in the order the method makes them. *)

Module Complain.

Inductive ComplaintStatus : Type :=
| OPEN | IN_PROGRESS | RESOLVED | REJECTED | REOPENED | ESCALATED.

Inductive ComplaintPriority : Type := LOW | MEDIUM | HIGH | CRITICAL.

Inductive ComplaintType : Type :=
| ACCOUNT_ISSUE | TRANSACTION_PROBLEM | CARD_ISSUE | LOAN_QUERY
| INTERNET_BANKING | CUSTOMER_SERVICE | FRAUD | OTHER.

#[global] Instance ComplaintStatus_eq_dec : EqDecision ComplaintStatus.
Proof. solve_decision. Defined.

Record t := mk {
  id : string;
  customer_id : string;
  complain_type : ComplaintType;
  title : string;
  description : string;
  status : ComplaintStatus;
  priority : ComplaintPriority;
  created_at : string;
  updated_at : string;
  resolved_at : option string;
  resolution_notes : option string;
  assigned_to : option string;
  attachments : list string }.

(** Truth value of an [Optional[str]]. *)
Definition given (o : option string) : bool :=
  match o with
  | Some s => negb (String.eqb s "")
  | None => false
  end.

(** [update_status(new_status, notes)]; [now1] and [now2] are the two
    readings of the clock. *)
Definition update_status (c : t) (new_status : ComplaintStatus)
    (notes : option string) (now1 now2 : string) : t :=
  let resolved :=
    if bool_decide (new_status = RESOLVED) && negb (bool_decide (is_Some (resolved_at c)))
    then Some now2 else resolved_at c in
  let new_notes :=
    if given notes then
      if given (resolution_notes c) then
        Some (default "" (resolution_notes c) +:+ String (Ascii.ascii_of_nat 10)
                (String (Ascii.ascii_of_nat 10) "") +:+ default "" notes)
      else notes
    else resolution_notes c in
  mk (id c) (customer_id c) (complain_type c) (title c) (description c)
     new_status (priority c) (created_at c) now1 resolved new_notes
     (assigned_to c) (attachments c).

(** [add_attachment(file_reference)]. *)
Definition add_attachment (c : t) (file_reference : string) (now : string) : t :=
  if bool_decide (file_reference ∈ attachments c) then c
  else mk (id c) (customer_id c) (complain_type c) (title c) (description c)
          (status c) (priority c) (created_at c) now (resolved_at c)
          (resolution_notes c) (assigned_to c)
          (attachments c ++ [file_reference]).

(** [assign_to(staff_id)]. *)
Definition assign_to (c : t) (staff_id : string) (now : string) : t :=
  mk (id c) (customer_id c) (complain_type c) (title c) (description c)
     (status c) (priority c) (created_at c) now (resolved_at c)
     (resolution_notes c) (Some staff_id) (attachments c).

(** One call of a method with its arguments. *)
Inductive call : Type :=
| Update_status (new_status : ComplaintStatus) (notes : option string)
    (now1 now2 : string)
| Add_attachment (file_reference : string) (now : string)
| Assign_to (staff_id : string) (now : string).

Definition apply (c : t) (op : call) : t :=
  match op with
  | Update_status s n now1 now2 => update_status c s n now1 now2
  | Add_attachment f now => add_attachment c f now
  | Assign_to s now => assign_to c s now
  end.

End Complain.

(** ** The shop tools: [customer_service_agent/tools/tool.py]

    The module keeps two globals, [PRODUCT_CATALOG] (never written) and
    [CUSTOMER_CART] (written by [modify_cart]); they are the arguments
    [catalog] and [carts] here, and [modify_cart] returns the new value of
    [CUSTOMER_CART] beside its result. Arguments have the types of the
    signatures. A price is only copied, never computed with.

    A Python [dict] keeps its keys in the order of their first insertion; it
    is a list of pairs with [dict_set] and [dict_del]. [modify_cart] builds
    every [CartItem] it stores itself and stores it under one customer, so no
    item is shared between two carts; what an earlier result of the module
    shows after a later call is not modelled. *)

Module Shop.

Module Product.
Record t := mk {
  product_id : string;
  name : string;
  description : string;
  price : Q;
  stock_quantity : Z;
  category : string }.
End Product.

Module CartItem.
Record t := mk {
  product_id : string;
  name : string;
  quantity : Z;
  price : Q }.
End CartItem.

Record ModifyCartResult := {
  message : string;
  cart : list CartItem.t }.

(** [Dict[str, CartItem]], in insertion order. *)
Definition cart_dict : Type := list (string * CartItem.t).

(** [d[k] = v]: an old key keeps its place. *)
Fixpoint dict_set (k : string) (v : CartItem.t) (d : cart_dict) : cart_dict :=
  match d with
  | [] => [(k, v)]
  | (k', v') :: d' =>
      if decide (k' = k) then (k, v) :: d' else (k', v') :: dict_set k v d'
  end.

(** [d.get(k)]. *)
Fixpoint dict_lookup (k : string) (d : cart_dict) : option CartItem.t :=
  match d with
  | [] => None
  | (k', v') :: d' => if decide (k' = k) then Some v' else dict_lookup k d'
  end.

(** [del d[k]]. *)
Definition dict_del (k : string) (d : cart_dict) : cart_dict :=
  filter (λ kv, kv.1 ≠ k) d.

(** [{item.product_id: item for item in cart}]. *)
Definition from_cart (cart : list CartItem.t) : cart_dict :=
  foldl (λ d item, dict_set (CartItem.product_id item) item d) [] cart.

(** One round of the loop over [remove]. *)
Definition remove_one (d : cart_dict) (pid : string) : cart_dict :=
  match dict_lookup pid d with
  | Some _ => dict_del pid d
  | None => d
  end.

(** [next((p for p in PRODUCT_CATALOG if p.product_id == pid), None)]. *)
Definition product_in_catalog (catalog : list Product.t) (pid : string)
    : option Product.t :=
  head (filter (λ p, Product.product_id p = pid) catalog).

(** One round of the loop over [add]. *)
Definition add_one (catalog : list Product.t) (d : cart_dict) (pid : string)
    : cart_dict :=
  match product_in_catalog catalog pid with
  | Some p =>
      match dict_lookup pid d with
      | Some item =>
          dict_set pid
            (CartItem.mk (CartItem.product_id item) (CartItem.name item)
               (CartItem.quantity item + 1) (CartItem.price item)) d
      | None =>
          dict_set pid (CartItem.mk pid (Product.name p) 1 (Product.price p)) d
      end
  | None => d
  end.

Definition modify_cart (catalog : list Product.t)
    (carts : gmap string (list CartItem.t)) (customer_id : string)
    (add remove : list string)
    : ModifyCartResult * gmap string (list CartItem.t) :=
  let cart := default [] (carts !! customer_id) in
  let d := from_cart cart in
  let d := foldl remove_one d remove in
  let d := foldl (add_one catalog) d add in
  let updated_cart_list := d.*2 in
  ({| message := "Cart updated successfully."; cart := updated_cart_list |},
   <[customer_id := updated_cart_list]> carts).

(** [get_cart_contents]: the [items] of the [Cart] it returns. *)
Definition get_cart_contents (carts : gmap string (list CartItem.t))
    (customer_id : string) : list CartItem.t :=
  default [] (carts !! customer_id).

(** The module's data. *)
Definition PRODUCT_CATALOG : list Product.t :=
  [ Product.mk "prd001" "Garden Shovel" "A sturdy garden shovel."
      (Qmake 2599 100) 15 "Gardening Tools";
    Product.mk "prd002" "Tomato Seeds Pack" "Pack of 50 heirloom tomato seeds."
      (Qmake 499 100) 50 "Seeds";
    Product.mk "prd003" "Plant Fertilizer" "All-purpose plant fertilizer (1kg)."
      (Qmake 1250 100) 25 "Garden Supplies" ].

Definition CUSTOMER_CART : gmap string (list CartItem.t) :=
  {[ "customer-001" :=
       [CartItem.mk "prd002" "Tomato Seeds Pack" 2 (Qmake 499 100)] ]}.

End Shop.

(** Invariant of the cart dictionary, and the count used for
    quantities. *)

(** Keys are distinct and every item sits under its own product id. *)
Definition well_keyed (d : Shop.cart_dict) : Prop :=
  NoDup d.*1 ∧ ∀ k v, (k, v) ∈ d → Shop.CartItem.product_id v = k.

(** The number of times [pid] stands in [add]. *)
Definition times (pid : string) (add : list string) : Z :=
  Z.of_nat (length (filter (λ x, x = pid) add)).

(** * Properties *)

(** ** Lists and row ids *)

Section head_filter.
Context {A : Type} (P : A → Prop) `{!∀ x, Decision (P x)}.

Lemma filter_none (l : list A) :
  (∀ x, x ∈ l → ¬ P x) → filter P l = [].
Proof.
  intros Hno. destruct (filter P l) as [|x l'] eqn:E; [done|].
  assert (x ∈ filter P l) as Hx by (rewrite E; left).
  apply list_elem_of_filter in Hx as [HP Hin]. by destruct (Hno x Hin).
Qed.

Lemma head_filter_None (l : list A) :
  (∀ x, x ∈ l → ¬ P x) → head (filter P l) = None.
Proof. intros Hno. by rewrite filter_none. Qed.

Lemma head_filter_is_Some (l : list A) (x : A) :
  x ∈ l → P x → ∃ y, head (filter P l) = Some y ∧ y ∈ l ∧ P y.
Proof.
  intros Hin HP.
  assert (x ∈ filter P l) as Hx by (apply list_elem_of_filter; done).
  destruct (filter P l) as [|y l'] eqn:E; [by apply elem_of_nil in Hx|].
  exists y. split; [done|].
  assert (y ∈ filter P l) as Hy by (rewrite E; left).
  by apply list_elem_of_filter in Hy as [? ?].
Qed.

End head_filter.

Lemma foldr_max_ge (i : Z) (l : list Z) :
  i ≤ foldr Z.max i l ∧ ∀ j, j ∈ l → j ≤ foldr Z.max i l.
Proof.
  induction l as [|k l [IH1 IH2]]; simpl.
  - split; [lia|]. intros j Hj. by apply elem_of_nil in Hj.
  - split; [lia|]. intros j [->|Hj]%elem_of_cons; [lia|].
    specialize (IH2 j Hj). lia.
Qed.

Lemma next_rowid_fresh (ids : list Z) (i : Z) :
  i ∈ ids → i < next_rowid ids.
Proof.
  destruct ids as [|k l]; [intros H; by apply elem_of_nil in H|].
  simpl. destruct (foldr_max_ge k l) as [H1 H2].
  intros [->|Hi]%elem_of_cons; [lia|]. specialize (H2 i Hi). lia.
Qed.

(** ** The query service *)



(** C4. Round trip: in a database with customer 1 and complaint type 1,
    [create_complaint(1, 1, "T", "D", "High")] succeeds and
    [get_complaint_by_id] on the returned id yields a complaint with status
    "Open", title "T", priority "High" and no [resolved_at]. *)
Theorem create_complaint_round_trip (db : Database.t) (now : string) :
  (∃ c, c ∈ Database.customers db ∧ Customer.id c = 1) →
  (∃ ct, ct ∈ Database.complaint_types db ∧ ComplaintType.id ct = 1) →
  ∃ id db' j,
    Database.create_complaint db now 1 1 "T" "D" "High" = inr (id, db')
    ∧ Database.get_complaint_by_id db' id None = Some j
    ∧ Complaint.id (Complaint.row j) = id
    ∧ Complaint.status (Complaint.row j) = "Open"
    ∧ Complaint.title (Complaint.row j) = "T"
    ∧ Complaint.priority (Complaint.row j) = "High"
    ∧ Complaint.resolved_at (Complaint.row j) = None.
Proof.
  intros (c & Hc & Hcid) (ct & Hct & Hctid).
  destruct (head_filter_is_Some (λ c, Customer.id c = 1) _ c Hc Hcid)
    as (c' & Ec & _).
  destruct (head_filter_is_Some (λ ct, ComplaintType.id ct = 1) _ ct Hct Hctid)
    as (ct' & Ect & _).
  unfold Database.create_complaint, Database.get_customer.
  rewrite Ec, Ect. simpl.
  set (id := next_rowid (Complaint.id <$> Database.complaints db)).
  exists id. eexists.
  exists (Complaint.mk_joined
            (Complaint.mk id 1 1 "T" "D" "Open" "High" None now now None)
            (ComplaintType.name ct')).
  split; [reflexivity|]. split; [|done].
  unfold Database.get_complaint_by_id. simpl.
  rewrite filter_app.
  rewrite (filter_none _ (Database.complaints db)).
  2:{ intros x Hx Hid.
      assert (Complaint.id x ∈ Complaint.id <$> Database.complaints db) as Hm
        by (apply list_elem_of_fmap; eauto).
      apply next_rowid_fresh in Hm. fold id in Hm. lia. }
  rewrite filter_cons_True by done. simpl.
  unfold Database.join_type. simpl. rewrite Ect. done.
Qed.

Lemma create_complaint_round_trip_witness :
  ∃ id db' j,
    Database.create_complaint Sample.db "2025-06-01 09:00:00" 1 1 "T" "D" "High"
    = inr (id, db')
    ∧ Database.get_complaint_by_id db' id None = Some j
    ∧ Complaint.id (Complaint.row j) = id
    ∧ Complaint.status (Complaint.row j) = "Open"
    ∧ Complaint.title (Complaint.row j) = "T"
    ∧ Complaint.priority (Complaint.row j) = "High"
    ∧ Complaint.resolved_at (Complaint.row j) = None.
Proof.
  apply (create_complaint_round_trip Sample.db "2025-06-01 09:00:00").
  - exists Sample.john. split; [left|reflexivity].
  - exists (ComplaintType.mk 1 "Account Issue"
              "Problems related to account access or management" true).
    split; [vm_compute; left|reflexivity].
Defined.

(** ** Ordering and paging *)


Lemma desc_by2_total {A} (k1 k2 : A → string) : Total (desc_by2 k1 k2).
Proof.
  intros x y. unfold desc_by2.
  rewrite (String.compare_antisym (k1 y) (k1 x)).
  destruct (String.compare (k1 x) (k1 y)); simpl; auto.
  destruct (String.leb_total (k2 y) (k2 x)); auto.
Qed.

Lemma ordered_transactions_sorted (db : Database.t) (A : Z) :
  Sorted (desc_by2 Transaction.transaction_date Transaction.created_at)
    (Database.ordered_transactions db A)
  ∧ Database.ordered_transactions db A
    ≡ₚ filter (λ x, Transaction.account_id x = A) (Database.transactions db).
Proof.
  split.
  - apply (Sorted_merge_sort _ (Total0 := desc_by2_total _ _)).
  - apply merge_sort_Permutation.
Qed.

Lemma sql_limit_offset_nonneg {A} (limit offset : Z) (rows : list A) :
  0 ≤ limit →
  sql_limit_offset limit offset rows
  = take (Z.to_nat limit) (drop (Z.to_nat offset) rows).
Proof.
  intros Hl. unfold sql_limit_offset.
  destruct (limit <? 0) eqn:E; [lia|done].
Qed.

(** C5, amended. The rows of the account, ordered by transaction date
    descending and then creation time descending, are a sorted sequence that
    holds exactly the transactions of the account. For a limit [L] that is
    not negative, [get_account_transactions] returns at most [L] rows, and
    its row [i] is row [O + i] of that sequence, for [i < L] and an offset [O]
    that is not negative. A negative [L] puts no bound: the result is the
    sequence after the first [O] rows. A negative [O] skips nothing: the
    result is the one for offset 0. *)
Theorem get_account_transactions_page (db : Database.t) (A L O : Z) :
  let full := Database.ordered_transactions db A in
  let page := Database.get_account_transactions db A L O in
  (0 ≤ L →
   Z.of_nat (length page) ≤ L
   ∧ ∀ i : nat, page !! i
       = if decide (Z.of_nat i < L) then full !! (Z.to_nat O + i)%nat else None)
  ∧ (L < 0 → page = drop (Z.to_nat O) full)
  ∧ (O < 0 → page = Database.get_account_transactions db A L 0)
  ∧ Sorted (desc_by2 Transaction.transaction_date Transaction.created_at) full
  ∧ full ≡ₚ filter (λ x, Transaction.account_id x = A)
              (Database.transactions db).
Proof.
  intros full page. split; [|split; [|split]].
  - intros HL.
    assert (page = take (Z.to_nat L) (drop (Z.to_nat O) full)) as ->
      by (apply sql_limit_offset_nonneg; done).
    split; [rewrite length_take; lia|].
    intros i. case_decide.
    + rewrite lookup_take_lt by lia. apply lookup_drop.
    + apply lookup_take_ge. lia.
  - intros HL. unfold page, Database.get_account_transactions, sql_limit_offset.
    destruct (L <? 0) eqn:E; [done|lia].
  - intros HO. unfold page, Database.get_account_transactions, sql_limit_offset.
    by replace (Z.to_nat O) with (Z.to_nat 0) by lia.
  - apply ordered_transactions_sorted.
Qed.

Lemma get_account_transactions_page_witness :
  Z.of_nat (length (Database.get_account_transactions Sample.db 1 1 1)) ≤ 1
  ∧ Database.get_account_transactions Sample.db 1 1 1 !! 0%nat
    = Some Sample.deposit
  ∧ Database.get_account_transactions Sample.db 1 (-1) 1 = [Sample.deposit]
  ∧ Database.get_account_transactions Sample.db 1 1 (-1)
    = [Sample.withdrawal].
Proof.
  destruct (get_account_transactions_page Sample.db 1 1 1)
    as (Hpage & _).
  destruct Hpage as [Hlen Hslice]; [lia|].
  split; [exact Hlen|]. split; [rewrite (Hslice 0%nat); by vm_compute|].
  destruct (get_account_transactions_page Sample.db 1 (-1) 1)
    as (_ & Hneg & _).
  split; [rewrite Hneg by lia; by vm_compute|].
  destruct (get_account_transactions_page Sample.db 1 1 (-1))
    as (_ & _ & Hoff & _).
  rewrite Hoff by lia. by vm_compute.
Defined.

(** C5, as stated, fails for a negative limit: the result is not bounded by
    [L]. *)
Lemma get_account_transactions_negative_limit :
  Database.get_account_transactions Sample.db 1 (-1) 0
  = [Sample.withdrawal; Sample.deposit]
  ∧ ¬ (Z.of_nat (length (Database.get_account_transactions Sample.db 1 (-1) 0))
       ≤ -1).
Proof.
  assert (Database.get_account_transactions Sample.db 1 (-1) 0
          = [Sample.withdrawal; Sample.deposit]) as E
    by (vm_compute; reflexivity).
  split; [exact E|]. rewrite E. cbn. lia.
Qed.

(** ** Initialisation *)

Section initialize.
Import Database.

Lemma create_table_if_not_exists_spec n T I c a t ct co :
  create_table_if_not_exists n (mk T I c a t ct co)
  = mk ({[n]} ∪ T) I c a t ct co.
Proof.
  unfold create_table_if_not_exists. simpl.
  destruct (decide (n ∈ T)) as [Hin|]; [|done].
  f_equal. symmetry. apply subseteq_union_1_L. by apply singleton_subseteq_l.
Qed.

Lemma create_index_if_not_exists_spec n T I c a t ct co :
  create_index_if_not_exists n (mk T I c a t ct co)
  = mk T ({[n]} ∪ I) c a t ct co.
Proof.
  unfold create_index_if_not_exists. simpl.
  destruct (decide (n ∈ I)) as [Hin|]; [|done].
  f_equal. symmetry. apply subseteq_union_1_L. by apply singleton_subseteq_l.
Qed.

Lemma insert_or_ignore_keeps rows v w :
  stops rows w → stops (insert_or_ignore_complaint_type rows v) w.
Proof.
  destruct v as [[i n] d]. unfold stops, insert_or_ignore_complaint_type.
  intros Hw. destruct (existsb (complaint_type_conflict i n) rows); [done|].
  rewrite existsb_app, Hw. done.
Qed.

Lemma insert_or_ignore_stops rows v :
  stops (insert_or_ignore_complaint_type rows v) v.
Proof.
  destruct v as [[i n] d]. unfold stops, insert_or_ignore_complaint_type.
  simpl. destruct (existsb _ rows) eqn:E; [done|].
  rewrite existsb_app. simpl. unfold complaint_type_conflict at 2. simpl.
  rewrite Z.eqb_refl. simpl. apply orb_true_r.
Qed.

Lemma seed_keeps defs rows w :
  stops rows w → stops (foldl insert_or_ignore_complaint_type rows defs) w.
Proof.
  revert rows. induction defs as [|v defs IH]; intros rows Hw; [done|].
  simpl. apply IH. by apply insert_or_ignore_keeps.
Qed.

Lemma seed_stops defs rows v :
  v ∈ defs → stops (foldl insert_or_ignore_complaint_type rows defs) v.
Proof.
  revert rows. induction defs as [|v0 defs IH]; intros rows Hv.
  - by apply elem_of_nil in Hv.
  - simpl. apply elem_of_cons in Hv as [->|Hv].
    + apply seed_keeps, insert_or_ignore_stops.
    + by apply IH.
Qed.

Lemma seed_stopped defs rows :
  (∀ v, v ∈ defs → stops rows v) →
  foldl insert_or_ignore_complaint_type rows defs = rows.
Proof.
  induction defs as [|v defs IH]; intros Hall; [done|].
  simpl. assert (insert_or_ignore_complaint_type rows v = rows) as ->.
  { destruct v as [[i n] d]. unfold insert_or_ignore_complaint_type.
    specialize (Hall (i, n, d)). unfold stops in Hall. simpl in Hall.
    rewrite Hall; [done|left]. }
  apply IH. intros w Hw. apply Hall. by right.
Qed.

Lemma seed_idempotent defs rows :
  let seeded := foldl insert_or_ignore_complaint_type rows defs in
  foldl insert_or_ignore_complaint_type seeded defs = seeded.
Proof. intros seeded. apply seed_stopped. intros v Hv. by apply seed_stops. Qed.

Lemma elem_of_add_names (names : list string) (T : gset string) (x : string) :
  x ∈ foldl (λ s n, {[n]} ∪ s) T names ↔ x ∈ names ∨ x ∈ T.
Proof.
  revert T. induction names as [|n names IH]; intros T; simpl.
  - rewrite elem_of_nil. tauto.
  - rewrite IH, elem_of_union, elem_of_singleton, elem_of_cons. tauto.
Qed.

Lemma add_names_idempotent (names : list string) (T : gset string) :
  let T' := foldl (λ s n, {[n]} ∪ s) T names in
  foldl (λ s n, {[n]} ∪ s) T' names = T'.
Proof.
  intros T'. apply set_eq. intros x. unfold T'.
  rewrite !elem_of_add_names. tauto.
Qed.

Lemma _initialize_database_spec T I c a t ct co :
  _initialize_database (mk T I c a t ct co)
  = mk (foldl (λ s n, {[n]} ∪ s) T table_names)
       (foldl (λ s n, {[n]} ∪ s) I index_names) c a t
       (foldl insert_or_ignore_complaint_type ct default_types) co.
Proof.
  unfold _initialize_database, table_names, index_names. simpl.
  rewrite !create_table_if_not_exists_spec.
  rewrite !create_index_if_not_exists_spec.
  reflexivity.
Qed.

(** C7. Initialising twice gives the database that initialising once gives;
  on a new file the complaint types are the six default rows, with
  distinct ids; the tables of the schema are added to those that exist. *)
Theorem initialize_idempotent (db : Database.t) :
  _initialize_database (_initialize_database db) = _initialize_database db
  ∧ complaint_types (_initialize_database fresh)
    = (λ v, ComplaintType.mk v.1.1 v.1.2 v.2 true) <$> default_types
  ∧ NoDup (ComplaintType.id <$> complaint_types (_initialize_database fresh))
  ∧ tables (_initialize_database db) = list_to_set table_names ∪ tables db.
Proof.
  destruct db as [T I c a t ct co]. split.
  - rewrite !_initialize_database_spec. f_equal.
    + apply add_names_idempotent.
    + apply add_names_idempotent.
    + apply seed_idempotent.
  - split; [vm_compute; reflexivity|]. split.
    + unfold fresh. rewrite _initialize_database_spec. simpl.
      repeat (apply NoDup_cons; split;
                [rewrite ?elem_of_cons, elem_of_nil; intros Hin;
                 repeat destruct Hin as [Hin|Hin]; done|]).
      constructor.
    + rewrite _initialize_database_spec. cbn [tables]. apply set_eq. intros x.
      rewrite elem_of_add_names, elem_of_union, elem_of_list_to_set. tauto.
Qed.
End initialize.

(** ** The response envelope *)

(** C3. An envelope constructed with an error has [success = false],
    whatever [success] the call site passed, for [ToolResponse] and for its
    subclasses. *)
Theorem error_forces_failure (model : string) (str_fields : list string)
    (s : bool) (m e : option text) (p : list (string * pyval)) :
  e ≠ None →
  success (ToolResponse_init s m e p) = false
  ∧ ∀ r, model_init model str_fields s m e p = inr r → success r = false.
Proof.
  intros He. destruct e as [msg|]; [|done].
  split; [reflexivity|]. intros r. unfold model_init.
  destruct (filter _ p); [|discriminate]. by intros [= <-].
Qed.

Lemma error_forces_failure_witness :
  success (ToolResponse_init true (Some [Lit "ok"]) (Some [Lit "boom"])
             [("status", VStr "error")]) = false.
Proof.
  destruct (error_forces_failure "ToolResponse" [] true (Some [Lit "ok"])
              (Some [Lit "boom"]) [("status", VStr "error")]) as [H _];
    [discriminate|exact H].
Defined.

(** ** The tool functions *)

(** C6. For a customer id that is not in the store, [verify_customer]
    returns [success = false] after its one call on the database. When the
    id is one SQLite can bind, the flag "customer_verified" of the session
    is left set to [False]; for any other id the call raises
    [OverflowError], the handler answers, and the flag keeps the value it
    had: a session that was verified stays so. *)
Theorem verify_customer_unknown (db : Database.t) (ctx : ToolContext) (id : Z) :
  (∀ c, c ∈ Database.customers db → Customer.id c ≠ id) →
  let out := Tool.verify_customer id ctx db in
  success (response out) = false
  ∧ state_after out !! "customer_verified"
    = (if sqlite_int id then Some (VBool false)
       else state ctx !! "customer_verified")
  ∧ calls out = [Call_get_customer id]
  ∧ db_after out = db.
Proof.
  intros Hno out. unfold out, Tool.verify_customer, try_except,
    Tool.verify_customer_body, Tool.db_get_customer, query.
  unfold mbind, Py_bind. cbn [w_db].
  unfold Tool.bound_int, bind_int. destruct (sqlite_int id); [|done].
  unfold Database.get_customer.
  rewrite filter_none by (intros c Hc; by apply Hno).
  cbn. rewrite lookup_insert_eq. done.
Qed.

Lemma verify_customer_unknown_witness :
  state_after (Tool.verify_customer (2 ^ 63)
                 {| params := ∅; state := Sample.verified |} Sample.db)
    !! "customer_verified"
  = Some (VBool true).
Proof.
  refine (proj1 (proj2 (verify_customer_unknown Sample.db
    {| params := ∅; state := Sample.verified |} (2 ^ 63) _))).
  intros c Hc. unfold Sample.db in Hc. cbn in Hc.
  apply elem_of_cons in Hc as [-> | Hc]; [discriminate|].
  apply list_elem_of_singleton in Hc as ->. discriminate.
Defined.

Ltac unfold_py :=
  unfold try_except, mbind, Py_bind, mret, Py_ret, state_get, state_item,
    state_set, query, update, lift, raise, except_ValueError,
    except_Exception in *.

Ltac step := cbv beta iota zeta; cbn [negb w_state w_db w_calls app].

Ltac unfold_tools :=
  unfold Tool.call, Tool.verify_customer, Tool.get_customer_account,
    Tool.get_customer_account_balance, Tool.get_customer_account_transactions,
    Tool.get_customer_account_transactions_by_date,
    Tool.get_customer_account_transactions_by_type,
    Tool.get_customer_complaint, Tool.get_customer_complaint_by_id,
    Tool.create_customer_complaint.

Ltac unfold_bodies :=
  unfold Tool.verify_customer_body, Tool.get_customer_account_body,
    Tool.get_customer_account_balance_body,
    Tool.get_customer_account_transactions_body,
    Tool.get_customer_account_transactions_by_date_body,
    Tool.get_customer_account_transactions_by_type_body,
    Tool.get_customer_complaint_body, Tool.get_customer_complaint_by_id_body,
    Tool.create_customer_complaint_body, Tool.parse_pagination,
    Tool.db_get_customer, Tool.db_verify_customer,
    Tool.db_get_customer_accounts, Tool.db_get_customer_account,
    Tool.db_get_account_balance, Tool.db_get_account_transactions,
    Tool.db_get_transactions_by_date_range, Tool.db_get_transactions_by_type,
    Tool.db_get_customer_complaints, Tool.db_get_complaint_by_id,
    Tool.db_create_complaint.

Ltac run_tool :=
  unfold_tools; unfold_bodies;
  unfold try_except, mbind, Py_bind, mret, Py_ret, state_get, state_item,
    state_set, query, update, lift, raise, except_ValueError,
    except_Exception, Tool.bound_int, bind_int;
  step.

Ltac split_paths :=
  repeat (step;
          match goal with
          | |- context [match ?x with _ => _ end] =>
              lazymatch x with
              | context [match _ with _ => _ end] => fail
              | _ => destruct x eqn:?
              end
          | |- context [match ?x with _ => _ end] =>
              lazymatch x with
              | match _ with _ => _ end => fail
              | _ => destruct x eqn:?
              end
          end);
  step.

Lemma unverified_falsy (st : gmap string pyval) :
  Rule.unverified st → truthy (dict_get st "customer_verified") = false.
Proof. unfold dict_get. by intros [-> | ->]. Qed.

Lemma stateless_ret {A} (a : A) : stateless (mret a).
Proof. done. Qed.

Lemma stateless_raise {A} (e : exn) : stateless (raise (A := A) e).
Proof. done. Qed.

Lemma stateless_lift {A} (r : exn + A) : stateless (lift r).
Proof. done. Qed.

Lemma stateless_query {A} (c : db_call) (f : Database.t → exn + A) :
  stateless (query c f).
Proof. done. Qed.

Lemma stateless_update {A} (c : db_call)
    (f : Database.t → exn + (A * Database.t)) :
  stateless (update c f).
Proof.
  intros w st. unfold update. cbn.
  destruct (f (w_db w)) as [e|[a db']]; done.
Qed.

Lemma stateless_bind {A B} (m : Py A) (f : A → Py B) :
  stateless m → (∀ a, stateless (f a)) → stateless (m ≫= f).
Proof.
  intros Hm Hf w st. unfold mbind, Py_bind. rewrite Hm.
  destruct (m w) as [[e|a] w']; cbn; [done|]. apply Hf.
Qed.

Lemma stateless_except_ValueError {A} (m h : Py A) :
  stateless m → stateless h → stateless (except_ValueError m h).
Proof.
  intros Hm Hh w st. unfold except_ValueError. rewrite Hm.
  destruct (m w) as [[e|a] w']; cbn; [|done]. destruct e; try done; apply Hh.
Qed.

Lemma stateless_except_Exception {A} (m : Py A) (h : exn → Py A) :
  stateless m → (∀ e, stateless (h e)) → stateless (except_Exception m h).
Proof.
  intros Hm Hh w st. unfold except_Exception. rewrite Hm.
  destruct (m w) as [[e|a] w']; cbn; [|done]. apply Hh.
Qed.

Lemma try_except_stateless (body : Py ToolResponse)
    (handler : exn → ToolResponse) (st st' : gmap string pyval)
    (db : Database.t) :
  stateless body →
  response (try_except body handler st' db)
  = response (try_except body handler st db)
  ∧ calls (try_except body handler st' db)
    = calls (try_except body handler st db)
  ∧ db_after (try_except body handler st' db)
    = db_after (try_except body handler st db)
  ∧ state_after (try_except body handler st' db) = st'.
Proof.
  intros Hb. unfold try_except.
  change {| w_db := db; w_state := st'; w_calls := [] |}
    with (with_state st' {| w_db := db; w_state := st; w_calls := [] |}).
  rewrite Hb. by destruct (body _) as [[e|r] w'].
Qed.

Ltac stateless_step :=
  lazymatch goal with
  | |- stateless (mret _) => apply stateless_ret
  | |- stateless (raise _) => apply stateless_raise
  | |- stateless (lift _) => apply stateless_lift
  | |- stateless (update _ _) => apply stateless_update
  | |- stateless (query _ _) => apply stateless_query
  | |- stateless (_ ≫= _) => apply stateless_bind; [|intros ?]
  | |- stateless (except_ValueError _ _) => apply stateless_except_ValueError
  | |- stateless (except_Exception _ _) =>
      apply stateless_except_Exception; [|intros ?]
  | |- stateless (if ?b then _ else _) => destruct b
  | |- stateless (match ?x with _ => _ end) => destruct x
  | |- stateless (let _ := _ in _) => cbv zeta
  end.

(** The complaint tools run without the session state. *)
Lemma complaint_tools_stateless (h : Host) (tool : Tool.name) (cid : Z)
    (ctx : ToolContext) (db : Database.t) (st : gmap string pyval) :
  tool ∈ [Tool.Get_customer_complaint; Tool.Get_customer_complaint_by_id;
          Tool.Create_customer_complaint] →
  let out := Tool.call h tool cid ctx db in
  let out' :=
    Tool.call h tool cid {| params := params ctx; state := st |} db in
  response out' = response out ∧ calls out' = calls out
  ∧ db_after out' = db_after out ∧ state_after out' = st.
Proof.
  intros Htool. rewrite !elem_of_cons, elem_of_nil in Htool.
  destruct Htool as [-> | [-> | [-> | []]]]; unfold_tools; cbn [params state];
    apply try_except_stateless; unfold_bodies; repeat stateless_step.
Qed.

(** [get_customer_complaint] and [create_customer_complaint] start with
    the call [verify_customer]; for an id SQLite can bind that no customer
    has, they stop there. *)
Lemma complaint_tools_check_customer (h : Host) (tool : Tool.name) (cid : Z)
    (ctx : ToolContext) (db : Database.t) :
  tool ∈ [Tool.Get_customer_complaint; Tool.Create_customer_complaint] →
  let out := Tool.call h tool cid ctx db in
  head (calls out) = Some (Call_verify_customer cid)
  ∧ (sqlite_int cid = true → Database.verify_customer db cid = false →
     response out = error_response (Tool.customer_not_found cid)
     ∧ calls out = [Call_verify_customer cid]
     ∧ db_after out = db).
Proof.
  intros Htool. rewrite !elem_of_cons, elem_of_nil in Htool.
  destruct Htool as [-> | [-> | []]]; run_tool.
  all: split; [split_paths; done|].
  all: intros -> ->; step; done.
Qed.

(** C1, amended. With the flag "customer_verified" unset or false,
    [get_customer_account], [get_customer_account_balance] and
    [get_customer_account_transactions] return [success = false], make no
    call on the database and change nothing; for the last two the error is
    the fixed message that asks for a new verification. The three complaint
    tools do not read the flag: what they return, the calls they make and
    the database they leave are the same whatever the session state, which
    they leave as it is. [get_customer_complaint] and
    [create_customer_complaint] check the customer instead: their first
    call is [verify_customer], and for an id SQLite can bind that no
    customer has they stop there with the customer-not-found error. *)
Theorem unverified_account_tools_gate (h : Host) (tool : Tool.name) (cid : Z)
    (ctx : ToolContext) (db : Database.t) :
  let out := Tool.call h tool cid ctx db in
  (tool ∈ [Tool.Get_customer_account; Tool.Get_customer_account_balance;
           Tool.Get_customer_account_transactions] →
   Rule.unverified (state ctx) →
   success (response out) = false
   ∧ calls out = []
   ∧ state_after out = state ctx
   ∧ db_after out = db
   ∧ (tool ≠ Tool.Get_customer_account → Rule.gated out))
  ∧ (tool ∈ [Tool.Get_customer_complaint; Tool.Get_customer_complaint_by_id;
             Tool.Create_customer_complaint] →
     (∀ st,
        let out' :=
          Tool.call h tool cid {| params := params ctx; state := st |} db in
        response out' = response out ∧ calls out' = calls out
        ∧ db_after out' = db_after out ∧ state_after out' = st)
     ∧ (tool ≠ Tool.Get_customer_complaint_by_id →
        head (calls out) = Some (Call_verify_customer cid)
        ∧ (sqlite_int cid = true → Database.verify_customer db cid = false →
           response out = error_response (Tool.customer_not_found cid)
           ∧ calls out = [Call_verify_customer cid]
           ∧ db_after out = db))).
Proof.
  intros out. split.
  - intros Htool Hun. pose proof (unverified_falsy _ Hun) as Hfalsy.
    unfold out. clear out.
    rewrite !elem_of_cons, elem_of_nil in Htool.
    destruct Htool as [-> | [-> | [-> | []]]]; cbn [Tool.call].
    + unfold Tool.get_customer_account, Tool.get_customer_account_body.
      unfold_py. cbn [w_state w_db w_calls].
      destruct Hun as [Hun | Hun]; rewrite Hun; [done|]. cbn. done.
    + unfold Tool.get_customer_account_balance,
        Tool.get_customer_account_balance_body.
      unfold_py. cbn [w_state w_db w_calls]. rewrite Hfalsy. cbn.
      repeat split; done.
    + unfold Tool.get_customer_account_transactions,
        Tool.get_customer_account_transactions_body.
      unfold_py. cbn [w_state w_db w_calls]. rewrite Hfalsy. cbn.
      repeat split; done.
  - intros Htool. split.
    + intros st. by apply complaint_tools_stateless.
    + intros Hne. apply complaint_tools_check_customer.
      rewrite !elem_of_cons, elem_of_nil in Htool.
      destruct Htool as [-> | [-> | [-> | []]]]; [left|done|right; left].
Qed.

Lemma unverified_account_tools_gate_witness :
  Rule.gated (Tool.get_customer_account_balance Sample.host 1
                {| params := <["account_id" := VInt 1]> ∅; state := ∅ |}
                Sample.db)
  ∧ response (Tool.get_customer_complaint Sample.host 9
                {| params := ∅; state := ∅ |} Sample.db)
    = error_response (Tool.customer_not_found 9).
Proof.
  split.
  - refine (proj2 (proj2 (proj2 (proj2 (proj1
      (unverified_account_tools_gate Sample.host
         Tool.Get_customer_account_balance 1
         {| params := <["account_id" := VInt 1]> ∅; state := ∅ |} Sample.db)
      _ _)))) _).
    + right. left.
    + left. reflexivity.
    + discriminate.
  - refine (proj1 (proj2 (proj2 (proj2
      (unverified_account_tools_gate Sample.host Tool.Get_customer_complaint 9
         {| params := ∅; state := ∅ |} Sample.db) _) _) _ _)).
    + left.
    + discriminate.
    + reflexivity.
    + reflexivity.
Defined.

(** C1, as stated, fails for [get_customer_complaint]: in a new session it
    calls the database. *)
Lemma complaint_tool_skips_gate :
  Rule.unverified ∅
  ∧ ¬ Rule.gated (Tool.call Sample.host Tool.Get_customer_complaint 1
                    {| params := ∅; state := ∅ |} Sample.db).
Proof.
  split; [by left|]. intros (_ & _ & Hcalls). vm_compute in Hcalls. discriminate.
Qed.

Lemma dict_get_Some (d : gmap string pyval) (key : string) (v : pyval) :
  d !! key = Some v → dict_get d key = v.
Proof. unfold dict_get. by intros ->. Qed.

Lemma missing_falsy (params : gmap string pyval) (f : string) :
  params !! f = None → truthy (dict_get params f) = false.
Proof. unfold dict_get. by intros ->. Qed.

Lemma create_missing_text (params : gmap string pyval) :
  (∃ f, f ∈ Tool.required_fields ∧ params !! f = None) →
  Tool.missing_fields params ≠ []
  ∧ ∀ f, f ∈ Tool.required_fields → params !! f = None →
         Rule.mentions (Tool.missing_text Tool.Create_customer_complaint params) f
         = true.
Proof.
  intros Hex. unfold Tool.missing_text, Tool.missing_fields, Tool.required_fields in *.
  destruct (params !! "type_id") as [v1|] eqn:E1;
  destruct (params !! "title") as [v2|] eqn:E2;
  destruct (params !! "description") as [v3|] eqn:E3;
  (split;
   [ try (destruct Hex as (f & Hf & Hnone);
          rewrite !elem_of_cons, elem_of_nil in Hf;
          destruct Hf as [-> | [-> | [-> | []]]]; congruence);
     rewrite !filter_cons, E1, E2, E3; cbn; discriminate
   | intros f Hf Hnone;
     rewrite !elem_of_cons, elem_of_nil in Hf;
     destruct Hf as [-> | [-> | [-> | []]]]; try congruence;
     rewrite !filter_cons, E1, E2, E3; vm_compute; reflexivity ]).
Qed.

(** C8, amended. When a required parameter is absent from the bag,
    the tools by date, by type and complaint by id return their error text
    for missing parameters, which names the required parameters of the
    tool, without a call on the database; [create_customer_complaint], for
    a customer of the store, returns "Missing required fields: " followed by
    all the missing fields, after the one call that checks the customer. An
    id of the store is one SQLite holds, a 64-bit integer. *)
Theorem missing_parameters_reported (h : Host) (tool : Tool.name) (cid : Z)
    (ctx : ToolContext) (db : Database.t) :
  tool ∈ [Tool.Get_customer_account_transactions_by_date;
          Tool.Get_customer_account_transactions_by_type;
          Tool.Get_customer_complaint_by_id;
          Tool.Create_customer_complaint] →
  (tool = Tool.Create_customer_complaint →
   sqlite_int cid = true ∧ Database.verify_customer db cid = true) →
  (∃ f, f ∈ Tool.required_params tool ∧ params ctx !! f = None) →
  let out := Tool.call h tool cid ctx db in
  success (response out) = false
  ∧ error (response out) = Some (Tool.missing_text tool (params ctx))
  ∧ (∀ f, f ∈ Tool.required_params tool → params ctx !! f = None →
          Rule.mentions (Tool.missing_text tool (params ctx)) f = true)
  ∧ calls out = match tool with
                | Tool.Create_customer_complaint => [Call_verify_customer cid]
                | _ => []
                end
  ∧ db_after out = db
  ∧ state_after out = state ctx.
Proof.
  intros Htool Hcust Hmiss out. unfold out. clear out.
  rewrite !elem_of_cons, elem_of_nil in Htool.
  destruct Htool as [-> | [-> | [-> | [-> | []]]]]; cbn [Tool.call].
  - destruct Hmiss as (f & Hf & Hnone). cbn in Hf.
    unfold Tool.get_customer_account_transactions_by_date,
      Tool.get_customer_account_transactions_by_date_body.
    assert (truthy (dict_get (params ctx) "account_id")
            && truthy (dict_get (params ctx) "start_date") = false) as ->.
    { rewrite !elem_of_cons, elem_of_nil in Hf.
      destruct Hf as [-> | [-> | []]]; rewrite (missing_falsy _ _ Hnone);
        [done|apply andb_false_r]. }
    unfold_py. cbn. repeat split; try done.
    intros g Hg _. rewrite !elem_of_cons, elem_of_nil in Hg.
    destruct Hg as [-> | [-> | []]]; vm_compute; reflexivity.
  - destruct Hmiss as (f & Hf & Hnone). cbn in Hf.
    unfold Tool.get_customer_account_transactions_by_type,
      Tool.get_customer_account_transactions_by_type_body.
    assert (truthy (dict_get (params ctx) "account_id")
            && truthy (dict_get (params ctx) "transaction_type") = false) as ->.
    { rewrite !elem_of_cons, elem_of_nil in Hf.
      destruct Hf as [-> | [-> | []]]; rewrite (missing_falsy _ _ Hnone);
        [done|apply andb_false_r]. }
    unfold_py. cbn. repeat split; try done.
    intros g Hg _. rewrite !elem_of_cons, elem_of_nil in Hg.
    destruct Hg as [-> | [-> | []]]; vm_compute; reflexivity.
  - destruct Hmiss as (f & Hf & Hnone). cbn in Hf.
    rewrite !elem_of_cons, elem_of_nil in Hf. destruct Hf as [-> | []].
    unfold Tool.get_customer_complaint_by_id,
      Tool.get_customer_complaint_by_id_body.
    rewrite (missing_falsy _ _ Hnone).
    unfold_py. cbn. repeat split; try done.
    intros g Hg _. rewrite !elem_of_cons, elem_of_nil in Hg.
    destruct Hg as [-> | []]. vm_compute. reflexivity.
  - destruct (Hcust eq_refl) as [Hint Hcust'].
    destruct (create_missing_text (params ctx) Hmiss) as [Hne Hment].
    unfold Tool.create_customer_complaint, Tool.create_customer_complaint_body,
      Tool.db_verify_customer, Tool.bound_int, bind_int.
    unfold_py. cbn [w_db w_state w_calls]. rewrite Hint, Hcust'. cbn [negb].
    unfold Tool.missing_text at 1.
    destruct (Tool.missing_fields (params ctx)) as [|m ms] eqn:E; [done|].
    cbn. repeat split; try done.
Qed.

Lemma missing_parameters_reported_witness :
  error (response (Tool.get_customer_account_transactions_by_date Sample.host 1
                     {| params := <["account_id" := VInt 1]> ∅; state := ∅ |}
                     Sample.db))
  = Some [Lit "account_id and start_date parameters are required"].
Proof.
  refine (proj1 (proj2
    (missing_parameters_reported Sample.host
       Tool.Get_customer_account_transactions_by_date 1
       {| params := <["account_id" := VInt 1]> ∅; state := ∅ |} Sample.db
       _ _ _))).
  - left.
  - discriminate.
  - exists "start_date". split; [right; left|reflexivity].
Defined.

(** C8, as stated, fails for [create_customer_complaint]: with the required
    fields missing it has called the database before it reports them. *)
Lemma create_complaint_checks_customer_first :
  "type_id" ∈ Tool.required_params Tool.Create_customer_complaint
  ∧ (∅ : gmap string pyval) !! "type_id" = None
  ∧ ¬ Rule.reports_missing Tool.Create_customer_complaint ∅
        (Tool.call Sample.host Tool.Create_customer_complaint 1
           {| params := ∅; state := Sample.verified |} Sample.db).
Proof.
  split; [left|]. split; [reflexivity|].
  intros (_ & _ & Hcalls). vm_compute in Hcalls. discriminate.
Qed.







Lemma model_init_no_error (model : string) (str_fields : list string)
    (s : bool) (m : option text) (p : list (string * pyval)) (r : ToolResponse) :
  model_init model str_fields s m None p = inr r → error r = None.
Proof.
  unfold model_init. destruct (filter _ p); [|discriminate]. by intros [= <-].
Qed.

Section owner.
Context {A B : Type} (f : A → option B).

Lemma head_omap_all (l : list A) (x : A) (y : B) :
  l ≠ [] → (∀ z, z ∈ l → z = x) → f x = Some y → head (omap f l) = Some y.
Proof.
  intros Hne Hall Hf. destruct l as [|z l]; [done|].
  rewrite (Hall z) by left. simpl. by rewrite Hf.
Qed.
End owner.

(** C10. With [customer_id = 0] the lookup of a complaint is not scoped: it
    returns the complaint with the given id whoever owns it, as when the
    customer id is omitted; the tool [get_customer_complaint_by_id] called
    for customer 0 makes this unscoped call and does not answer "not
    found". *)
Theorem get_complaint_by_id_customer_zero (h : Host) (db : Database.t)
    (c : Complaint.t) (ct : ComplaintType.t) (ctx : ToolContext) :
  c ∈ Database.complaints db →
  (∀ c', c' ∈ Database.complaints db → Complaint.id c' = Complaint.id c →
         c' = c) →
  head (filter (λ t, ComplaintType.id t = Complaint.type_id c)
          (Database.complaint_types db)) = Some ct →
  let found := Complaint.mk_joined c (ComplaintType.name ct) in
  Database.get_complaint_by_id db (Complaint.id c) (Some 0) = Some found
  ∧ Database.get_complaint_by_id db (Complaint.id c) (Some 0)
    = Database.get_complaint_by_id db (Complaint.id c) None
  ∧ (Complaint.id c ≠ 0 →
     params ctx !! "complaint_id" = Some (VInt (Complaint.id c)) →
     let out := Tool.get_customer_complaint_by_id h 0 ctx db in
     calls out = [Call_get_complaint_by_id (VInt (Complaint.id c)) (Some 0)]
     ∧ error (response out)
       ≠ Some (Tool.complaint_not_found (VInt (Complaint.id c)) 0)).
Proof.
  intros Hin Hpk Hct found.
  assert (Database.get_complaint_by_id db (Complaint.id c) (Some 0) = Some found)
    as Hfound.
  { unfold Database.get_complaint_by_id. cbn [truthy from_option Z.eqb negb].
    apply (head_omap_all _ _ c).
    - intros E. assert (c ∈ filter (λ c0, Complaint.id c0 = Complaint.id c)
                              (Database.complaints db)) as Hc
        by (by apply list_elem_of_filter).
      rewrite E in Hc. by apply elem_of_nil in Hc.
    - intros z [Hz Hzin]%list_elem_of_filter. by apply Hpk.
    - unfold Database.join_type. by rewrite Hct. }
  split; [exact Hfound|]. split; [reflexivity|].
  intros Hid Hparam out. unfold out. clear out.
  unfold Tool.get_customer_complaint_by_id,
    Tool.get_customer_complaint_by_id_body, Tool.db_get_complaint_by_id.
  assert (truthy (VInt (Complaint.id c)) = true) as Htruthy
    by (by apply negb_true_iff, Z.eqb_neq).
  rewrite (dict_get_Some _ _ _ Hparam). cbv zeta.
  rewrite Htruthy. cbn [negb].
  unfold try_except, mbind, Py_bind, query. step.
  cbn [bind Tool.bind_scope truthy Z.eqb negb]. unfold bind_int.
  destruct (sqlite_int (Complaint.id c)).
  - cbn [as_integer mbind option_bind]. rewrite Hfound. unfold lift.
    destruct (ComplaintResponse _ _ _ _) as [e|r] eqn:E; cbn; (split; [done|]).
    + unfold Tool.complaint_not_found. intros [=].
    + apply model_init_no_error in E. by rewrite E.
  - cbn. split; [done|]. unfold Tool.complaint_not_found. intros [=].
Qed.

Lemma get_complaint_by_id_customer_zero_witness :
  Database.get_complaint_by_id Sample.db 1 (Some 0)
  = Some (Complaint.mk_joined Sample.card_lost "Card Issue").
Proof.
  refine (proj1 (get_complaint_by_id_customer_zero Sample.host Sample.db
    Sample.card_lost (ComplaintType.mk 3 "Card Issue"
                        "Problems with debit/credit cards" true)
    {| params := ∅; state := ∅ |} _ _ _)).
  - left.
  - intros c' Hc' _. apply list_elem_of_singleton in Hc'. exact Hc'.
  - vm_compute. reflexivity.
Defined.

(** * Further properties *)

(** ** The query service: filters, complaints *)

Lemma ascii_compare_le_trans (a b c : Ascii.ascii) :
  Ascii.compare a b ≠ Gt → Ascii.compare b c ≠ Gt → Ascii.compare a c ≠ Gt.
Proof.
  unfold Ascii.compare. rewrite !N.compare_gt_iff. lia.
Qed.

Lemma string_compare_le_trans (s1 s2 s3 : string) :
  String.compare s1 s2 ≠ Gt → String.compare s2 s3 ≠ Gt →
  String.compare s1 s3 ≠ Gt.
Proof.
  revert s2 s3. induction s1 as [|a s1 IH]; intros [|b s2] [|c s3]; simpl;
    try done.
  destruct (Ascii.compare a b) eqn:Eab; [|clear IH|done].
  - apply Ascii.compare_eq_iff in Eab as ->.
    destruct (Ascii.compare b c) eqn:Ebc; [apply IH|done|done].
  - destruct (Ascii.compare b c) eqn:Ebc; [| |done].
    + apply Ascii.compare_eq_iff in Ebc as <-. by rewrite Eab.
    + intros _ _. 
      assert (Ascii.compare a c ≠ Gt) as H.
      { apply (ascii_compare_le_trans a b c); congruence. }
      destruct (Ascii.compare a c) eqn:Eac; [|done|done].
      apply Ascii.compare_eq_iff in Eac as ->.
      rewrite Ascii.compare_antisym, Ebc in Eab. done.
Qed.

Lemma string_leb_iff (s1 s2 : string) :
  String.leb s1 s2 = true ↔ String.compare s1 s2 ≠ Gt.
Proof. unfold String.leb. destruct (String.compare s1 s2); naive_solver. Qed.

Lemma string_leb_trans (s1 s2 s3 : string) :
  String.leb s1 s2 = true → String.leb s2 s3 = true → String.leb s1 s3 = true.
Proof. rewrite !string_leb_iff. apply string_compare_le_trans. Qed.

Lemma elem_of_ordered_transactions (db : Database.t) (A : Z) (x : Transaction.t) :
  x ∈ Database.ordered_transactions db A
  ↔ x ∈ Database.transactions db ∧ Transaction.account_id x = A.
Proof.
  unfold Database.ordered_transactions.
  rewrite merge_sort_Permutation, list_elem_of_filter. tauto.
Qed.

(** X1. [Database.get_transactions_by_type] returns exactly the stored
    transactions of the account whose type is the given text, in the order of
    the account's listing; it is empty when no stored transaction has that
    type. *)
Theorem get_transactions_by_type_exact (db : Database.t) (A : Z) (ty : string) :
  (∀ x, x ∈ Database.get_transactions_by_type db A ty
        ↔ x ∈ Database.transactions db ∧ Transaction.account_id x = A
          ∧ Transaction.type x = ty)
  ∧ Database.get_transactions_by_type db A ty
    `sublist_of` Database.ordered_transactions db A
  ∧ ((∀ x, x ∈ Database.transactions db → Transaction.type x ≠ ty) →
     Database.get_transactions_by_type db A ty = []).
Proof.
  split; [|split].
  - intros x. unfold Database.get_transactions_by_type.
    rewrite list_elem_of_filter, elem_of_ordered_transactions. tauto.
  - apply sublist_filter.
  - intros Hno. apply filter_none. intros x Hx Hty.
    apply elem_of_ordered_transactions in Hx as [Hx _]. by apply (Hno x).
Qed.

Lemma get_transactions_by_type_exact_witness :
  Database.get_transactions_by_type Sample.db 1 "Nonexistent" = [].
Proof.
  apply (get_transactions_by_type_exact Sample.db 1 "Nonexistent").
  intros x Hx. unfold Sample.db in Hx. cbn in Hx.
  apply elem_of_cons in Hx as [-> | Hx]; [discriminate|].
  apply list_elem_of_singleton in Hx as ->. discriminate.
Defined.

(** X2. [Database.get_transactions_by_date_range] returns exactly the
    account's transactions whose date lies between the two bounds, both
    included, in the comparison of a column of NUMERIC affinity. When neither
    bound reads as a number this is the comparison of texts, and no
    transaction is returned when the end is before the start. A bound that
    reads as a number is below every date: as the end it leaves no
    transaction, as the start it excludes none. *)
Theorem get_transactions_by_date_range_exact (h : Host) (db : Database.t)
    (A : Z) (start_date end_date : string) :
  let result :=
    Database.get_transactions_by_date_range h db A start_date end_date in
  let between (x : Transaction.t) : Prop :=
    String.leb start_date (Transaction.transaction_date x) = true
    ∧ String.leb (Transaction.transaction_date x) end_date = true in
  (∀ x, x ∈ result
        ↔ x ∈ Database.transactions db ∧ Transaction.account_id x = A
          ∧ sql_le (numeric_affinity h start_date)
              (inr (Transaction.transaction_date x)) = true
          ∧ sql_le (inr (Transaction.transaction_date x))
              (numeric_affinity h end_date) = true)
  ∧ result `sublist_of` Database.ordered_transactions db A
  ∧ (numeric_text h start_date = None → numeric_text h end_date = None →
     (∀ x, x ∈ result
           ↔ x ∈ Database.transactions db ∧ Transaction.account_id x = A
             ∧ between x)
     ∧ (String.ltb end_date start_date = true → result = []))
  ∧ (is_Some (numeric_text h end_date) → result = [])
  ∧ (is_Some (numeric_text h start_date) → numeric_text h end_date = None →
     ∀ x, x ∈ result
          ↔ x ∈ Database.transactions db ∧ Transaction.account_id x = A
            ∧ String.leb (Transaction.transaction_date x) end_date = true).
Proof.
  cbn zeta.
  assert (∀ x, x ∈ Database.get_transactions_by_date_range h db A start_date
                     end_date
               ↔ x ∈ Database.transactions db ∧ Transaction.account_id x = A
                 ∧ sql_le (numeric_affinity h start_date)
                     (inr (Transaction.transaction_date x)) = true
                 ∧ sql_le (inr (Transaction.transaction_date x))
                     (numeric_affinity h end_date) = true) as Hin.
  { intros x. unfold Database.get_transactions_by_date_range.
    rewrite list_elem_of_filter, elem_of_ordered_transactions. tauto. }
  split; [exact Hin|]. split; [apply sublist_filter|].
  unfold numeric_affinity in Hin. split; [|split].
  - intros Hs He. rewrite Hs, He in Hin. cbn in Hin.
    split; [exact Hin|].
    intros Hlt. apply elem_of_nil_inv.
    intros x (_ & _ & H1 & H2)%Hin.
    pose proof (string_leb_trans _ _ _ H1 H2) as Hle.
    unfold String.ltb in Hlt. apply string_leb_iff in Hle.
    rewrite String.compare_antisym in Hle.
    destruct (String.compare end_date start_date); done.
  - intros [q He]. rewrite He in Hin. apply elem_of_nil_inv.
    intros x (_ & _ & _ & H2)%Hin. done.
  - intros [q Hs] He x. rewrite Hs, He in Hin. cbn in Hin.
    rewrite Hin. tauto.
Qed.

Lemma get_transactions_by_date_range_exact_witness :
  Database.get_transactions_by_date_range Sample.host Sample.db 1
    "2025-05-01" "20260101"
  = [].
Proof.
  apply (get_transactions_by_date_range_exact Sample.host Sample.db 1
           "2025-05-01" "20260101").
  by eexists.
Defined.




Lemma head_Some_elem (A : Type) (l : list A) (x : A) :
  head l = Some x → x ∈ l.
Proof. destruct l; [done|]. intros [= ->]. left. Qed.

Lemma head_omap_Some {A B} (f : A → option B) (l : list A) (y : B) :
  head (omap f l) = Some y → ∃ x, x ∈ l ∧ f x = Some y.
Proof.
  intros H. apply head_Some_elem in H.
  apply list_elem_of_omap in H as (x & Hx & Hf). eauto.
Qed.

Lemma elem_of_sql_limit_offset {A} (limit offset : Z) (rows : list A) (x : A) :
  x ∈ sql_limit_offset limit offset rows → x ∈ rows.
Proof.
  unfold sql_limit_offset. intros Hx.
  assert (x ∈ drop (Z.to_nat offset) rows) as Hd.
  { destruct (limit <? 0); [done|].
    eapply elem_of_sublist; [exact Hx|]. apply sublist_take. }
  eapply elem_of_sublist; [exact Hd|]. apply sublist_drop.
Qed.

Lemma join_type_types (db db' : Database.t) (c : Complaint.t) :
  Database.complaint_types db' = Database.complaint_types db →
  Database.join_type db' c = Database.join_type db c.
Proof. unfold Database.join_type. by intros ->. Qed.

Lemma join_type_Some (db : Database.t) (c : Complaint.t) (j : Complaint.joined) :
  Database.join_type db c = Some j →
  Complaint.row j = c
  ∧ ∃ ct, ct ∈ Database.complaint_types db
          ∧ ComplaintType.id ct = Complaint.type_id c
          ∧ Complaint.complaint_type_name j = ComplaintType.name ct.
Proof.
  unfold Database.join_type.
  destruct (head _) as [ct|] eqn:E; [|done]. intros [= <-]. split; [done|].
  apply head_Some_elem, list_elem_of_filter in E as [Hid Hin]. eauto.
Qed.

Lemma create_complaint_inr (db db' : Database.t) (now : string)
    (customer_id type_id id : Z) (title description priority : string) :
  Database.create_complaint db now customer_id type_id title description priority
  = inr (id, db') →
  Database.complaints db'
  = (Database.complaints db
     ++ [Complaint.mk id customer_id type_id title description "Open" priority
           None now now None])%list
  ∧ (id ∉ (Complaint.id <$> Database.complaints db))
  ∧ (NoDup (Complaint.id <$> Database.complaints db) →
     NoDup (Complaint.id <$> Database.complaints db'))
  ∧ Database.customers db' = Database.customers db
  ∧ Database.accounts db' = Database.accounts db
  ∧ Database.transactions db' = Database.transactions db
  ∧ Database.complaint_types db' = Database.complaint_types db
  ∧ (∃ c, c ∈ Database.customers db ∧ Customer.id c = customer_id)
  ∧ (∃ t, t ∈ Database.complaint_types db ∧ ComplaintType.id t = type_id).
Proof.
  unfold Database.create_complaint, Database.get_customer.
  destruct (head (filter (λ c, Customer.id c = customer_id) _)) as [c|] eqn:Ec;
    [|done].
  destruct (head (filter (λ t, ComplaintType.id t = type_id) _)) as [t|] eqn:Et;
    [|done].
  cbn. intros [= <- <-]. cbn.
  assert (next_rowid (Complaint.id <$> Database.complaints db)
          ∉ (Complaint.id <$> Database.complaints db)) as Hfresh.
  { intros Hin. apply next_rowid_fresh in Hin. lia. }
  split; [done|]. split; [done|]. split.
  { intros Hnd. rewrite fmap_app. apply NoDup_app. split; [done|]. split.
    - intros x Hx Hx'. cbn in Hx'. apply list_elem_of_singleton in Hx' as ->.
      done.
    - cbn. apply NoDup_singleton. }
  repeat (split; [done|]).
  apply head_Some_elem, list_elem_of_filter in Ec as [? ?].
  apply head_Some_elem, list_elem_of_filter in Et as [? ?].
  split; eauto.
Qed.


(** X5. When [Database.create_complaint] returns an id, the complaints are the
    old ones followed by one new row with that id, status Open and no
    resolution; the id is fresh, the other tables are unchanged, and the
    customer and the type exist. *)
Theorem create_complaint_inserts (db db' : Database.t) (now : string)
    (customer_id type_id id : Z) (title description priority : string) :
  Database.create_complaint db now customer_id type_id title description priority
  = inr (id, db') →
  Database.complaints db'
  = (Database.complaints db
     ++ [Complaint.mk id customer_id type_id title description "Open" priority
           None now now None])%list
  ∧ (id ∉ (Complaint.id <$> Database.complaints db))
  ∧ (NoDup (Complaint.id <$> Database.complaints db) →
     NoDup (Complaint.id <$> Database.complaints db'))
  ∧ Database.customers db' = Database.customers db
  ∧ Database.accounts db' = Database.accounts db
  ∧ Database.transactions db' = Database.transactions db
  ∧ Database.complaint_types db' = Database.complaint_types db
  ∧ (∃ c, c ∈ Database.customers db ∧ Customer.id c = customer_id)
  ∧ (∃ t, t ∈ Database.complaint_types db ∧ ComplaintType.id t = type_id).
Proof. apply create_complaint_inr. Qed.

Lemma create_complaint_inserts_witness :
  2 ∉ (Complaint.id <$> Database.complaints Sample.db).
Proof.
  refine (proj1 (proj2 (create_complaint_inserts Sample.db
    (match Database.create_complaint Sample.db "2025-06-01 09:00:00" 1 2 "T"
             "D" "Low" with
     | inr p => p.2
     | inl _ => Sample.db
     end)
    "2025-06-01 09:00:00" 1 2 2 "T" "D" "Low" _))).
  vm_compute. reflexivity.
Defined.

(** X6. After [Database.create_complaint], a look-up of any other complaint id
    and the complaint list of any other customer give what they gave before. *)
Theorem create_complaint_keeps_others (db db' : Database.t) (now : string)
    (customer_id type_id id : Z) (title description priority : string) :
  Database.create_complaint db now customer_id type_id title description priority
  = inr (id, db') →
  (∀ i cid, i ≠ id →
     Database.get_complaint_by_id db' i cid = Database.get_complaint_by_id db i cid)
  ∧ (∀ C limit offset, C ≠ customer_id →
       Database.get_customer_complaints db' C limit offset
       = Database.get_customer_complaints db C limit offset).
Proof.
  intros Hcreate.
  destruct (create_complaint_inr _ _ _ _ _ _ _ _ _ Hcreate)
    as (Hco & _ & _ & _ & _ & _ & Hty & _).
  assert (∀ l : list Complaint.t,
            omap (Database.join_type db') l = omap (Database.join_type db) l)
    as Hjoin.
  { intros l. induction l as [|c l IH]; [done|]. cbn.
    by rewrite (join_type_types db db' c Hty), IH. }
  split.
  - intros i cid Hi. unfold Database.get_complaint_by_id.
    rewrite Hco, !filter_app, !Hjoin.
    rewrite (filter_none _ [_]), app_nil_r.
    2:{ intros x ->%list_elem_of_singleton [Hx _]. by cbn in Hx. }
    rewrite (filter_none (λ c, Complaint.id c = i) [_]), app_nil_r.
    2:{ intros x ->%list_elem_of_singleton Hx. by cbn in Hx. }
    done.
  - intros C limit offset HC. unfold Database.get_customer_complaints.
    rewrite Hco, filter_app, Hjoin.
    rewrite (filter_none _ [_]), app_nil_r; [done|].
    intros x ->%list_elem_of_singleton Hx. by cbn in Hx.
Qed.

Lemma create_complaint_keeps_others_witness :
  Database.get_complaint_by_id
    (match Database.create_complaint Sample.db "2025-06-01 09:00:00" 1 2 "T"
             "D" "Low" with
     | inr p => p.2
     | inl _ => Sample.db
     end) 1 None
  = Database.get_complaint_by_id Sample.db 1 None.
Proof.
  refine (proj1 (create_complaint_keeps_others Sample.db _
    "2025-06-01 09:00:00" 1 2 2 "T" "D" "Low" _) 1 None _).
  - vm_compute. reflexivity.
  - discriminate.
Defined.

(** X7. A row that [Database.get_complaint_by_id] returns is a stored
    complaint with the id asked for, of the customer asked for when a non-zero
    customer id is given, joined with the name of its own type. *)
Theorem get_complaint_by_id_sound (db : Database.t) (complaint_id : Z)
    (customer_id : option Z) (j : Complaint.joined) :
  Database.get_complaint_by_id db complaint_id customer_id = Some j →
  Complaint.row j ∈ Database.complaints db
  ∧ Complaint.id (Complaint.row j) = complaint_id
  ∧ (∀ C, customer_id = Some C → C ≠ 0 →
          Complaint.customer_id (Complaint.row j) = C)
  ∧ ∃ ct, ct ∈ Database.complaint_types db
          ∧ ComplaintType.id ct = Complaint.type_id (Complaint.row j)
          ∧ Complaint.complaint_type_name j = ComplaintType.name ct.
Proof.
  unfold Database.get_complaint_by_id.
  destruct (truthy (from_option VInt VNone customer_id)) eqn:Et;
    intros (c & Hc & Hj)%head_omap_Some;
    apply join_type_Some in Hj as [-> Hct];
    apply list_elem_of_filter in Hc as [Hc Hin].
  - destruct Hc as [Hid Hown]. repeat (split; [done|]). split; [|done].
    intros C -> _. by injection Hown.
  - repeat (split; [done|]). split; [|done].
    intros C -> HC. cbn in Et. apply negb_false_iff, Z.eqb_eq in Et. done.
Qed.

Lemma get_complaint_by_id_sound_witness :
  Complaint.customer_id Sample.card_lost = 2.
Proof.
  refine (proj1 (proj2 (proj2 (get_complaint_by_id_sound Sample.db 1 (Some 2)
    (Complaint.mk_joined Sample.card_lost "Card Issue") _))) 2 eq_refl _).
  - vm_compute. reflexivity.
  - discriminate.
Defined.

(** X8. [Database.get_customer_complaints] returns only stored complaints of
    the customer, and no more of them than a non-negative limit. *)
Theorem get_customer_complaints_scoped (db : Database.t) (C limit offset : Z) :
  (∀ j, j ∈ Database.get_customer_complaints db C limit offset →
        Complaint.row j ∈ Database.complaints db
        ∧ Complaint.customer_id (Complaint.row j) = C)
  ∧ (0 ≤ limit →
     Z.of_nat (length (Database.get_customer_complaints db C limit offset))
     ≤ limit).
Proof.
  unfold Database.get_customer_complaints. split.
  - intros j Hj. apply elem_of_sql_limit_offset in Hj.
    rewrite merge_sort_Permutation in Hj.
    apply list_elem_of_omap in Hj as (c & Hc & Hj).
    apply join_type_Some in Hj as [-> _].
    by apply list_elem_of_filter in Hc as [? ?].
  - intros Hl. rewrite sql_limit_offset_nonneg by done.
    rewrite length_take. lia.
Qed.

Lemma get_customer_complaints_scoped_witness :
  Z.of_nat (length (Database.get_customer_complaints Sample.db 2 0 0)) ≤ 0.
Proof.
  apply (get_customer_complaints_scoped Sample.db 2 0 0). lia.
Defined.

Lemma get_customer_account_Some (db : Database.t) (C A : Z) (a : Account.t) :
  Database.get_customer_account db C A = Some a →
  a ∈ Database.accounts db ∧ Account.id a = A ∧ Account.customer_id a = C.
Proof.
  unfold Database.get_customer_account.
  by intros [[Hid Hc] Hin]%head_Some_elem%list_elem_of_filter.
Qed.


(** ** The tool functions: what they read and write *)

Section frame_rules.
Context (I : World → World → Prop) `{!PreOrder I}.
Hypothesis I_log : ∀ db st cs cs', I (Build_World db st cs) (Build_World db st (cs ++ cs')).

Lemma frame_ret {A} (a : A) : frame I (mret a).
Proof. intros w. reflexivity. Qed.

Lemma frame_raise {A} (e : exn) : frame I (raise (A := A) e).
Proof. intros w. reflexivity. Qed.

Lemma frame_lift {A} (r : exn + A) : frame I (lift r).
Proof. intros w. reflexivity. Qed.

Lemma frame_bind {A B} (m : Py A) (f : A → Py B) :
  frame I m → (∀ a, frame I (f a)) → frame I (m ≫= f).
Proof.
  intros Hm Hf w. unfold mbind, Py_bind. specialize (Hm w).
  destruct (m w) as [[e|a] w']; [done|].
  etrans; [exact Hm|]. apply Hf.
Qed.

Lemma frame_except_ValueError {A} (m h : Py A) :
  frame I m → frame I h → frame I (except_ValueError m h).
Proof.
  intros Hm Hh w. unfold except_ValueError. specialize (Hm w).
  destruct (m w) as [[e|a] w']; [|done].
  destruct e; try done. etrans; [exact Hm|]. apply Hh.
Qed.

Lemma frame_except_Exception {A} (m : Py A) (h : exn → Py A) :
  frame I m → (∀ e, frame I (h e)) → frame I (except_Exception m h).
Proof.
  intros Hm Hh w. unfold except_Exception. specialize (Hm w).
  destruct (m w) as [[e|a] w']; [|done].
  etrans; [exact Hm|]. apply Hh.
Qed.

Lemma frame_state_get (key : string) : frame I (state_get key).
Proof. intros w. reflexivity. Qed.

Lemma frame_state_item (key : string) : frame I (state_item key).
Proof. intros w. reflexivity. Qed.

Lemma frame_query {A} (c : db_call) (f : Database.t → exn + A) :
  frame I (query c f).
Proof. intros [db st cs]. apply I_log. Qed.
End frame_rules.

Lemma results_ret {A} (Q : A → Prop) (a : A) : Q a → results Q (mret a).
Proof. intros Ha w a' [= <-]. done. Qed.

Lemma results_raise {A} (Q : A → Prop) (e : exn) : results Q (raise e).
Proof. intros w a. done. Qed.

Lemma results_lift {A} (Q : A → Prop) (r : exn + A) :
  (∀ a, r = inr a → Q a) → results Q (lift r).
Proof. intros Hr w a. apply Hr. Qed.

Lemma results_bind {A B} (Q : B → Prop) (m : Py A) (f : A → Py B) :
  (∀ a, results Q (f a)) → results Q (m ≫= f).
Proof.
  intros Hf w b. unfold mbind, Py_bind.
  destruct (m w) as [[e|a] w']; [done|]. apply Hf.
Qed.

Lemma results_except_Exception {A} (Q : A → Prop) (m : Py A) (h : exn → Py A) :
  results Q m → (∀ e, results Q (h e)) → results Q (except_Exception m h).
Proof.
  intros Hm Hh w a. unfold except_Exception. specialize (Hm w).
  destruct (m w) as [[e|a'] w']; [apply Hh|apply Hm].
Qed.

Lemma try_except_frame (I : World → World → Prop) (body : Py ToolResponse)
    (handler : exn → ToolResponse) (st : gmap string pyval) (db : Database.t) :
  frame I body →
  I (Build_World db st [])
    (Build_World (db_after (try_except body handler st db))
       (state_after (try_except body handler st db))
       (calls (try_except body handler st db))).
Proof.
  intros Hb. unfold try_except. specialize (Hb (Build_World db st [])).
  destruct (body _) as [[e|r] [db' st' cs']]; exact Hb.
Qed.

Lemma try_except_results (Q : ToolResponse → Prop) (body : Py ToolResponse)
    (handler : exn → ToolResponse) (st : gmap string pyval) (db : Database.t) :
  results Q body → (∀ e, Q (handler e)) →
  Q (response (try_except body handler st db)).
Proof.
  intros Hb Hh. unfold try_except. specialize (Hb (Build_World db st [])).
  destruct (body _) as [[e|r] w']; cbn; [apply Hh|by apply Hb].
Qed.

Lemma same_db_preorder : PreOrder same_db.
Proof. split; [done|]. intros x y z. unfold same_db. congruence. Qed.

Lemma same_state_preorder : PreOrder same_state.
Proof. split; [done|]. intros x y z. unfold same_state. congruence. Qed.

Lemma frame_state_set_same_db (key : string) (v : pyval) :
  frame same_db (state_set key v).
Proof. intros w. reflexivity. Qed.

Lemma frame_update_same_state {A} (c : db_call)
    (f : Database.t → exn + (A * Database.t)) :
  frame same_state (update c f).
Proof. intros w. unfold update. by destruct (f (w_db w)) as [e|[a db']]. Qed.

Ltac frame_step I HI :=
  lazymatch goal with
  | |- frame _ (mret _) => apply (frame_ret I)
  | |- frame _ (raise _) => apply (frame_raise I)
  | |- frame _ (lift _) => apply (frame_lift I)
  | |- frame _ (state_get _) => apply (frame_state_get I)
  | |- frame _ (state_item _) => apply (frame_state_item I)
  | |- frame _ (state_set _ _) => apply frame_state_set_same_db
  | |- frame _ (update _ _) => apply frame_update_same_state
  | |- frame _ (query _ _) => apply (frame_query I); exact HI
  | |- frame _ (_ ≫= _) => apply (frame_bind I); [|intros ?]
  | |- frame _ (except_ValueError _ _) => apply (frame_except_ValueError I)
  | |- frame _ (except_Exception _ _) =>
      apply (frame_except_Exception I); [|intros ?]
  | |- frame _ (if ?b then _ else _) => destruct b
  | |- frame _ (match ?x with _ => _ end) => destruct x
  | |- frame _ (let _ := _ in _) => cbv zeta
  end.

(** X9. Of the nine customer tools only [verify_customer] writes the session
    state and only [create_customer_complaint] writes the database. *)
Theorem tools_write_only_their_own (h : Host) (tool : Tool.name) (cid : Z)
    (ctx : ToolContext) (db : Database.t) :
  let out := Tool.call h tool cid ctx db in
  match tool with
  | Tool.Verify_customer => db_after out = db
  | Tool.Create_customer_complaint => state_after out = state ctx
  | _ => state_after out = state ctx ∧ db_after out = db
  end.
Proof.
  intros out.
  assert (∀ db st cs cs', same_state (Build_World db st cs)
                            (Build_World db st (cs ++ cs'))) as HS by done.
  assert (∀ db st cs cs', same_db (Build_World db st cs)
                            (Build_World db st (cs ++ cs'))) as HD by done.
  pose proof same_state_preorder. pose proof same_db_preorder.
  assert (tool ≠ Tool.Verify_customer → state_after out = state ctx) as Hstate.
  { intros Htool. unfold out.
    destruct tool; try done; unfold_tools;
      apply (try_except_frame same_state); unfold_bodies;
      repeat frame_step same_state (HS). }
  assert (tool ≠ Tool.Create_customer_complaint → db_after out = db) as Hdb.
  { intros Htool. unfold out.
    destruct tool; try done; unfold_tools;
      apply (try_except_frame same_db); unfold_bodies;
      repeat frame_step same_db (HD). }
  destruct tool; try split; (apply Hstate || apply Hdb); done.
Qed.

Lemma error_response_consistent (msg : text) :
  consistent (error_response msg)
  ∧ (success (error_response msg) = false → message (error_response msg) = None).
Proof. unfold consistent. cbn. repeat split; done. Qed.

Lemma model_init_consistent (model : string) (str_fields : list string)
    (m : option text) (p : list (string * pyval)) (r : ToolResponse) :
  model_init model str_fields true m None p = inr r →
  consistent r ∧ (success r = false → message r = None).
Proof.
  unfold model_init. destruct (filter _ p); [|done]. intros [= <-].
  unfold consistent. cbn. repeat split; done.
Qed.

Ltac results_step :=
  lazymatch goal with
  | |- results _ (mret _) =>
      apply results_ret;
      first [apply error_response_consistent
            | (unfold consistent; cbn; repeat split; done)]
  | |- results _ (raise _) => apply results_raise
  | |- results _ (lift _) =>
      apply results_lift; intros ?; apply model_init_consistent
  | |- results _ (_ ≫= _) => apply results_bind; intros ?
  | |- results _ (except_Exception _ _) =>
      apply results_except_Exception; [|intros ?]
  | |- results _ (if ?b then _ else _) => destruct b
  | |- results _ (match ?x with _ => _ end) => destruct x
  | |- results _ (let _ := _ in _) => cbv zeta
  end.

(** X10. Every envelope a customer tool returns either reports success with no
    error, or reports failure with an error text and no message. *)
Theorem tool_envelopes_consistent (h : Host) (tool : Tool.name) (cid : Z)
    (ctx : ToolContext) (db : Database.t) :
  let r := response (Tool.call h tool cid ctx db) in
  (success r = true ∧ error r = None)
  ∨ (success r = false ∧ is_Some (error r) ∧ message r = None).
Proof.
  intros r.
  cut (consistent r ∧ (success r = false → message r = None)).
  { unfold consistent. intros [[H1 H2] H3].
    destruct (success r) eqn:Es; [left; auto|right].
    repeat split; [|auto]. destruct (error r); [eauto|]. by discriminate H2. }
  unfold r. clear r.
  destruct tool; unfold_tools.
  all: apply (try_except_results
                (λ r, consistent r ∧ (success r = false → message r = None))).
  all: try (intros e; first [apply error_response_consistent
                            | (unfold consistent; cbn; repeat split; done)]).
  all: unfold_bodies.
  all: repeat results_step.
Qed.

(** X11. [get_customer_account_balance] never reports success and never
    returns a balance: after the ownership check it reads the key [status],
    which an account row does not have. *)
Theorem get_customer_account_balance_never_succeeds (h : Host) (cid : Z)
    (ctx : ToolContext) (db : Database.t) :
  let out := Tool.get_customer_account_balance h cid ctx db in
  success (response out) = false
  ∧ ∀ z, ("balance", z) ∉ payload (response out).
Proof.
  intros out.
  enough (success (response out) = false ∧ payload (response out) = []) as [H1 H2].
  { split; [done|]. intros z. rewrite H2. apply not_elem_of_nil. }
  unfold out, Tool.get_customer_account_balance.
  apply (try_except_results (λ r, success r = false ∧ payload r = [])); [|done].
  unfold_bodies.
  repeat lazymatch goal with
  | |- results _ (mret _) => apply results_ret; done
  | |- results _ (raise _) => apply results_raise
  | |- results _ (_ ≫= _) => apply results_bind; intros ?
  | |- results _ (if ?b then _ else _) => destruct b
  | |- results _ (match ?x with _ => _ end) => destruct x
  | |- results _ (let _ := _ in _) => cbv zeta
  end.
Qed.

(** X12. [get_customer_account] reports success exactly when the session is
    verified, no account id is given, the customer id is one SQLite can bind
    and the customer has no account. *)
Theorem get_customer_account_success (h : Host) (cid : Z) (ctx : ToolContext)
    (db : Database.t) :
  let out := Tool.get_customer_account h cid ctx db in
  success (response out) = true
  ↔ (∃ v, state ctx !! "customer_verified" = Some v ∧ truthy v = true)
    ∧ truthy (dict_get (state ctx) "account_id") = false
    ∧ sqlite_int cid = true
    ∧ Database.get_customer_accounts db cid = [].
Proof.
  intros out. unfold out, Tool.get_customer_account,
    Tool.get_customer_account_body, Tool.db_get_customer_account,
    Tool.db_get_customer_accounts.
  unfold try_except, mbind, Py_bind, state_item, state_get, query. step.
  destruct (state ctx !! "customer_verified") as [v|] eqn:Ev; step.
  2:{ cbn. split; [done|]. by intros [(v & ? & _) _]. }
  destruct (truthy v) eqn:Etv; step.
  2:{ cbn. split; [done|]. intros [(v' & [= <-] & ?) _]. congruence. }
  destruct (truthy (dict_get (state ctx) "account_id")) eqn:Ea; step.
  - destruct (Tool.find_account _ _ _ _) as [e|[a|]]; cbn;
      (split; [done|]); by intros (_ & ? & _).
  - unfold Tool.bound_int, bind_int. destruct (sqlite_int cid); step.
    2:{ cbn. split; [done|]. by intros (_ & _ & ? & _). }
    destruct (Database.get_customer_accounts db cid) as [|a l] eqn:El; cbn.
    + split; [|done]. intros _. split; [eauto|done].
    + split; [done|]. by intros (_ & _ & _ & ?).
Qed.

(** X13. [verify_customer] for a stored customer reports success, writes the
    verified flag and the customer id to the session, returns the customer's
    id, name, email and phone, and asks the database once. The id of a
    stored customer is one SQLite holds, a 64-bit integer. *)
Theorem verify_customer_known (db : Database.t) (ctx : ToolContext)
    (c : Customer.t) :
  c ∈ Database.customers db →
  sqlite_int (Customer.id c) = true →
  (∀ c', c' ∈ Database.customers db → Customer.id c' = Customer.id c → c' = c) →
  let out := Tool.verify_customer (Customer.id c) ctx db in
  success (response out) = true
  ∧ error (response out) = None
  ∧ state_after out
    = <["customer_id" := VInt (Customer.id c)]>
        (<["customer_verified" := VBool true]> (state ctx))
  ∧ payload (response out)
    = [("status", VStr "verified");
       ("customer", VDict [ ("id", VInt (Customer.id c));
                            ("name", VStr (Customer.name c));
                            ("email", VStr (Customer.email c));
                            ("phone", VStr (Customer.phone c)) ])]
  ∧ calls out = [Call_get_customer (Customer.id c)].
Proof.
  intros Hin Hint Hpk out. unfold out, Tool.verify_customer,
    Tool.verify_customer_body, Tool.db_get_customer, Tool.bound_int, bind_int.
  unfold try_except, mbind, Py_bind, query. step. rewrite Hint.
  unfold Database.get_customer.
  assert (head (filter (λ c0, Customer.id c0 = Customer.id c)
            (Database.customers db)) = Some c) as ->.
  { destruct (head_filter_is_Some (λ c0, Customer.id c0 = Customer.id c) _ c
                Hin eq_refl) as (c' & -> & Hin' & Hid). f_equal. by apply Hpk. }
  cbn. done.
Qed.

Lemma verify_customer_known_witness :
  success (response (Tool.verify_customer 1 {| params := ∅; state := ∅ |}
                       Sample.db)) = true.
Proof.
  refine (proj1 (verify_customer_known Sample.db {| params := ∅; state := ∅ |}
                   Sample.john _ _ _)).
  - left.
  - reflexivity.
  - intros c' Hc' Hid. unfold Sample.db in Hc'. cbn in Hc'.
    apply elem_of_cons in Hc' as [-> | Hc']; [done|].
    apply list_elem_of_singleton in Hc' as ->. discriminate Hid.
Defined.

Lemma find_account_Some (h : Host) (db : Database.t) (cid : Z)
    (account_id : pyval) (a : Account.t) :
  Tool.find_account h db cid account_id = inr (Some a) →
  a ∈ Database.accounts db ∧ Account.customer_id a = cid
  ∧ ∃ p, bind account_id = inr p ∧ as_integer h p = Some (Account.id a).
Proof.
  unfold Tool.find_account, bind_int.
  destruct (bind account_id) as [e|p]; [done|].
  destruct (sqlite_int cid); [|done]. intros [= Hb].
  destruct (as_integer h p) as [z|] eqn:Ez; [|done]. cbn in Hb.
  apply get_customer_account_Some in Hb as (Hin & Hid & Hc).
  repeat (split; [done|]). exists p. by rewrite Hid.
Qed.

(** X14. A customer tool asks the database for the balance or the transactions
    of an account only when that account is stored as an account of the
    calling customer. *)
Theorem account_data_only_after_ownership_check (h : Host) (tool : Tool.name)
    (cid : Z) (ctx : ToolContext) (db : Database.t) (c : db_call)
    (account_id : pyval) :
  c ∈ calls (Tool.call h tool cid ctx db) →
  queried_account c = Some account_id →
  ∃ account,
    Tool.find_account h db cid account_id = inr (Some account)
    ∧ account ∈ Database.accounts db
    ∧ Account.customer_id account = cid.
Proof.
  intros Hin Hq.
  enough (∃ account, Tool.find_account h db cid account_id = inr (Some account))
    as [a Ha].
  { exists a. split; [done|]. by apply find_account_Some in Ha as (? & ? & _). }
  revert Hin Hq.
  destruct tool; run_tool.
  all: split_paths.
  all: cbn [calls].
  all: intros Hin Hq.
  all: repeat (apply elem_of_cons in Hin as [-> | Hin]; [try discriminate Hq|]).
  all: try (by apply elem_of_nil in Hin).
  all: cbn in Hq; simplify_eq; eauto.
Qed.

Lemma account_data_only_after_ownership_check_witness :
  ∃ account,
    Tool.find_account Sample.host Sample.db 1 (VInt 1) = inr (Some account)
    ∧ account ∈ Database.accounts Sample.db
    ∧ Account.customer_id account = 1.
Proof.
  apply (account_data_only_after_ownership_check Sample.host
           Tool.Get_customer_account_transactions 1
           {| params := <["account_id" := VInt 1]> ∅; state := Sample.verified |}
           Sample.db (Call_get_account_transactions (VInt 1) 10 0)).
  - vm_compute. right. left.
  - reflexivity.
Defined.

(** X15. After [verify_customer] on a stored customer, the balance and the
    transaction tool pass the verification gate and start with the ownership
    look-up; after it on an unknown customer whose id SQLite can bind they
    are refused at the gate. For an id SQLite cannot bind, [verify_customer]
    leaves the session state as it was. *)
Theorem verified_flag_opens_the_gate (h : Host) (tool : Tool.name)
    (cid cid' : Z) (ctx : ToolContext) (p : gmap string pyval)
    (db : Database.t) :
  tool ∈ [Tool.Get_customer_account_balance;
          Tool.Get_customer_account_transactions] →
  let verified := Tool.verify_customer cid ctx db in
  let out :=
    Tool.call h tool cid' {| params := p; state := state_after verified |} db in
  if sqlite_int cid then
    if Database.verify_customer db cid
    then head (calls out)
         = Some (Call_get_customer_account cid' (dict_get p "account_id"))
    else Rule.gated out
  else state_after verified = state ctx.
Proof.
  intros Htool verified out.
  destruct (sqlite_int cid) eqn:Hint.
  2:{ unfold verified, Tool.verify_customer, Tool.verify_customer_body,
        Tool.db_get_customer, Tool.bound_int, bind_int.
      unfold try_except, mbind, Py_bind, query. step. by rewrite Hint. }
  assert (state_after verified !! "customer_verified"
          = Some (VBool (Database.verify_customer db cid))) as Hflag.
  { unfold verified, Tool.verify_customer, Tool.verify_customer_body,
      Tool.db_get_customer, Database.verify_customer, Tool.bound_int, bind_int.
    unfold try_except, mbind, Py_bind, query. step. rewrite Hint.
    destruct (Database.get_customer db cid) as [c|]; cbn.
    - rewrite lookup_insert_ne by done. by rewrite lookup_insert_eq.
    - by rewrite lookup_insert_eq. }
  unfold Rule.gated.
  assert (truthy (dict_get (state_after verified) "customer_verified")
          = Database.verify_customer db cid) as Ht
    by (unfold dict_get; by rewrite Hflag).
  unfold out. clear out.
  rewrite !elem_of_cons, elem_of_nil in Htool.
  destruct (Database.verify_customer db cid);
    destruct Htool as [-> | [-> | []]]; run_tool; cbn [state params];
    rewrite Ht; split_paths; done.
Qed.

Lemma verified_flag_opens_the_gate_witness :
  head (calls (Tool.get_customer_account_balance Sample.host 1
                 {| params := <["account_id" := VInt 1]> ∅;
                    state := state_after
                               (Tool.verify_customer 1
                                  {| params := ∅; state := ∅ |} Sample.db) |}
                 Sample.db))
  = Some (Call_get_customer_account 1 (VInt 1)).
Proof.
  pose proof (verified_flag_opens_the_gate Sample.host
                Tool.Get_customer_account_balance 1 1
                {| params := ∅; state := ∅ |} (<["account_id" := VInt 1]> ∅)
                Sample.db (list_elem_of_here _ _)) as H.
  vm_compute in H. vm_compute. exact H.
Defined.

Lemma insert_complaint_inr (h : Host) (cid : Z)
    (type_id title description priority : pyval) (db db' : Database.t) (id : Z) :
  Tool.insert_complaint h cid type_id title description priority db
  = inr (id, db') →
  ∃ ty t d p,
    Database.create_complaint db (current_timestamp h) cid ty t d p
    = inr (id, db').
Proof.
  unfold Tool.insert_complaint, bind_int.
  destruct (sqlite_int cid); [|done].
  destruct (bind type_id) as [?|p1]; [by repeat case_match|].
  destruct (bind title) as [?|p2]; [by repeat case_match|].
  destruct (bind description) as [?|p3]; [by repeat case_match|].
  destruct (bind priority) as [?|p4]; [done|].
  destruct p1; [done|..];
    destruct (as_text h p2); try done;
    destruct (as_text h p3); try done;
    destruct (as_text h p4); try done;
    destruct (as_integer h _); try done; eauto.
Qed.

(** X16. [create_customer_complaint] either leaves the database as it is or
    appends one complaint of the calling customer, open, unresolved and under
    a fresh id, and touches no other table. *)
Theorem create_customer_complaint_only_appends (h : Host) (cid : Z)
    (ctx : ToolContext) (db : Database.t) :
  let db' := db_after (Tool.create_customer_complaint h cid ctx db) in
  db' = db
  ∨ ∃ c, Database.complaints db' = (Database.complaints db ++ [c])%list
         ∧ Complaint.customer_id c = cid
         ∧ Complaint.status c = "Open"
         ∧ Complaint.resolved_at c = None
         ∧ (Complaint.id c ∉ (Complaint.id <$> Database.complaints db))
         ∧ Database.customers db' = Database.customers db
         ∧ Database.accounts db' = Database.accounts db
         ∧ Database.transactions db' = Database.transactions db
         ∧ Database.complaint_types db' = Database.complaint_types db.
Proof.
  intros db'. unfold db'. clear db'.
  run_tool. split_paths; cbn [db_after]; try (by left).
  all: right.
  all: match goal with
       | H : Tool.insert_complaint _ _ _ _ _ _ _ = inr _ |- _ =>
           apply insert_complaint_inr in H as (? & ? & ? & ? & H);
           apply create_complaint_inr in H
             as (Hco & Hfresh & _ & Hc & Ha & Ht & Hty & _)
       end.
  all: eexists; split; [exact Hco|]; cbn; done.
Qed.

(** X17. [get_customer_complaint] and [create_customer_complaint] for a
    customer id that SQLite can bind and that is not stored return the
    customer-not-found error after the one call [verify_customer] and change
    nothing. *)
Theorem complaint_tools_unknown_customer (h : Host) (tool : Tool.name)
    (cid : Z) (ctx : ToolContext) (db : Database.t) :
  tool ∈ [Tool.Get_customer_complaint; Tool.Create_customer_complaint] →
  sqlite_int cid = true →
  (∀ c, c ∈ Database.customers db → Customer.id c ≠ cid) →
  let out := Tool.call h tool cid ctx db in
  response out = error_response (Tool.customer_not_found cid)
  ∧ calls out = [Call_verify_customer cid]
  ∧ db_after out = db.
Proof.
  intros Htool Hint Hno out.
  assert (Database.verify_customer db cid = false) as Hv.
  { unfold Database.verify_customer, Database.get_customer.
    rewrite head_filter_None by (intros c Hc; by apply Hno). done. }
  by apply complaint_tools_check_customer.
Qed.

Lemma complaint_tools_unknown_customer_witness :
  calls (Tool.create_customer_complaint Sample.host 9
           {| params := ∅; state := Sample.verified |} Sample.db)
  = [Call_verify_customer 9].
Proof.
  refine (proj1 (proj2 (complaint_tools_unknown_customer Sample.host
    Tool.Create_customer_complaint 9
    {| params := ∅; state := Sample.verified |} Sample.db _ _ _))).
  - right. left.
  - reflexivity.
  - intros c Hc. unfold Sample.db in Hc. cbn in Hc.
    apply elem_of_cons in Hc as [-> | Hc]; [discriminate|].
    apply list_elem_of_singleton in Hc as ->. discriminate.
Defined.

(** X18. In a verified session, with an account id given as text that the
    customer owns and paging values that [int()] reads and SQLite can bind,
    [get_customer_account_transactions] succeeds with the page of the database
    and reports the length of the page as the total. *)
Theorem get_customer_account_transactions_page (h : Host) (cid : Z)
    (ctx : ToolContext) (db : Database.t) (s : string) (a : Account.t)
    (l o : Z) :
  truthy (dict_get (state ctx) "customer_verified") = true →
  params ctx !! "account_id" = Some (VStr s) →
  Tool.find_account h db cid (VStr s) = inr (Some a) →
  py_int h (dict_get_default (params ctx) "limit" (VInt 10)) = inr l →
  py_int h (dict_get_default (params ctx) "offset" (VInt 0)) = inr o →
  sqlite_int l = true → sqlite_int o = true →
  let out := Tool.get_customer_account_transactions h cid ctx db in
  let page := Database.get_account_transactions db (Account.id a) l o in
  success (response out) = true
  ∧ payload (response out)
    = [ ("account_id", VStr s);
        ("account_number", VStr (Account.account_number a));
        ("transactions", VList (Tool.transaction_dict <$> page));
        ("count", VInt (Z.of_nat (length page)));
        ("pagination",
         VDict [ ("limit", VInt l); ("offset", VInt o);
                 ("total", VInt (Z.of_nat (length page))) ]) ]
  ∧ Account.customer_id a = cid
  ∧ calls out = [ Call_get_customer_account cid (VStr s);
                  Call_get_account_transactions (VStr s) l o ].
Proof.
  intros Hver Hparam Hfind Hl Ho Hil Hio out page.
  destruct (find_account_Some _ _ _ _ _ Hfind) as (_ & Hown & p & Hb & Hp).
  cbn in Hb. injection Hb as <-.
  unfold out. clear out. run_tool.
  rewrite (dict_get_Some _ _ _ Hparam), Hver. step.
  rewrite Hfind. step. rewrite Hl. step. rewrite Ho. step.
  unfold Tool.account_page, bind_int. cbn [bind]. rewrite Hil, Hio, Hp. step.
  cbn. done.
Qed.

Lemma get_customer_account_transactions_page_witness :
  success (response (Tool.get_customer_account_transactions Sample.host 1
                       {| params := <["account_id" := VStr "1"]> ∅;
                          state := Sample.verified |} Sample.db)) = true.
Proof.
  refine (proj1 (get_customer_account_transactions_page Sample.host 1
    {| params := <["account_id" := VStr "1"]> ∅; state := Sample.verified |}
    Sample.db "1" Sample.checking 10 0 _ _ _ _ _ _ _)); vm_compute;
    reflexivity.
Defined.

(** X19. [get_customer_account_transactions_by_date] validates both dates
    before any database call: a date that does not parse gives the fixed
    format error with no call; parsed dates are the ones every range query
    uses. *)
Theorem dates_checked_before_the_database (h : Host) (cid : Z)
    (ctx : ToolContext) (db : Database.t) :
  truthy (dict_get (params ctx) "account_id") = true →
  truthy (dict_get (params ctx) "start_date") = true →
  let start_date := dict_get (params ctx) "start_date" in
  let end_date :=
    dict_get_default (params ctx) "end_date" (VStr (today_iso h)) in
  let out := Tool.get_customer_account_transactions_by_date h cid ctx db in
  match Tool.fromisoformat h start_date, Tool.fromisoformat h end_date with
  | inr s, inr e =>
      head (calls out)
      = Some (Call_get_customer_account cid (dict_get (params ctx) "account_id"))
      ∧ ∀ c, c ∈ calls out → ∀ a s' e',
          c = Call_get_transactions_by_date_range a s' e' → s' = s ∧ e' = e
  | inl (ValueError _), _ | inr _, inl (ValueError _) =>
      response out
      = error_response
          [Lit "Invalid date format. Dates must be in YYYY-MM-DD format."]
      ∧ calls out = []
  | inl e, _ | inr _, inl e =>
      response out
      = error_response [Lit "Error retrieving transactions by date: "; Exc e]
      ∧ calls out = []
  end.
Proof.
  intros Ha Hs start_date end_date out. unfold out, start_date, end_date.
  clear out start_date end_date. run_tool. rewrite Ha, Hs. step.
  destruct (Tool.fromisoformat h (dict_get (params ctx) "start_date"))
    as [[]|s] eqn:E1; step; try done.
  destruct (Tool.fromisoformat h (dict_get_default (params ctx) "end_date" _))
    as [[]|e] eqn:E2; step; try done.
  split_paths; cbn [calls]; (split; [done|]).
  all: intros c Hin a s' e' ->.
  all: repeat (apply elem_of_cons in Hin as [Hin | Hin]; [by simplify_eq|]).
  all: by apply elem_of_nil in Hin.
Qed.

Lemma dates_checked_before_the_database_witness :
  calls (Tool.get_customer_account_transactions_by_date Sample.host 1
           {| params := <["start_date" := VStr "May 1st"]>
                          (<["account_id" := VInt 1]> ∅);
              state := ∅ |} Sample.db) = [].
Proof.
  refine (proj2 (dates_checked_before_the_database Sample.host 1
    {| params := <["start_date" := VStr "May 1st"]>
                   (<["account_id" := VInt 1]> ∅);
       state := ∅ |} Sample.db _ _)); reflexivity.
Defined.

(** ** Products and offers *)

Lemma by_id_sublist (v : pyval) (l : list Catalog.product) :
  Catalog.by_id v l `sublist_of` l
  ∧ (truthy v = true →
     ∀ p, p ∈ Catalog.by_id v l → Catalog.int_eq (Catalog.product_id p) v = true).
Proof.
  unfold Catalog.by_id. destruct (truthy v); split; try done.
  - apply sublist_filter.
  - intros _ p Hp. by apply list_elem_of_filter in Hp as [? _].
Qed.

(** X20. [get_product] with a non-empty text as [product_id] succeeds with no
    product, whatever the [type]: a text is never equal to an integer id. *)
Theorem get_product_string_id_matches_nothing (lower : string → string)
    (params : gmap string pyval) (s : string) :
  params !! "product_id" = Some (VStr s) → s ≠ "" →
  Catalog.get_product lower params = Catalog.product_response []
  ∧ success (Catalog.get_product lower params) = true
  ∧ ("count", VInt 0) ∈ payload (Catalog.get_product lower params).
Proof.
  intros Hp Hs.
  assert (Catalog.get_product lower params = Catalog.product_response []) as E.
  { unfold Catalog.get_product. rewrite (dict_get_Some _ _ _ Hp).
    assert (Catalog.by_id (VStr s) Catalog.get_products = []) as ->.
    { unfold Catalog.by_id. cbn [truthy].
      rewrite (proj2 (String.eqb_neq s "")) by done. cbn [negb].
      by apply filter_none. }
    cbv zeta. by destruct (truthy _), (dict_get params "type"). }
  rewrite E. split; [done|]. split; [done|]. cbn. right. left.
Qed.

Lemma get_product_string_id_matches_nothing_witness :
  Catalog.get_product (λ s, s) (<["product_id" := VStr "prod-001"]> ∅)
  = Catalog.product_response [].
Proof.
  refine (proj1 (get_product_string_id_matches_nothing (λ s, s)
    (<["product_id" := VStr "prod-001"]> ∅) "prod-001" _ _)).
  - reflexivity.
  - discriminate.
Defined.

(** X21. [get_product] returns a sub-list of the products left by the id
    filter, or fails; it fails only when a [type] that is no text is given and
    the id filter leaves a product. *)
Theorem get_product_outcome (lower : string → string)
    (params : gmap string pyval) :
  let r := Catalog.get_product lower params in
  let wanted := dict_get params "type" in
  let left_by_id := Catalog.by_id (dict_get params "product_id")
                      Catalog.get_products in
  (∃ l, r = Catalog.product_response l ∧ l `sublist_of` left_by_id
        ∧ left_by_id `sublist_of` Catalog.get_products)
  ∨ (success r = false ∧ truthy wanted = true
     ∧ Catalog.type_name wanted ≠ "str" ∧ left_by_id ≠ []).
Proof.
  cbv zeta. unfold Catalog.get_product. cbv zeta.
  pose proof (proj1 (by_id_sublist (dict_get params "product_id")
                       Catalog.get_products)) as Hsub.
  destruct (truthy (dict_get params "type")) eqn:Et; [|left; eauto].
  destruct (Catalog.by_id _ _) as [|p l] eqn:El; [left; eauto|].
  destruct (dict_get params "type") eqn:Ew; try (right; by repeat split).
  left. eexists. split; [done|]. split; [apply sublist_filter|done].
Qed.

(** X22. [get_current_offers] with a customer id that is given but not stored
    returns the customer-not-found error. *)
Theorem get_current_offers_unknown_customer (h : Host)
    (first_word : string → option string) (params : gmap string pyval)
    (db : Database.t) :
  truthy (dict_get params "customer_id") = true →
  Catalog.find_customer h db (dict_get params "customer_id") = inr None →
  Catalog.get_current_offers h first_word params db
  = error_response
      [Lit "Customer not found with ID: "; Val (dict_get params "customer_id")].
Proof.
  intros Ht Hf. unfold Catalog.get_current_offers. cbv zeta.
  by rewrite Ht, Hf.
Qed.

Lemma get_current_offers_unknown_customer_witness :
  success (Catalog.get_current_offers Sample.host Catalog.ascii_first_word
             (<["customer_id" := VInt 9]> ∅) Sample.db) = false.
Proof.
  rewrite (get_current_offers_unknown_customer Sample.host Catalog.ascii_first_word
             (<["customer_id" := VInt 9]> ∅) Sample.db); reflexivity.
Defined.

Lemma model_init_inr (model : string) (str_fields : list string) (s : bool)
    (m e : option text) (p : list (string * pyval)) (r : ToolResponse) :
  model_init model str_fields s m e p = inr r → r = ToolResponse_init s m e p.
Proof. unfold model_init. destruct (filter _ p); [|done]. by intros [= <-]. Qed.

(** X23. When [get_current_offers] succeeds, the offers start with the three
    general ones, at most one personal offer follows, and the payload reports
    their number and whether a customer id was given. *)
Theorem get_current_offers_success (h : Host)
    (first_word : string → option string) (params : gmap string pyval)
    (db : Database.t) :
  let r := Catalog.get_current_offers h first_word params db in
  let customer_id := dict_get params "customer_id" in
  success r = true →
  ∃ offers,
    Catalog.db_get_current_offers h first_word db customer_id = inr offers
    ∧ Catalog.base_offers `prefix_of` offers
    ∧ (length offers ≤ 4)%nat
    ∧ (truthy customer_id = false → offers = Catalog.base_offers)
    ∧ payload r
      = [ ("offers", VList (Catalog.offer_dict <$> offers));
          ("count", VInt (Z.of_nat (length offers)));
          ("personalized", VBool (Catalog.is_not_None customer_id));
          ("customer_id",
           if Catalog.is_not_None customer_id then customer_id else VNone) ].
Proof.
  cbv zeta. unfold Catalog.get_current_offers. cbv zeta.
  set (cid := dict_get params "customer_id").
  assert (∀ offers,
            Catalog.db_get_current_offers h first_word db cid = inr offers →
            Catalog.base_offers `prefix_of` offers ∧ (length offers ≤ 4)%nat
            ∧ (truthy cid = false → offers = Catalog.base_offers)) as Hoffers.
  { intros offers. unfold Catalog.db_get_current_offers.
    destruct (truthy cid).
    - destruct (Catalog.find_customer h db cid) as [e|[c|]]; [done|..].
      + destruct (first_word _); [|done]. intros [= <-].
        split; [by eexists|]. split; [cbn; lia|done].
      + intros [= <-]. split; [done|]. split; [cbn; lia|done].
    - intros [= <-]. split; [done|]. split; [cbn; lia|done]. }
  assert (∀ r,
    match Catalog.db_get_current_offers h first_word db cid with
    | inl p => error_response [Lit "Error retrieving offers: "; p]
    | inr offers =>
        match Catalog.OfferResponse true
                (Some [Lit "Retrieved "; Val (Tool.len offers); Lit " ";
                       Val (VStr (if Catalog.is_not_None cid
                                  then "personalized" else "general"));
                       Lit " offers"]) None
                [("offers", VList (Catalog.offer_dict <$> offers));
                 ("count", Tool.len offers);
                 ("personalized", VBool (Catalog.is_not_None cid));
                 ("customer_id",
                  if Catalog.is_not_None cid then cid else VNone)] with
        | inl e => error_response [Lit "Error retrieving offers: "; Exc e]
        | inr r => r
        end
    end = r → success r = true →
    ∃ offers,
      Catalog.db_get_current_offers h first_word db cid = inr offers
      ∧ Catalog.base_offers `prefix_of` offers
      ∧ (length offers ≤ 4)%nat
      ∧ (truthy cid = false → offers = Catalog.base_offers)
      ∧ payload r
        = [ ("offers", VList (Catalog.offer_dict <$> offers));
            ("count", VInt (Z.of_nat (length offers)));
            ("personalized", VBool (Catalog.is_not_None cid));
            ("customer_id",
             if Catalog.is_not_None cid then cid else VNone) ]) as Hcont.
  { intros r.
    destruct (Catalog.db_get_current_offers h first_word db cid)
      as [p|offers] eqn:E; [by intros <-|].
    destruct (Catalog.OfferResponse _ _ _ _) as [e|r'] eqn:E2; [by intros <-|].
    intros <- _. apply model_init_inr in E2 as ->.
    exists offers. split; [done|].
    destruct (Hoffers offers eq_refl) as (? & ? & ?). done. }
  destruct (truthy cid) eqn:Et.
  - destruct (Catalog.find_customer h db cid) as [e|[c|]]; [done| |done].
    by apply Hcont.
  - by apply Hcont.
Qed.

Lemma get_current_offers_success_witness :
  payload (Catalog.get_current_offers Sample.host Catalog.ascii_first_word
             (<["customer_id" := VStr "1"]> ∅) Sample.db)
  = [ ("offers",
       VList (Catalog.offer_dict <$>
                (Catalog.base_offers
                 ++ [Catalog.Build_offer 100 "Special Offer for John"
                       "Exclusive deal just for you!"])%list));
      ("count", VInt 4); ("personalized", VBool true);
      ("customer_id", VStr "1") ].
Proof.
  destruct (get_current_offers_success Sample.host Catalog.ascii_first_word
              (<["customer_id" := VStr "1"]> ∅) Sample.db)
    as (offers & Ho & _ & _ & _ & Hp); [reflexivity|].
  rewrite Hp. vm_compute in Ho. injection Ho as <-. reflexivity.
Defined.

(** ** The complaint model *)

Lemma apply_resolved_at (c : Complain.t) (op : Complain.call) (t : string) :
  Complain.resolved_at c = Some t →
  Complain.resolved_at (Complain.apply c op) = Some t.
Proof.
  intros Hr. destruct op; cbn.
  - rewrite Hr. cbn. by rewrite andb_false_r.
  - unfold Complain.add_attachment. by case_bool_decide.
  - done.
Qed.

(** X24. Once a complaint has a resolution time, no sequence of
    [update_status], [add_attachment] and [assign_to] changes it, also when
    the complaint is reopened and resolved again. *)
Theorem resolved_at_is_set_once (c : Complain.t) (ops : list Complain.call)
    (t : string) :
  Complain.resolved_at c = Some t →
  Complain.resolved_at (foldl Complain.apply c ops) = Some t.
Proof.
  revert c. induction ops as [|op ops IH]; intros c Hr; [done|].
  cbn. apply IH. by apply apply_resolved_at.
Qed.

Lemma resolved_at_is_set_once_witness :
  let c := Complain.mk "c1" "u1" Complain.FRAUD "Card stolen"
             "My card was stolen" Complain.OPEN Complain.HIGH "t0" "t0" None
             None None [] in
  Complain.resolved_at
    (foldl Complain.apply (Complain.update_status c Complain.RESOLVED None "t1" "t2")
       [Complain.Update_status Complain.REOPENED (Some "again") "t3" "t4";
        Complain.Update_status Complain.RESOLVED None "t5" "t6"])
  = Some "t2".
Proof. intros c. by apply resolved_at_is_set_once. Defined.

Lemma string_app_empty_r (s : string) : s +:+ "" = s.
Proof.
  induction s as [|a s IH]; [done|].
  change (String a (s +:+ "") = String a s). by rewrite IH.
Qed.

Lemma string_app_assoc (s1 s2 s3 : string) :
  (s1 +:+ s2) +:+ s3 = s1 +:+ (s2 +:+ s3).
Proof.
  induction s1 as [|a s1 IH]; [done|].
  change (String a ((s1 +:+ s2) +:+ s3) = String a (s1 +:+ (s2 +:+ s3))).
  by rewrite IH.
Qed.

Lemma string_app_not_empty (s1 s2 : string) : s1 ≠ "" → s1 +:+ s2 ≠ "".
Proof. by destruct s1. Qed.

Lemma apply_notes (c : Complain.t) (op : Complain.call) (old : string) :
  old ≠ "" → Complain.resolution_notes c = Some old →
  ∃ more, Complain.resolution_notes (Complain.apply c op) = Some (old +:+ more).
Proof.
  intros Hne Hn.
  assert (Complain.given (Some old) = true) as Hg
    by (cbn; by apply negb_true_iff, String.eqb_neq).
  destruct op; cbn.
  - rewrite Hn, Hg. destruct (Complain.given notes).
    + eexists. cbn. reflexivity.
    + exists "". by rewrite string_app_empty_r.
  - exists "". rewrite string_app_empty_r.
    unfold Complain.add_attachment. by case_bool_decide.
  - exists "". by rewrite string_app_empty_r.
Qed.

(** X25. Non-empty resolution notes are never lost: after any sequence of
    method calls the notes start with the old text. *)
Theorem resolution_notes_only_grow (c : Complain.t) (ops : list Complain.call)
    (old : string) :
  old ≠ "" → Complain.resolution_notes c = Some old →
  ∃ more,
    Complain.resolution_notes (foldl Complain.apply c ops) = Some (old +:+ more).
Proof.
  revert c old. induction ops as [|op ops IH]; intros c old Hne Hn.
  - exists "". by rewrite string_app_empty_r.
  - cbn. destruct (apply_notes c op old Hne Hn) as [m1 H1].
    destruct (IH _ _ (string_app_not_empty old m1 Hne) H1) as [m2 H2].
    exists (m1 +:+ m2). by rewrite <- string_app_assoc.
Qed.

Lemma resolution_notes_only_grow_witness :
  let c := Complain.mk "c1" "u1" Complain.FRAUD "Card stolen"
             "My card was stolen" Complain.OPEN Complain.HIGH "t0" "t0" None
             (Some "called customer") None [] in
  ∃ more,
    Complain.resolution_notes
      (foldl Complain.apply c
         [Complain.Update_status Complain.RESOLVED (Some "card replaced") "t1"
            "t2"])
    = Some ("called customer" +:+ more).
Proof. intros c. by apply resolution_notes_only_grow. Defined.

Lemma apply_attachments (c : Complain.t) (op : Complain.call) :
  NoDup (Complain.attachments c) →
  NoDup (Complain.attachments (Complain.apply c op))
  ∧ Complain.attachments c `prefix_of` Complain.attachments (Complain.apply c op).
Proof.
  intros Hnd. destruct op; cbn; [done| |done].
  unfold Complain.add_attachment. case_bool_decide as Hin; [done|]. cbn.
  split; [|by eexists]. apply NoDup_app. split; [done|]. split.
  - intros x Hx ->%list_elem_of_singleton. done.
  - apply NoDup_singleton.
Qed.

(** X26. Attachments that are pairwise distinct stay so under any sequence of
    method calls, and the old attachments remain, in their order, at the front
    of the list. *)
Theorem attachments_stay_distinct (c : Complain.t) (ops : list Complain.call) :
  NoDup (Complain.attachments c) →
  NoDup (Complain.attachments (foldl Complain.apply c ops))
  ∧ Complain.attachments c
    `prefix_of` Complain.attachments (foldl Complain.apply c ops).
Proof.
  revert c. induction ops as [|op ops IH]; intros c Hnd; [done|].
  cbn. destruct (apply_attachments c op Hnd) as [H1 H2].
  destruct (IH _ H1) as [H3 H4]. split; [done|]. by etrans.
Qed.

Lemma attachments_stay_distinct_witness :
  let c := Complain.mk "c1" "u1" Complain.FRAUD "Card stolen"
             "My card was stolen" Complain.OPEN Complain.HIGH "t0" "t0" None
             None None ["a.pdf"] in
  NoDup (Complain.attachments
           (foldl Complain.apply c
              [Complain.Add_attachment "b.pdf" "t1";
               Complain.Add_attachment "a.pdf" "t2"])).
Proof.
  intros c. apply attachments_stay_distinct. apply NoDup_singleton.
Defined.


(** ** The shopping cart *)

Lemma dict_set_keys (k : string) (v : Shop.CartItem.t) (d : Shop.cart_dict) :
  (Shop.dict_set k v d).*1 = if decide (k ∈ d.*1) then d.*1 else (d.*1 ++ [k])%list.
Proof.
  induction d as [|[k' v'] d IH]; cbn; [done|].
  destruct (decide (k' = k)) as [->|Hne]; cbn.
  - rewrite decide_True by left. done.
  - rewrite IH. destruct (decide (k ∈ d.*1)) as [Hin|Hnin].
    + rewrite decide_True by (by right). done.
    + rewrite decide_False; [done|].
      intros [->|?]%elem_of_cons; done.
Qed.

Lemma dict_lookup_None (k : string) (d : Shop.cart_dict) :
  Shop.dict_lookup k d = None ↔ k ∉ d.*1.
Proof.
  induction d as [|[k' v'] d IH]; cbn.
  - split; [intros _; apply not_elem_of_nil|done].
  - destruct (decide (k' = k)) as [->|Hne].
    + split; [done|]. intros []. left.
    + rewrite IH, not_elem_of_cons. split; [by intros ?|by intros [_ ?]].
Qed.

Lemma dict_lookup_elem (k : string) (v : Shop.CartItem.t) (d : Shop.cart_dict) :
  Shop.dict_lookup k d = Some v → (k, v) ∈ d.
Proof.
  induction d as [|[k' v'] d IH]; cbn; [done|].
  destruct (decide (k' = k)) as [->|Hne].
  - intros [= ->]. left.
  - intros ?. right. by apply IH.
Qed.

Lemma elem_dict_lookup (k : string) (v : Shop.CartItem.t) (d : Shop.cart_dict) :
  NoDup d.*1 → (k, v) ∈ d → Shop.dict_lookup k d = Some v.
Proof.
  induction d as [|[k' v'] d IH]; cbn; [by intros _ ?%elem_of_nil|].
  intros [Hk Hnd]%NoDup_cons [[= -> ->]|Hin]%elem_of_cons.
  - by rewrite decide_True.
  - destruct (decide (k' = k)) as [->|Hne]; [|by apply IH].
    destruct Hk. apply list_elem_of_fmap. by exists (k, v).
Qed.

Lemma dict_lookup_set (k k' : string) (v : Shop.CartItem.t) (d : Shop.cart_dict) :
  Shop.dict_lookup k' (Shop.dict_set k v d)
  = if decide (k' = k) then Some v else Shop.dict_lookup k' d.
Proof.
  induction d as [|[k0 v0] d IH]; cbn.
  - destruct (decide (k = k')) as [->|?].
    + by rewrite decide_True.
    + by rewrite decide_False.
  - destruct (decide (k0 = k)) as [->|Hne]; cbn.
    + destruct (decide (k = k')) as [->|?].
      * by rewrite decide_True.
      * by rewrite decide_False.
    + destruct (decide (k0 = k')) as [->|?].
      * by rewrite decide_False.
      * done.
Qed.

Lemma dict_lookup_del (k k' : string) (d : Shop.cart_dict) :
  Shop.dict_lookup k' (Shop.dict_del k d)
  = if decide (k' = k) then None else Shop.dict_lookup k' d.
Proof.
  unfold Shop.dict_del, Shop.cart_dict. induction d as [|[k0 v0] d IH].
  - cbn. by destruct (decide _).
  - rewrite filter_cons. cbn [fst].
    destruct (decide (k0 ≠ k)) as [Hne|Heq]; cbn [Shop.dict_lookup].
    + rewrite IH. destruct (decide (k0 = k')) as [->|?]; [|done].
      by rewrite decide_False.
    + apply dec_stable in Heq as ->. rewrite IH.
      destruct (decide (k' = k)) as [->|?]; [done|].
      by rewrite decide_False.
Qed.

Lemma well_keyed_ids (d : Shop.cart_dict) :
  well_keyed d → Shop.CartItem.product_id <$> d.*2 = d.*1.
Proof.
  intros [_ H]. induction d as [|[k v] d IH]; cbn; [done|].
  rewrite (H k v) by left. f_equal. apply IH.
  intros k' v' ?. apply H. by right.
Qed.

Lemma elem_of_dict_set (k k' : string) (v v' : Shop.CartItem.t)
    (d : Shop.cart_dict) :
  (k', v') ∈ Shop.dict_set k v d → (k', v') = (k, v) ∨ (k', v') ∈ d.
Proof.
  induction d as [|[k0 v0] d IH]; cbn.
  - intros ?%list_elem_of_singleton. by left.
  - destruct (decide (k0 = k)) as [->|Hne].
    + intros [?|?]%elem_of_cons; [by left|]. right. by right.
    + intros [->|?]%elem_of_cons.
      * right. by left.
      * destruct (IH ltac:(done)); [by left|]. right. by right.
Qed.

Lemma well_keyed_set (k : string) (v : Shop.CartItem.t) (d : Shop.cart_dict) :
  Shop.CartItem.product_id v = k → well_keyed d →
  well_keyed (Shop.dict_set k v d).
Proof.
  intros Hk [Hnd H]. split.
  - rewrite dict_set_keys. destruct (decide _); [done|].
    apply NoDup_app. split; [done|]. split; [|apply NoDup_singleton].
    by intros x ? ->%list_elem_of_singleton.
  - intros k' v' [[= -> ->]|?]%elem_of_dict_set; [done|]. by apply H.
Qed.

Lemma dict_del_keys (k : string) (d : Shop.cart_dict) :
  (Shop.dict_del k d).*1 = filter (λ k', k' ≠ k) d.*1.
Proof.
  unfold Shop.dict_del, Shop.cart_dict. induction d as [|[k0 v0] d IH]; [done|].
  rewrite fmap_cons, !filter_cons. cbn [fst].
  destruct (decide (k0 ≠ k)); [rewrite fmap_cons|]; by rewrite IH.
Qed.

Lemma well_keyed_del (k : string) (d : Shop.cart_dict) :
  well_keyed d → well_keyed (Shop.dict_del k d).
Proof.
  intros [Hnd H]. split.
  - rewrite dict_del_keys. by apply NoDup_filter.
  - unfold Shop.dict_del, Shop.cart_dict.
    intros k' v' [_ ?]%list_elem_of_filter. by apply H.
Qed.

Lemma well_keyed_from_cart (cart : list Shop.CartItem.t) :
  well_keyed (Shop.from_cart cart).
Proof.
  unfold Shop.from_cart.
  assert (well_keyed []) as H0.
  { split; [apply NoDup_nil_2|]. by intros ?? ?%elem_of_nil. }
  revert H0. generalize (@nil (string * Shop.CartItem.t)).
  induction cart as [|i cart IH]; intros d Hd; cbn; [done|].
  apply IH. by apply well_keyed_set.
Qed.

Lemma well_keyed_remove_one (d : Shop.cart_dict) (pid : string) :
  well_keyed d → well_keyed (Shop.remove_one d pid).
Proof.
  intros Hd. unfold Shop.remove_one.
  destruct (Shop.dict_lookup pid d); [by apply well_keyed_del|done].
Qed.

Lemma well_keyed_add_one (catalog : list Shop.Product.t) (d : Shop.cart_dict)
    (pid : string) :
  well_keyed d → well_keyed (Shop.add_one catalog d pid).
Proof.
  intros Hd. unfold Shop.add_one.
  destruct (Shop.product_in_catalog catalog pid) as [p|]; [|done].
  destruct (Shop.dict_lookup pid d) as [item|] eqn:E.
  - apply well_keyed_set; [|done]. cbn.
    apply dict_lookup_elem in E. by apply Hd.
  - by apply well_keyed_set.
Qed.

Lemma well_keyed_foldl {A} (f : Shop.cart_dict → A → Shop.cart_dict)
    (l : list A) (d : Shop.cart_dict) :
  (∀ d x, well_keyed d → well_keyed (f d x)) →
  well_keyed d → well_keyed (foldl f d l).
Proof.
  intros Hf. revert d. induction l as [|x l IH]; intros d Hd; cbn; [done|].
  apply IH. by apply Hf.
Qed.

Lemma modify_cart_well_keyed (catalog : list Shop.Product.t)
    (cart : list Shop.CartItem.t) (add remove : list string) :
  well_keyed (foldl (Shop.add_one catalog)
                (foldl Shop.remove_one (Shop.from_cart cart) remove) add).
Proof.
  apply well_keyed_foldl; [apply well_keyed_add_one|].
  apply well_keyed_foldl; [apply well_keyed_remove_one|].
  apply well_keyed_from_cart.
Qed.

(** X27. After [modify_cart] the customer's cart holds each product id at most
    once, [get_cart_contents] returns the cart of the result, and the cart of
    every other customer is as before. *)
Theorem modify_cart_ids_distinct (catalog : list Shop.Product.t)
    (carts : gmap string (list Shop.CartItem.t)) (customer_id : string)
    (add remove : list string) :
  let out := Shop.modify_cart catalog carts customer_id add remove in
  NoDup (Shop.CartItem.product_id <$> Shop.cart out.1)
  ∧ Shop.get_cart_contents out.2 customer_id = Shop.cart out.1
  ∧ (∀ other, other ≠ customer_id →
       Shop.get_cart_contents out.2 other = Shop.get_cart_contents carts other)
  ∧ Shop.message out.1 = "Cart updated successfully.".
Proof.
  cbn. unfold Shop.get_cart_contents. split_and!.
  - rewrite well_keyed_ids by apply modify_cart_well_keyed.
    apply modify_cart_well_keyed.
  - by rewrite lookup_insert_eq.
  - intros other Hne. by rewrite lookup_insert_ne.
  - done.
Qed.

Lemma in_catalog (catalog : list Shop.Product.t) (pid : string) :
  is_Some (Shop.product_in_catalog catalog pid)
  ↔ pid ∈ (Shop.Product.product_id <$> catalog).
Proof.
  unfold Shop.product_in_catalog. rewrite head_is_Some. split.
  - intros Hne. destruct (filter _ catalog) as [|p l] eqn:E; [done|].
    assert (p ∈ filter (λ p, Shop.Product.product_id p = pid) catalog) as Hp
      by (rewrite E; left).
    apply list_elem_of_filter in Hp as [<- Hp]. by apply list_elem_of_fmap_2.
  - intros (p & -> & Hp)%list_elem_of_fmap Hnil.
    assert (p ∈ filter (λ q, Shop.Product.product_id q = Shop.Product.product_id p)
                  catalog) as Hin by (by apply list_elem_of_filter).
    rewrite Hnil in Hin. by apply elem_of_nil in Hin.
Qed.

Lemma remove_one_del (d : Shop.cart_dict) (pid : string) :
  Shop.remove_one d pid = Shop.dict_del pid d.
Proof.
  unfold Shop.remove_one. destruct (Shop.dict_lookup pid d) eqn:E; [done|].
  apply dict_lookup_None in E. unfold Shop.dict_del, Shop.cart_dict.
  induction d as [|[k v] d IH]; [done|].
  apply not_elem_of_cons in E as [Hne E]. cbn in Hne.
  rewrite filter_cons_True by (cbn; congruence). f_equal. by apply IH.
Qed.

Lemma keys_from (cart : list Shop.CartItem.t) (d : Shop.cart_dict) (k : string) :
  k ∈ (foldl (λ d item, Shop.dict_set (Shop.CartItem.product_id item) item d)
         d cart).*1
  ↔ k ∈ d.*1 ∨ k ∈ (Shop.CartItem.product_id <$> cart).
Proof.
  revert d. induction cart as [|i cart IH]; intros d; cbn.
  - rewrite elem_of_nil. tauto.
  - rewrite IH, dict_set_keys, elem_of_cons.
    destruct (decide _) as [Hin|Hnin].
    + split; [tauto|]. intros [?|[->|?]]; tauto.
    + rewrite elem_of_app, list_elem_of_singleton. tauto.
Qed.

Lemma keys_remove (remove : list string) (d : Shop.cart_dict) :
  (foldl Shop.remove_one d remove).*1 = filter (λ k, k ∉ remove) d.*1.
Proof.
  revert d. induction remove as [|x remove IH]; intros d; cbn.
  - induction (d.*1) as [|k l IHl]; [done|].
    rewrite filter_cons_True by apply not_elem_of_nil. by f_equal.
  - rewrite IH, remove_one_del, dict_del_keys, list_filter_filter.
    apply list_filter_iff. intros k. rewrite not_elem_of_cons. tauto.
Qed.

Lemma add_one_keys (catalog : list Shop.Product.t) (d : Shop.cart_dict)
    (pid : string) :
  (Shop.add_one catalog d pid).*1
  = if decide (is_Some (Shop.product_in_catalog catalog pid) ∧ pid ∉ d.*1)
    then (d.*1 ++ [pid])%list else d.*1.
Proof.
  unfold Shop.add_one.
  destruct (Shop.product_in_catalog catalog pid) as [p|].
  - destruct (Shop.dict_lookup pid d) as [item|] eqn:E; rewrite dict_set_keys.
    + assert (pid ∈ d.*1) as Hin.
      { apply dict_lookup_elem in E. apply list_elem_of_fmap. by exists (pid, item). }
      rewrite decide_True by done. rewrite decide_False; [done|]. by intros [_ ?].
    + apply dict_lookup_None in E. rewrite decide_False by done.
      by rewrite decide_True.
  - rewrite decide_False; [done|]. by intros [[? ?] _].
Qed.

Lemma keys_add_prefix (catalog : list Shop.Product.t) (add : list string)
    (d : Shop.cart_dict) :
  d.*1 `prefix_of` (foldl (Shop.add_one catalog) d add).*1.
Proof.
  revert d. induction add as [|x add IH]; intros d; cbn; [done|].
  etrans; [|apply IH]. rewrite add_one_keys.
  destruct (decide _); [by apply prefix_app_r|done].
Qed.

Lemma keys_add (catalog : list Shop.Product.t) (add : list string)
    (d : Shop.cart_dict) (k : string) :
  k ∈ (foldl (Shop.add_one catalog) d add).*1
  ↔ k ∈ d.*1 ∨ (k ∈ add ∧ is_Some (Shop.product_in_catalog catalog k)).
Proof.
  revert d. induction add as [|x add IH]; intros d; cbn.
  - rewrite elem_of_nil. tauto.
  - rewrite IH, add_one_keys, elem_of_cons.
    destruct (decide _) as [[Hc Hnin]|Hn].
    + rewrite elem_of_app, list_elem_of_singleton.
      split; [intros [[?| ->]|[? ?]]; tauto|tauto].
    + split; [tauto|]. intros [?|[[ ->|?] Hc]]; [tauto| |tauto].
      destruct (decide (x ∈ d.*1)); [tauto|]. destruct Hn. done.
Qed.

(** X28. A product id is in the cart after [modify_cart] exactly when it was
    in the cart and is not removed, or it is added and the catalog has it. *)
Theorem modify_cart_membership (catalog : list Shop.Product.t)
    (carts : gmap string (list Shop.CartItem.t)) (customer_id : string)
    (add remove : list string) (pid : string) :
  let old := Shop.get_cart_contents carts customer_id in
  let out := Shop.modify_cart catalog carts customer_id add remove in
  pid ∈ (Shop.CartItem.product_id <$> Shop.cart out.1)
  ↔ (pid ∈ (Shop.CartItem.product_id <$> old) ∧ pid ∉ remove)
    ∨ (pid ∈ add ∧ pid ∈ (Shop.Product.product_id <$> catalog)).
Proof.
  cbn. rewrite well_keyed_ids by apply modify_cart_well_keyed.
  rewrite keys_add, keys_remove, list_elem_of_filter, in_catalog.
  unfold Shop.from_cart. rewrite keys_from, elem_of_nil.
  unfold Shop.get_cart_contents. tauto.
Qed.

Lemma elems_from (cart : list Shop.CartItem.t) (d : Shop.cart_dict)
    (k : string) (v : Shop.CartItem.t) :
  (k, v) ∈ foldl (λ d item, Shop.dict_set (Shop.CartItem.product_id item) item d)
             d cart →
  (k, v) ∈ d ∨ v ∈ cart.
Proof.
  revert d. induction cart as [|i cart IH]; intros d; cbn; [by left|].
  intros [[[= -> ->]|?]%elem_of_dict_set|?]%IH.
  - right. left.
  - by left.
  - right. by right.
Qed.

Lemma lookup_remove (remove : list string) (d : Shop.cart_dict) (k : string) :
  Shop.dict_lookup k (foldl Shop.remove_one d remove)
  = if decide (k ∈ remove) then None else Shop.dict_lookup k d.
Proof.
  revert d. induction remove as [|x remove IH]; intros d; cbn.
  - rewrite decide_False; [done|apply not_elem_of_nil].
  - rewrite IH, remove_one_del, dict_lookup_del.
    destruct (decide (k ∈ remove)) as [Hin|Hnin].
    + rewrite decide_True; [done|by right].
    + destruct (decide (k = x)) as [->|Hne].
      * rewrite decide_True; [done|left].
      * rewrite decide_False; [done|].
        intros [?|?]%elem_of_cons; done.
Qed.

Lemma times_cons (pid x : string) (add : list string) :
  times pid (x :: add) = (if decide (x = pid) then 1 else 0) + times pid add.
Proof.
  unfold times. rewrite filter_cons. destruct (decide (x = pid)); cbn; lia.
Qed.

Lemma times_pos (pid : string) (add : list string) :
  0 < times pid add ↔ pid ∈ add.
Proof.
  induction add as [|x add IH]; [by rewrite elem_of_nil|].
  rewrite times_cons, elem_of_cons. unfold times in *.
  destruct (decide (x = pid)) as [->|Hne].
  - split; [by left|lia].
  - rewrite Z.add_0_l, IH. split; [by right|]. by intros [?|?].
Qed.

Lemma lookup_add (catalog : list Shop.Product.t) (add : list string)
    (d : Shop.cart_dict) (k : string) :
  Shop.dict_lookup k (foldl (Shop.add_one catalog) d add)
  = match Shop.product_in_catalog catalog k, Shop.dict_lookup k d with
    | Some p, Some o =>
        Some (Shop.CartItem.mk (Shop.CartItem.product_id o)
                (Shop.CartItem.name o)
                (Shop.CartItem.quantity o + times k add)
                (Shop.CartItem.price o))
    | Some p, None =>
        if decide (k ∈ add)
        then Some (Shop.CartItem.mk k (Shop.Product.name p) (times k add)
                     (Shop.Product.price p))
        else None
    | None, o => o
    end.
Proof.
  revert d. induction add as [|x add IH]; intros d.
  - cbn. destruct (Shop.product_in_catalog catalog k) as [p|]; [|done].
    destruct (Shop.dict_lookup k d) as [[]|]; [|done].
    unfold times. cbn. by rewrite Z.add_0_r.
  - cbn [foldl]. rewrite IH, times_cons. clear IH.
    destruct (decide (x = k)) as [->|Hne].
    + unfold Shop.add_one.
      destruct (Shop.product_in_catalog catalog k) as [p|]; [|done].
      destruct (Shop.dict_lookup k d) as [o|] eqn:E;
        rewrite dict_lookup_set, decide_True by done; cbn.
      * do 2 f_equal. lia.
      * by rewrite decide_True by left.
    + assert (Shop.dict_lookup k (Shop.add_one catalog d x)
              = Shop.dict_lookup k d) as ->.
      { unfold Shop.add_one.
        destruct (Shop.product_in_catalog catalog x); [|done].
        destruct (Shop.dict_lookup x d);
          rewrite dict_lookup_set; by rewrite decide_False. }
      destruct (Shop.product_in_catalog catalog k) as [p|]; [|done].
      destruct (Shop.dict_lookup k d) as [o|]; [done|].
      destruct (decide (k ∈ add)) as [Hin|Hnin].
      * rewrite decide_True; [done|by right].
      * rewrite decide_False; [done|]. intros [?|?]%elem_of_cons; done.
Qed.

(** X29. Every item of the cart after [modify_cart] is either an old item that
    was not removed, with its quantity raised by the number of times its id is
    added (when the catalog has it), or a new item with the catalog's name and
    price and that number as quantity. *)
Theorem modify_cart_items (catalog : list Shop.Product.t)
    (carts : gmap string (list Shop.CartItem.t)) (customer_id : string)
    (add remove : list string) (item : Shop.CartItem.t) :
  let old := Shop.get_cart_contents carts customer_id in
  let out := Shop.modify_cart catalog carts customer_id add remove in
  let pid := Shop.CartItem.product_id item in
  let n := Z.of_nat (length (filter (λ x, x = pid) add)) in
  item ∈ Shop.cart out.1 →
  ((pid ∉ remove)
   ∧ ∃ o, o ∈ old ∧ Shop.CartItem.product_id o = pid
          ∧ Shop.CartItem.name item = Shop.CartItem.name o
          ∧ Shop.CartItem.price item = Shop.CartItem.price o
          ∧ Shop.CartItem.quantity item
            = Shop.CartItem.quantity o
              + (if decide (pid ∈ (Shop.Product.product_id <$> catalog))
                 then n else 0))
  ∨ ((pid ∈ remove ∨ pid ∉ (Shop.CartItem.product_id <$> old))
     ∧ pid ∈ add
     ∧ ∃ p, Shop.product_in_catalog catalog pid = Some p
            ∧ item = Shop.CartItem.mk pid (Shop.Product.name p) n
                       (Shop.Product.price p)).
Proof.
  cbn. fold (Shop.get_cart_contents carts customer_id).
  fold (times (Shop.CartItem.product_id item) add).
  set (old := Shop.get_cart_contents carts customer_id).
  pose proof (modify_cart_well_keyed catalog old add remove) as [Hnd Hwk].
  intros ([k v] & -> & Hin)%list_elem_of_fmap. cbn.
  pose proof (Hwk _ _ Hin) as Hk. apply elem_dict_lookup in Hin; [|done].
  rewrite Hk. clear Hnd Hwk. rewrite lookup_add, lookup_remove in Hin.
  assert (∀ o, Shop.dict_lookup k (Shop.from_cart old) = Some o →
               o ∈ old ∧ Shop.CartItem.product_id o = k) as Hold.
  { intros o Ho. split.
    - apply dict_lookup_elem, elems_from in Ho as [?%elem_of_nil|?]; done.
    - apply (well_keyed_from_cart old). by apply dict_lookup_elem. }
  assert (Shop.dict_lookup k (Shop.from_cart old) = None →
          k ∉ (Shop.CartItem.product_id <$> old)) as Hnone.
  { intros Hn%dict_lookup_None Hc. apply Hn. unfold Shop.from_cart.
    apply keys_from. by right. }
  destruct (Shop.product_in_catalog catalog k) as [p|] eqn:Ep.
  - assert (k ∈ (Shop.Product.product_id <$> catalog)) as Hc
      by (apply in_catalog; by rewrite Ep).
    destruct (decide (k ∈ remove)) as [Hr|Hr].
    + right. destruct (decide (k ∈ add)); [|done]. injection Hin as <-.
      split; [by left|]. split; [done|]. by exists p.
    + destruct (Shop.dict_lookup k (Shop.from_cart old)) as [o|] eqn:Eo.
      * left. injection Hin as <-. cbn. destruct (Hold o eq_refl) as [? ?].
        split; [done|]. exists o. by rewrite decide_True.
      * right. destruct (decide (k ∈ add)); [|done]. injection Hin as <-.
        split; [right; by apply Hnone|]. split; [done|]. by exists p.
  - assert (k ∉ (Shop.Product.product_id <$> catalog)) as Hc.
    { intros Hc%in_catalog. rewrite Ep in Hc. by destruct Hc. }
    destruct (decide (k ∈ remove)) as [Hr|Hr]; [done|].
    left. destruct (Hold v Hin) as [? ?]. split; [done|]. exists v.
    rewrite decide_False by done. split_and!; try done. lia.
Qed.

Lemma modify_cart_items_witness :
  ∃ p, Shop.product_in_catalog Shop.PRODUCT_CATALOG "prd002" = Some p
       ∧ Shop.CartItem.mk "prd002" "Tomato Seeds Pack" 2 (Qmake 499 100)
         = Shop.CartItem.mk "prd002" (Shop.Product.name p) 2
             (Shop.Product.price p).
Proof.
  destruct (modify_cart_items Shop.PRODUCT_CATALOG Shop.CUSTOMER_CART
              "customer-001" ["prd002"; "prd002"] ["prd002"]
              (Shop.CartItem.mk "prd002" "Tomato Seeds Pack" 2 (Qmake 499 100)))
    as [[Hn _]|(_ & _ & H)].
  - vm_compute. left.
  - destruct Hn. left.
  - exact H.
Defined.

Lemma keys_from_NoDup (cart : list Shop.CartItem.t) (d : Shop.cart_dict) :
  NoDup (d.*1 ++ (Shop.CartItem.product_id <$> cart)) →
  (foldl (λ d item, Shop.dict_set (Shop.CartItem.product_id item) item d)
     d cart).*1
  = (d.*1 ++ (Shop.CartItem.product_id <$> cart))%list.
Proof.
  revert d. induction cart as [|i cart IH]; intros d Hnd; cbn.
  - by rewrite app_nil_r.
  - cbn in Hnd. rewrite IH; rewrite dict_set_keys.
    + rewrite decide_False; [by rewrite <- app_assoc|].
      apply NoDup_app in Hnd as (_ & Hd & _). intros Hin.
      apply (Hd _ Hin). left.
    + rewrite decide_False.
      * rewrite <- app_assoc. done.
      * apply NoDup_app in Hnd as (_ & Hd & _). intros Hin.
        apply (Hd _ Hin). left.
Qed.

(** X30. When the old cart has distinct product ids, the items that
    [modify_cart] keeps stay in their order at the front of the new cart; new
    items follow. *)
Theorem modify_cart_keeps_order (catalog : list Shop.Product.t)
    (carts : gmap string (list Shop.CartItem.t)) (customer_id : string)
    (add remove : list string) :
  let old := Shop.get_cart_contents carts customer_id in
  let out := Shop.modify_cart catalog carts customer_id add remove in
  NoDup (Shop.CartItem.product_id <$> old) →
  filter (λ pid, pid ∉ remove) (Shop.CartItem.product_id <$> old)
  `prefix_of` (Shop.CartItem.product_id <$> Shop.cart out.1).
Proof.
  cbn. fold (Shop.get_cart_contents carts customer_id). intros Hnd.
  rewrite well_keyed_ids by apply modify_cart_well_keyed.
  etrans; [|apply keys_add_prefix]. rewrite keys_remove.
  unfold Shop.from_cart. by rewrite keys_from_NoDup.
Qed.

Lemma modify_cart_keeps_order_witness :
  ["prd002"] `prefix_of`
    (Shop.CartItem.product_id <$>
       Shop.cart
         (Shop.modify_cart Shop.PRODUCT_CATALOG Shop.CUSTOMER_CART
            "customer-001" ["prd003"; "prd002"] ["prd001"]).1).
Proof.
  apply (modify_cart_keeps_order Shop.PRODUCT_CATALOG Shop.CUSTOMER_CART
           "customer-001" ["prd003"; "prd002"] ["prd001"]).
  vm_compute. apply NoDup_singleton.
Defined.
